(** * altair_parser.jsonschema: schema nodes, reference resolution and the
      recursive trait/object predicates, embedded from [jsonschema.py]. *)

From Stdlib Require Import String Ascii List ZArith QArith Bool Lia.
From Stdlib Require Import DecimalString.
Import ListNotations.
Set Warnings "-register-all".
Local Open Scope string_scope.
Local Open Scope list_scope.

(** ** Python values

    A schema fragment is whatever [json.load] produces: [None], booleans,
    integers, floats, strings, lists and dicts with string keys.  A dict is
    kept as an association list in insertion order (Python dicts iterate in
    that order); lookups take the first binding of a key.  A string is kept
    as its UTF-8 bytes, so that comparing, splitting at ["/"] and searching
    go byte by byte, while iterating goes character by character. *)

Inductive value : Type :=
| VNone
| VBool (b : bool)
| VInt (z : Z)
| VFloat (q : Q)
| VStr (s : string)
| VList (l : list value)
| VDict (d : list (string * value)).

Definition dict := list (string * value).

(** Exceptions the module raises or lets through.  [ValueErrorKeys msg keys]
    is [ValueError(msg.format(tuple(keys)))]: the rendering of the tuple of
    keys inside the message is kept symbolic. *)
Inductive exn : Type :=
| ValueError (msg : string)
| ValueErrorKeys (msg : string) (keys : list string)
| KeyError (key : string)
| TypeError
| AttributeError (attr : string).

Inductive result (A : Type) : Type :=
| Ok (a : A)
| Err (e : exn).
Arguments Ok {A} a.
Arguments Err {A} e.

Definition bind {A B} (r : result A) (k : A -> result B) : result B :=
  match r with
  | Ok a => k a
  | Err e => Err e
  end.

Notation "x <- r ;; k" := (bind r (fun x => k))
  (at level 61, r at next level, right associativity).

(** *** Built-in operations on values *)

Fixpoint dict_get (d : dict) (key : string) : option value :=
  match d with
  | [] => None
  | (k, v) :: rest => if String.eqb k key then Some v else dict_get rest key
  end.

Definition dict_keys (d : dict) : list string := map fst d.

Definition dict_mem (d : dict) (key : string) : bool :=
  match dict_get d key with Some _ => true | None => false end.

(** [bool(v)] *)
Definition truthy (v : value) : bool :=
  match v with
  | VNone => false
  | VBool b => b
  | VInt z => negb (Z.eqb z 0)
  | VFloat q => negb (Z.eqb (Qnum q) 0)
  | VStr s => negb (String.eqb s "")
  | VList l => match l with [] => false | _ => true end
  | VDict d => match d with [] => false | _ => true end
  end.

(** [v == s] for a string literal [s]: only an equal string compares equal. *)
Definition eq_str (v : value) (s : string) : bool :=
  match v with
  | VStr t => String.eqb t s
  | _ => false
  end.

Definition is_dict (v : value) : bool :=
  match v with VDict _ => true | _ => false end.

Definition is_substring (key s : string) : bool :=
  match String.index 0 key s with Some _ => true | None => false end.

(** [key in v] for a string [key]. *)
Definition contains (v : value) (key : string) : result bool :=
  match v with
  | VDict d => Ok (dict_mem d key)
  | VList l => Ok (existsb (fun x => eq_str x key) l)
  | VStr s => Ok (is_substring key s)
  | _ => Err TypeError
  end.

(** [v[key]] for a string [key]. *)
Definition getitem (v : value) (key : string) : result value :=
  match v with
  | VDict d =>
      match dict_get d key with
      | Some x => Ok x
      | None => Err (KeyError key)
      end
  | _ => Err TypeError
  end.

(** [v.get(key, default)] *)
Definition get_default (v : value) (key : string) (default : value) : result value :=
  match v with
  | VDict d =>
      match dict_get d key with
      | Some x => Ok x
      | None => Ok default
      end
  | _ => Err (AttributeError "get")
  end.

(** A byte that continues a character of several bytes ([10xxxxxx]). *)
Definition is_continuation (c : ascii) : bool :=
  match c with
  | Ascii _ _ _ _ _ _ b6 b7 => b7 && negb b6
  end.

(** The characters of a string, each with all of its bytes. *)
Fixpoint code_points (s : string) : list string :=
  match s with
  | EmptyString => []
  | String c rest =>
      match rest with
      | EmptyString => [String c EmptyString]
      | String c' _ =>
          if is_continuation c' then
            match code_points rest with
            | h :: t => String c h :: t
            | [] => [String c EmptyString]
            end
          else String c EmptyString :: code_points rest
      end
  end.

(** [list(s)]: the one-character strings of a string. *)
Definition chars (s : string) : list value := map VStr (code_points s).

(** The elements a [for] loop over [v] visits. *)
Definition iterate (v : value) : result (list value) :=
  match v with
  | VList l => Ok l
  | VDict d => Ok (map VStr (dict_keys d))
  | VStr s => Ok (chars s)
  | _ => Err TypeError
  end.

(** [s.split('/')] *)
Fixpoint split_slash (s : string) : list string :=
  match s with
  | EmptyString => [EmptyString]
  | String c rest =>
      if Ascii.eqb c "/"%char then EmptyString :: split_slash rest
      else match split_slash rest with
           | [] => [String c EmptyString]
           | h :: t => String c h :: t
           end
  end.

(** ** The extractor classes of [trait_extractors.py], by name *)

Module tx.
Inductive TraitExtractor : Type :=
| AnyOfObject | OneOfObject | AllOfObject
| RefObject | RefTrait
| Not | AnyOf | AllOf | OneOf
| Enum | SimpleType | CompoundType
| Array | Object.
End tx.

(** ** class JSONSchema *)

(** The attributes [__init__] sets.  [context = None] stands for a node that
    is its own context ([self.context is self]); the memo [_trait_extractor]
    is the one attribute written after construction and is threaded
    separately (see [trait_extractor]). *)
Inductive JSONSchema : Type :=
  mkJSONSchema {
    schema : value;
    module : option string;
    parent : option JSONSchema;
    name : option string;
    metadata : dict;
    context : option JSONSchema;
    definition_tags : list string
  }.

Definition attr_defaults : dict :=
  [ ("title", VStr "");
    ("description", VStr "");
    ("properties", VDict []);
    ("definitions", VDict []);
    ("default", VNone);
    ("examples", VDict []);
    ("type", VStr "object");
    ("required", VList []);
    ("additionalProperties", VBool true) ].

Definition trait_extractors : list tx.TraitExtractor :=
  [ tx.AnyOfObject; tx.OneOfObject; tx.AllOfObject;
    tx.RefObject; tx.RefTrait;
    tx.Not; tx.AnyOf; tx.AllOf; tx.OneOf;
    tx.Enum; tx.SimpleType; tx.CompoundType;
    tx.Array; tx.Object ].

Definition default_definition_tags : list string := ["definitions"].

(** [JSONSchema(schema, module, context, parent, name, metadata,
    definition_tags)].  [metadata or {}] maps both [None] and the empty dict
    to the empty dict; [context or self] keeps a given context (an instance
    is always true) and otherwise makes the node its own context. *)
Definition __init__ (schema0 : value) (module0 : option string)
    (context0 parent0 : option JSONSchema) (name0 : option string)
    (metadata0 : option dict) (definition_tags0 : list string)
  : result JSONSchema :=
  if negb (is_dict schema0) then
    Err (ValueError "schema should be supplied as a dict")
  else
    Ok {| schema := schema0;
          module := module0;
          parent := parent0;
          name := name0;
          metadata := match metadata0 with Some m => m | None => [] end;
          context := context0;
          definition_tags := definition_tags0 |}.

(** [self.context] *)
Definition get_context (self : JSONSchema) : JSONSchema :=
  match context self with
  | Some c => c
  | None => self
  end.

(** [is_root]: [self.context is self] *)
Definition is_root (self : JSONSchema) : bool :=
  match context self with
  | Some _ => false
  | None => true
  end.

(** Keyword arguments [copy] may overwrite. *)
Record copy_kwargs : Type := {
  kw_schema : option value;
  kw_module : option (option string);
  kw_context : option (option JSONSchema);
  kw_parent : option (option JSONSchema);
  kw_name : option (option string);
  kw_metadata : option (option dict);
  kw_definition_tags : option (list string)
}.


Definition or_else {A} (o : option A) (a : A) : A :=
  match o with Some x => x | None => a end.

Definition copy (self : JSONSchema) (kwargs : copy_kwargs) : result JSONSchema :=
  __init__ (or_else (kw_schema kwargs) (schema self))
           (or_else (kw_module kwargs) (module self))
           (or_else (kw_context kwargs) (Some (get_context self)))
           (or_else (kw_parent kwargs) (parent self))
           (or_else (kw_name kwargs) (name self))
           (or_else (kw_metadata kwargs) (Some (metadata self)))
           (or_else (kw_definition_tags kwargs) default_definition_tags).

Definition make_child (self : JSONSchema) (schema0 : value)
    (name0 : option string) (metadata0 : option dict) : result JSONSchema :=
  __init__ schema0 (module self) (Some (get_context self)) (Some self)
           name0 metadata0 default_definition_tags.

(** [self[key]] and [key in self] *)
Definition __getitem__ (self : JSONSchema) (key : string) : result value :=
  getitem (schema self) key.

Definition __contains__ (self : JSONSchema) (key : string) : result bool :=
  contains (schema self) key.

(** [__getattr__]: reached for the names no instance attribute, property or
    method answers; all nine keys of [attr_defaults] are such names. *)
Definition __getattr__ (self : JSONSchema) (attr : string) : result value :=
  match dict_get attr_defaults attr with
  | Some default => get_default (schema self) attr default
  | None => Err (AttributeError attr)
  end.

(** Reading a property.  The class defines [__getattr__], so when the getter
    of a property raises [AttributeError], Python falls back to
    [__getattr__(name)] for the name of the property; no property is a key
    of [attr_defaults], so that call raises [AttributeError] for the
    property's own name, and the error of the getter is lost.  Every other
    outcome of the getter is what the reader sees. *)
Definition result_property {A} (name0 : string) (getter : result A) : result A :=
  match getter with
  | Err (AttributeError _) => Err (AttributeError name0)
  | _ => getter
  end.

(** The property [is_reference]; its getter raises no [AttributeError]. *)
Definition is_reference (self : JSONSchema) : result bool :=
  contains (schema self) "$ref".

(** [for key in path[1:]: schema = schema[key]] *)
Fixpoint walk (fragment : value) (keys : list string) : result value :=
  match keys with
  | [] => Ok fragment
  | key :: rest => next <- getitem fragment key ;; walk next rest
  end.

Definition get_reference (self : JSONSchema) (ref : value) : result JSONSchema :=
  if negb (truthy ref) then Err (ValueError "empty reference")
  else
    match ref with
    | VStr r =>
        let path := split_slash r in
        let name0 := last path "" in
        if negb (String.eqb (hd "" path) "#") then
          Err (ValueError ("Unrecognized $ref format: '" ++ r ++ "'"))
        else if (length path =? 1)%nat || String.eqb (nth 1 path "") "" then
          Ok (get_context self)
        else
          match walk (schema (get_context self)) (tl path) with
          | Err (KeyError _) =>
              Err (ValueError ("$ref='" ++ r ++ "' not present in the schema"))
          | Err e => Err e
          | Ok fragment => make_child self fragment (Some name0) None
          end
    | _ => Err (AttributeError "split")
    end.

Definition wrapped_ref (self : JSONSchema) : result JSONSchema :=
  ref <- __getitem__ self "$ref" ;; get_reference self ref.

(** *** The recursive predicates

    [really_is_trait] and [really_is_object] call themselves on resolved
    references and on children, with nothing that bounds the depth.  They are
    embedded with a recursion budget: [None] is "budget exhausted", and a
    call that answers [None] for every budget is a call that never returns. *)

Definition comp (A : Type) : Type := option (result A).

Definition lift {A} (r : result A) : comp A := Some r.

Definition cbind {A B} (c : comp A) (k : A -> comp B) : comp B :=
  match c with
  | None => None
  | Some (Err e) => Some (Err e)
  | Some (Ok a) => k a
  end.

Notation "x <~ c ;; k" := (cbind c (fun x => k))
  (at level 61, c at next level, right associativity).

(** Reading a property whose getter may run out of budget (see
    [result_property]). *)
Definition as_property {A} (name0 : string) (getter : comp A) : comp A :=
  match getter with
  | Some (Err (AttributeError _)) => Some (Err (AttributeError name0))
  | _ => getter
  end.

(** [all(f(x) for x in xs)]: stops at the first [False]. *)
Fixpoint all_m {A} (f : A -> comp bool) (xs : list A) : comp bool :=
  match xs with
  | [] => Some (Ok true)
  | x :: rest => b <~ f x ;; if b then all_m f rest else Some (Ok false)
  end.

(** The values [for spec in self[key]] visits. *)
Definition branches (self : JSONSchema) (key : string) : result (list value) :=
  v <- __getitem__ self key ;; iterate v.

(** [self.make_child(spec).p()] *)
Definition on_child (p : JSONSchema -> comp bool) (self : JSONSchema)
    (spec : value) : comp bool :=
  child <~ lift (make_child self spec None None) ;; p child.

(** [all(self.make_child(spec).p() for spec in self[key])] *)
Definition all_children (p : JSONSchema -> comp bool) (self : JSONSchema)
    (key : string) : comp bool :=
  specs <~ lift (branches self key) ;; all_m (on_child p self) specs.

(** The body of [really_is_trait], with [recur] for the method itself. *)
Definition really_is_trait_body (recur : JSONSchema -> comp bool)
    (self : JSONSchema) : comp bool :=
  type <~ lift (__getattr__ self "type") ;;
  if negb (eq_str type "object") then Some (Ok true)
  else
    has_properties <~ lift (__contains__ self "properties") ;;
    if has_properties then Some (Ok false)
    else
      has_ref <~ lift (__contains__ self "$ref") ;;
      if has_ref then
        target <~ lift (wrapped_ref self) ;; recur target
      else
        has_anyOf <~ lift (__contains__ self "anyOf") ;;
        if has_anyOf then all_children recur self "anyOf"
        else
          has_allOf <~ lift (__contains__ self "allOf") ;;
          if has_allOf then all_children recur self "allOf"
          else
            has_oneOf <~ lift (__contains__ self "oneOf") ;;
            if has_oneOf then all_children recur self "oneOf"
            else Some (Ok false).

Fixpoint really_is_trait (fuel : nat) (self : JSONSchema) : comp bool :=
  match fuel with
  | O => None
  | S fuel' => really_is_trait_body (really_is_trait fuel') self
  end.

(** The body of [really_is_object], with [recur] for the method itself. *)
Definition really_is_object_body (recur : JSONSchema -> comp bool)
    (self : JSONSchema) : comp bool :=
  has_properties <~ lift (__contains__ self "properties") ;;
  if has_properties then Some (Ok true)
  else
    has_ref <~ lift (__contains__ self "$ref") ;;
    if has_ref then
      target <~ lift (wrapped_ref self) ;; recur target
    else
      has_anyOf <~ lift (__contains__ self "anyOf") ;;
      if has_anyOf then all_children recur self "anyOf"
      else
        has_allOf <~ lift (__contains__ self "allOf") ;;
        if has_allOf then all_children recur self "allOf"
        else
          has_oneOf <~ lift (__contains__ self "oneOf") ;;
          if has_oneOf then all_children recur self "oneOf"
          else Some (Ok false).

Fixpoint really_is_object (fuel : nat) (self : JSONSchema) : comp bool :=
  match fuel with
  | O => None
  | S fuel' => really_is_object_body (really_is_object fuel') self
  end.

(** The properties [is_trait] and [is_object], the shallow versions, as
    their reader sees them. *)
Definition is_trait (self : JSONSchema) : result bool :=
  result_property "is_trait"
    (a <- __contains__ self "anyOf" ;;
     if a then Ok true else
     b <- __contains__ self "allOf" ;;
     if b then Ok true else
     c <- __contains__ self "oneOf" ;;
     if c then Ok true else
     type <- __getattr__ self "type" ;;
     if negb (eq_str type "object") then (r <- is_reference self ;; Ok (negb r))
     else Ok false).

Definition is_object (self : JSONSchema) : result bool :=
  result_property "is_object"
    (a <- __contains__ self "anyOf" ;;
     if a then Ok false else
     b <- __contains__ self "allOf" ;;
     if b then Ok false else
     c <- __contains__ self "oneOf" ;;
     if c then Ok false else
     type <- __getattr__ self "type" ;;
     if eq_str type "object" then (r <- is_reference self ;; Ok (negb r))
     else Ok false).

(** A root node over a fragment: [JSONSchema(fragment)]. *)
Definition root_of (fragment : dict) : JSONSchema :=
  {| schema := VDict fragment; module := None; parent := None; name := None;
     metadata := []; context := None;
     definition_tags := default_definition_tags |}.

(** Nodes obtained from the constructor, with constructed context and
    parent. *)
Inductive constructed : JSONSchema -> Prop :=
| constructed_init schema0 module0 context0 parent0 name0 metadata0 tags self :
    (forall c, context0 = Some c -> constructed c) ->
    (forall p, parent0 = Some p -> constructed p) ->
    __init__ schema0 module0 context0 parent0 name0 metadata0 tags = Ok self ->
    constructed self.

(** The nodes a [copy_kwargs] brings in. *)
Definition kwargs_constructed (kwargs : copy_kwargs) : Prop :=
  (forall c, kw_context kwargs = Some (Some c) -> constructed c) /\
  (forall p, kw_parent kwargs = Some (Some p) -> constructed p).

(** ** Example documents *)

Definition ex_fragment_A : dict := [("$ref", VStr "#/definitions/A")].

Definition ex_document : dict :=
  [("definitions", VDict [("A", VDict ex_fragment_A)]);
   ("$ref", VStr "#/definitions/A")].

Definition ex_root : JSONSchema := root_of ex_document.

Definition ex_child : JSONSchema :=
  {| schema := VDict ex_fragment_A; module := None; parent := Some ex_root;
     name := Some "A"; metadata := []; context := Some ex_root;
     definition_tags := default_definition_tags |}.

(** ** Reading of a reference

    The two shapes [get_reference] can answer with, and the ways the walk
    through the context's fragment can end. *)

(** [target] wraps the fragment the path of [r] reaches from the context's
    fragment, as a child of [self]. *)
Definition wraps_walked_fragment (self : JSONSchema) (r : string)
    (target : JSONSchema) : Prop :=
  walk (schema (get_context self)) (tl (split_slash r)) = Ok (schema target) /\
  name target = Some (last (split_slash r) "") /\
  module target = module self /\
  context target = Some (get_context self) /\
  parent target = Some self.

(** Resolution as the specification words it: ["#"] alone is the context
    root, every other accepted reference is walked. *)
Definition resolves_as_specified (self : JSONSchema) (r : string)
    (target : JSONSchema) : Prop :=
  if String.eqb r "#" then target = get_context self
  else wraps_walked_fragment self r target.

(** References that designate the context root: ["#"], ["#/"], and any
    reference that starts with ["#//"]. *)
Definition designates_root (r : string) : Prop :=
  r = "#" \/ r = "#/" \/ exists rest, r = ("#//" ++ rest)%string.

(** The walk meets a key that the dict it has reached does not hold. *)
Definition missing_segment (fragment : value) (keys : list string) : Prop :=
  exists before key after d,
    keys = before ++ key :: after /\
    walk fragment before = Ok (VDict d) /\ dict_get d key = None.

(** The walk has a key left when it has reached something that is not a
    dict. *)
Definition indexes_non_dict (fragment : value) (keys : list string) : Prop :=
  exists before key after v,
    keys = before ++ key :: after /\
    walk fragment before = Ok v /\ is_dict v = false.

(** The claim's wording of when resolution succeeds: a non-empty local
    reference resolves unless its walk meets a missing segment. *)
Definition fails_only_as_specified (self : JSONSchema) (r : string) : Prop :=
  r <> "" -> hd "" (split_slash r) = "#" ->
  ~ missing_segment (schema (get_context self)) (tl (split_slash r)) ->
  exists target, get_reference self (VStr r) = Ok target.

(** ** Object-like nodes *)

(** The nodes on which [really_is_object] answers [True], as a derivation:
    the keywords are looked at in the order [properties], [$ref], [anyOf],
    [allOf], [oneOf], and only the first one present counts. *)
Inductive object_like : JSONSchema -> Prop :=
| object_like_properties self :
    __contains__ self "properties" = Ok true ->
    object_like self
| object_like_ref self target :
    __contains__ self "properties" = Ok false ->
    __contains__ self "$ref" = Ok true ->
    wrapped_ref self = Ok target ->
    object_like target ->
    object_like self
| object_like_anyOf self specs :
    __contains__ self "properties" = Ok false ->
    __contains__ self "$ref" = Ok false ->
    __contains__ self "anyOf" = Ok true ->
    branches self "anyOf" = Ok specs ->
    all_object_like self specs ->
    object_like self
| object_like_allOf self specs :
    __contains__ self "properties" = Ok false ->
    __contains__ self "$ref" = Ok false ->
    __contains__ self "anyOf" = Ok false ->
    __contains__ self "allOf" = Ok true ->
    branches self "allOf" = Ok specs ->
    all_object_like self specs ->
    object_like self
| object_like_oneOf self specs :
    __contains__ self "properties" = Ok false ->
    __contains__ self "$ref" = Ok false ->
    __contains__ self "anyOf" = Ok false ->
    __contains__ self "allOf" = Ok false ->
    __contains__ self "oneOf" = Ok true ->
    branches self "oneOf" = Ok specs ->
    all_object_like self specs ->
    object_like self
with all_object_like : JSONSchema -> list value -> Prop :=
| all_object_like_nil self : all_object_like self []
| all_object_like_cons self spec specs child :
    make_child self spec None None = Ok child ->
    object_like child ->
    all_object_like self specs ->
    all_object_like self (spec :: specs).

Scheme object_like_ind2 := Minimality for object_like Sort Prop
  with all_object_like_ind2 := Minimality for all_object_like Sort Prop.

(** Object-like as the specification words it: the three alternatives side
    by side, with no order among the keywords. *)
Inductive object_like_spec : JSONSchema -> Prop :=
| object_like_spec_properties self :
    __contains__ self "properties" = Ok true ->
    object_like_spec self
| object_like_spec_ref self target :
    __contains__ self "$ref" = Ok true ->
    wrapped_ref self = Ok target ->
    object_like_spec target ->
    object_like_spec self
| object_like_spec_branches self key specs :
    key = "anyOf" \/ key = "allOf" \/ key = "oneOf" ->
    __contains__ self key = Ok true ->
    branches self key = Ok specs ->
    all_object_like_spec self specs ->
    object_like_spec self
with all_object_like_spec : JSONSchema -> list value -> Prop :=
| all_object_like_spec_nil self : all_object_like_spec self []
| all_object_like_spec_cons self spec specs child :
    make_child self spec None None = Ok child ->
    object_like_spec child ->
    all_object_like_spec self specs ->
    all_object_like_spec self (spec :: specs).

(** A node with a [$ref] to a string-typed definition and an [anyOf] whose
    only branch declares properties. *)
Definition ex_ref_and_anyOf : JSONSchema :=
  root_of [("definitions", VDict [("S", VDict [("type", VStr "string")])]);
           ("$ref", VStr "#/definitions/S");
           ("anyOf", VList [VDict [("properties", VDict [])]])].

(** An [anyOf] of an object branch and a primitive branch. *)
Definition ex_mixed_anyOf : JSONSchema :=
  root_of [("anyOf", VList [VDict [("properties", VDict [])];
                            VDict [("type", VStr "string")]])].

(** ** Cyclic references *)

(** A recursive method never returns on [self]: no budget gives an answer
    (in Python the interpreter's recursion limit ends the run). *)
Definition never_returns (method : nat -> JSONSchema -> comp bool)
    (self : JSONSchema) : Prop :=
  forall fuel, method fuel self = None.

(** A recursive method reports an error on [self]. *)
Definition reports_error (method : nat -> JSONSchema -> comp bool)
    (self : JSONSchema) : Prop :=
  exists fuel e, method fuel self = Some (Err e).

(** The fragment's [$ref] is a reference that, walked from [root], reaches
    [target]. *)
Definition ref_reaches (fragment root target : value) : Prop :=
  exists r,
    getitem fragment "$ref" = Ok (VStr r) /\
    hd "" (split_slash r) = "#" /\ ~ designates_root r /\
    walk root (tl (split_slash r)) = Ok target.

(** [self.type == 'object'], by default or as written. *)
Definition object_typed (fragment : value) : Prop :=
  exists type,
    get_default fragment "type" (VStr "object") = Ok type /\
    eq_str type "object" = true.

(** A definition whose [$ref] points back to itself. *)
Definition self_reference (self : JSONSchema) : Prop :=
  is_dict (schema self) = true /\
  contains (schema self) "properties" = Ok false /\
  ref_reaches (schema self) (schema (get_context self)) (schema self).

(** [key] is the composition keyword the cascade of [elif]s picks. *)
Definition first_composition (fragment : value) (key : string) : Prop :=
  (key = "anyOf" /\ contains fragment "anyOf" = Ok true) \/
  (key = "allOf" /\ contains fragment "anyOf" = Ok false /\
   contains fragment "allOf" = Ok true) \/
  (key = "oneOf" /\ contains fragment "anyOf" = Ok false /\
   contains fragment "allOf" = Ok false /\ contains fragment "oneOf" = Ok true).

(** A definition whose composition keyword [key] has, as first branch, the
    fragment [branch] whose [$ref] points back to the definition. *)
Definition self_reference_through (key : string) (branch : dict)
    (self : JSONSchema) : Prop :=
  is_dict (schema self) = true /\
  contains (schema self) "properties" = Ok false /\
  contains (schema self) "$ref" = Ok false /\
  first_composition (schema self) key /\
  (exists rest, branches self key = Ok (VDict branch :: rest)) /\
  dict_mem branch "properties" = false /\
  ref_reaches (VDict branch) (schema (get_context self)) (schema self).

(** A set of nodes that a method body cannot leave: if the recursive calls
    on the set never return, neither does the body. *)
Definition trapping
    (body : (JSONSchema -> comp bool) -> JSONSchema -> comp bool)
    (nodes : JSONSchema -> Prop) : Prop :=
  forall recur,
    (forall n, nodes n -> recur n = None) ->
    forall n, nodes n -> body recur n = None.

(** [{"definitions": {"A": {"allOf": [{"$ref": "#/definitions/A"}]}},
      "$ref": "#/definitions/A"}] *)
Definition ex_allOf_branch : dict := [("$ref", VStr "#/definitions/A")].

Definition ex_allOf_fragment : dict := [("allOf", VList [VDict ex_allOf_branch])].

Definition ex_allOf_root : JSONSchema :=
  root_of [("definitions", VDict [("A", VDict ex_allOf_fragment)]);
           ("$ref", VStr "#/definitions/A")].

Definition ex_allOf_node : JSONSchema :=
  {| schema := VDict ex_allOf_fragment; module := None;
     parent := Some ex_allOf_root; name := Some "A"; metadata := [];
     context := Some ex_allOf_root;
     definition_tags := default_definition_tags |}.

(** A cyclic definition whose [allOf] has a string-typed branch before the
    branch that points back. *)
Definition ex_guarded_cycle : JSONSchema :=
  root_of [("definitions",
            VDict [("A", VDict [("allOf", VList [VDict [("type", VStr "string")];
                                                 VDict [("$ref", VStr "#/definitions/A")]])])]);
           ("allOf", VList [VDict [("type", VStr "string")];
                            VDict [("$ref", VStr "#/definitions/A")]])].

(** What both method bodies do once [properties] is known to be absent. *)
Definition composition_cascade (recur : JSONSchema -> comp bool)
    (self : JSONSchema) : comp bool :=
  has_ref <~ lift (__contains__ self "$ref") ;;
  if has_ref then
    target <~ lift (wrapped_ref self) ;; recur target
  else
    has_anyOf <~ lift (__contains__ self "anyOf") ;;
    if has_anyOf then all_children recur self "anyOf"
    else
      has_allOf <~ lift (__contains__ self "allOf") ;;
      if has_allOf then all_children recur self "allOf"
      else
        has_oneOf <~ lift (__contains__ self "oneOf") ;;
        if has_oneOf then all_children recur self "oneOf"
        else Some (Ok false).

(** ** The extractor chain

    [trait_extractors.py] is not among the sources: what
    [TraitExtractor(self).check()] answers is a parameter, as is the code an
    extractor emits.  A check may consult the recursive predicates, so it
    answers in [comp]. *)

Section ExtractorChain.

Variable check : tx.TraitExtractor -> JSONSchema -> comp bool.

(** [for TraitExtractor in extractors: if TraitExtractor(self).check(): ...]
    with [None] for the loop's [else]. *)
Fixpoint first_match (self : JSONSchema) (extractors : list tx.TraitExtractor)
  : comp (option tx.TraitExtractor) :=
  match extractors with
  | [] => Some (Ok None)
  | extractor :: rest =>
      matches <~ check extractor self ;;
      if matches then Some (Ok (Some extractor)) else first_match self rest
  end.

(** [tuple(self.schema.keys())] *)
Definition schema_keys (self : JSONSchema) : result (list string) :=
  match schema self with
  | VDict d => Ok (dict_keys d)
  | _ => Err (AttributeError "keys")
  end.

Definition no_trait_code (self : JSONSchema) : result exn :=
  keys <- schema_keys self ;;
  Ok (ValueErrorKeys "No recognized trait code for schema with keys {0}" keys).

Definition no_object_code (self : JSONSchema) : result exn :=
  keys <- schema_keys self ;;
  Ok (ValueErrorKeys "No recognized object code for schema with keys {0}" keys).

(** [raise error] where building the error may itself fail. *)
Definition raise {A} (error : result exn) : comp A :=
  match error with
  | Ok e => Some (Err e)
  | Err e => Some (Err e)
  end.

(** The property [trait_extractor], as its reader sees it.  [memo] is
    [self._trait_extractor] before the access; the answer carries the
    extractor and the memo after it. *)
Definition trait_extractor (memo : option tx.TraitExtractor)
    (self : JSONSchema)
  : comp (tx.TraitExtractor * option tx.TraitExtractor) :=
  as_property "trait_extractor"
    match memo with
    | Some extractor => Some (Ok (extractor, memo))
    | None =>
        found <~ first_match self trait_extractors ;;
        match found with
        | Some extractor => Some (Ok (extractor, Some extractor))
        | None => raise (no_trait_code self)
        end
    end.

(** The keyword arguments [trait_code] passes on. *)
Definition trait_code_kwargs (self : JSONSchema) : dict :=
  if truthy (or_else (dict_get (metadata self) "required") (VBool false))
  then [("allow_undefined", VBool false)]
  else [].

Variable extractor_trait_code :
  tx.TraitExtractor -> JSONSchema -> dict -> comp string.
Variable extractor_object_code : tx.TraitExtractor -> JSONSchema -> comp string.

Definition trait_code (self : JSONSchema) : comp string :=
  as_property "trait_code"
    (let kwargs := trait_code_kwargs self in
     found <~ first_match self trait_extractors ;;
     match found with
     | Some extractor => extractor_trait_code extractor self kwargs
     | None => raise (no_trait_code self)
     end).

Definition object_code (self : JSONSchema) : comp string :=
  found <~ first_match self trait_extractors ;;
  match found with
  | Some extractor => extractor_object_code extractor self
  | None => raise (no_object_code self)
  end.

End ExtractorChain.

(** [extractor] is the first of [extractors] whose check answers [True],
    every check before it answering [False]. *)
Definition first_to_match (check : tx.TraitExtractor -> JSONSchema -> comp bool)
    (self : JSONSchema) (extractors : list tx.TraitExtractor)
    (extractor : tx.TraitExtractor) : Prop :=
  exists before after,
    extractors = before ++ extractor :: after /\
    (forall e, In e before -> check e self = Some (Ok false)) /\
    check extractor self = Some (Ok true).

(** A stand-in check for examples: [Enum] matches a fragment with an [enum]
    key, [Object] a fragment whose type is ["object"], nothing else
    matches. *)
Definition ex_check (extractor : tx.TraitExtractor) (self : JSONSchema)
  : comp bool :=
  match extractor with
  | tx.Enum => lift (__contains__ self "enum")
  | tx.Object =>
      lift (type <- __getattr__ self "type" ;; Ok (eq_str type "object"))
  | _ => Some (Ok false)
  end.

(** ** Properties of an object and their [required] flag *)

(** [d.items()] *)
Definition items (v : value) : result (list (string * value)) :=
  match v with
  | VDict d => Ok d
  | _ => Err (AttributeError "items")
  end.

(** [d[key] = a] on a dict keyed by strings: the binding is replaced in
    place when the key is there, appended otherwise. *)
Fixpoint assoc_set {A} (d : list (string * A)) (key : string) (a : A)
  : list (string * A) :=
  match d with
  | [] => [(key, a)]
  | (k, b) :: rest =>
      if String.eqb k key then (k, a) :: rest else (k, b) :: assoc_set rest key a
  end.

(** [self.make_child(val, metadata={'required': name in self.required})] *)
Definition property_child (self : JSONSchema) (name0 : string) (val : value)
  : result JSONSchema :=
  required <- __getattr__ self "required" ;;
  is_required <- contains required name0 ;;
  make_child self val None (Some [("required", VBool is_required)]).

Section WrappedProperties.

(** [utils.regularize_name], from a module that is not among the
    sources. *)
Variable regularize_name : string -> string.

Fixpoint wrap_properties (self : JSONSchema) (props : list (string * value))
    (acc : list (string * JSONSchema)) : result (list (string * JSONSchema)) :=
  match props with
  | [] => Ok acc
  | (name0, val) :: rest =>
      child <- property_child self name0 val ;;
      wrap_properties self rest (assoc_set acc (regularize_name name0) child)
  end.

Definition wrapped_properties (self : JSONSchema)
  : result (list (string * JSONSchema)) :=
  properties <- __getattr__ self "properties" ;;
  props <- items properties ;;
  wrap_properties self props [].

End WrappedProperties.

(** ** Validators

    [jstraitlets.py], the validator library ([JSONNull] ... [JSONNot],
    [undefined]), is not among the sources; only its tests are.  The
    definitions of this module follow section 4.3 of the specification and
    keep the class names the tests use.  Only the pass/fail outcome of
    [validate] is modelled. *)

Module jst.

(** Modelled from the spec: the values [validate] of the missing
    [jstraitlets.py] is given, the [undefined] sentinel ("property absent",
    distinct from [None]) or a value. *)
Inductive pyvalue : Type :=
| undefined
| defined (v : value).

Record bounds : Type := {
  minimum : option Q;
  maximum : option Q;
  exclusiveMinimum : bool;
  exclusiveMaximum : bool;
  multipleOf : option Q
}.

Definition no_bounds : bounds :=
  {| minimum := None; maximum := None; exclusiveMinimum := false;
     exclusiveMaximum := false; multipleOf := None |}.

(** Modelled from the spec: the native composite types [JSONInstance] of
    the missing [jstraitlets.py] is used with. *)
Inductive native : Type := native_dict | native_list.

(** Modelled from the spec: the validator descriptors, the classes of the
    missing [jstraitlets.py]; each carries its [allow_undefined] flag, the
    numeric ones their bounds. *)
Inductive trait : Type :=
| JSONNull (allow_undefined : bool)
| JSONBoolean (allow_undefined : bool)
| JSONNumber (allow_undefined : bool) (constraints : bounds)
| JSONInteger (allow_undefined : bool) (constraints : bounds)
| JSONString (allow_undefined : bool)
| JSONArray (allow_undefined : bool) (item : trait)
            (minItems maxItems : option nat)
| JSONEnum (allow_undefined : bool) (values : list value)
| JSONInstance (allow_undefined : bool) (klass : native)
| JSONUnion (allow_undefined : bool) (members : list trait)
| JSONAnyOf (allow_undefined : bool) (branches : list trait)
| JSONOneOf (allow_undefined : bool) (branches : list trait)
| JSONAllOf (allow_undefined : bool) (branches : list trait)
| JSONNot (allow_undefined : bool) (wrapped : trait).

Definition allow_undefined (t : trait) : bool :=
  match t with
  | JSONNull a | JSONBoolean a | JSONNumber a _ | JSONInteger a _
  | JSONString a | JSONArray a _ _ _ | JSONEnum a _ | JSONInstance a _
  | JSONUnion a _ | JSONAnyOf a _ | JSONOneOf a _ | JSONAllOf a _
  | JSONNot a _ => a
  end.

(** Modelled from the spec: the flag a descriptor of the missing
    [jstraitlets.py] carries when it is built with the keyword arguments
    [kwargs]: [true] unless the arguments say otherwise. *)
Definition allow_undefined_of (kwargs : dict) : bool :=
  match dict_get kwargs "allow_undefined" with
  | Some v => truthy v
  | None => true
  end.

(** Numeric values; booleans are not numbers. *)
Definition as_number (v : value) : option Q :=
  match v with
  | VInt z => Some (inject_Z z)
  | VFloat q => Some q
  | _ => None
  end.

Definition integral (q : Q) : bool := Pos.eqb (Qden (Qred q)) 1.

Definition within (c : bounds) (q : Q) : bool :=
  match minimum c with
  | Some m => if exclusiveMinimum c then negb (Qle_bool q m) else Qle_bool m q
  | None => true
  end
  && match maximum c with
     | Some m => if exclusiveMaximum c then negb (Qle_bool m q) else Qle_bool q m
     | None => true
     end
  && match multipleOf c with
     | Some m => integral (q / m)
     | None => true
     end.

(** Member equality of the enum: values of different kinds are never
    equal, so [True], [1], [False], [0] and [None] stay apart.  Dicts are
    compared binding by binding, in order. *)
Fixpoint value_eqb (a b : value) : bool :=
  match a, b with
  | VNone, VNone => true
  | VBool x, VBool y => Bool.eqb x y
  | VInt x, VInt y => Z.eqb x y
  | VFloat x, VFloat y => Qeq_bool x y
  | VStr x, VStr y => String.eqb x y
  | VList xs, VList ys =>
      (fix all2 (xs ys : list value) : bool :=
         match xs, ys with
         | [], [] => true
         | x :: xs', y :: ys' => value_eqb x y && all2 xs' ys'
         | _, _ => false
         end) xs ys
  | VDict xs, VDict ys =>
      (fix all2 (xs ys : list (string * value)) : bool :=
         match xs, ys with
         | [], [] => true
         | (k, x) :: xs', (l, y) :: ys' =>
             String.eqb k l && value_eqb x y && all2 xs' ys'
         | _, _ => false
         end) xs ys
  | _, _ => false
  end.

Definition instance_of (klass : native) (v : value) : bool :=
  match klass, v with
  | native_dict, VDict _ => true
  | native_list, VList _ => true
  | _, _ => false
  end.

Definition in_range (n : nat) (lo hi : option nat) : bool :=
  match lo with Some m => (m <=? n)%nat | None => true end
  && match hi with Some m => (n <=? m)%nat | None => true end.

(** Modelled from the spec: full validation, by a descriptor of the missing
    [jstraitlets.py], of a value that is not [undefined].  A union looks at
    the type of the value only; a member with no type of its own (an enum,
    a composite) is validated in full, the specification being silent on
    it. *)
Fixpoint accepts (t : trait) (v : value) : bool :=
  match t with
  | JSONNull _ => match v with VNone => true | _ => false end
  | JSONBoolean _ => match v with VBool _ => true | _ => false end
  | JSONNumber _ c =>
      match as_number v with Some q => within c q | None => false end
  | JSONInteger _ c =>
      match as_number v with
      | Some q => integral q && within c q
      | None => false
      end
  | JSONString _ => match v with VStr _ => true | _ => false end
  | JSONArray _ item lo hi =>
      match v with
      | VList l => in_range (length l) lo hi && forallb (accepts item) l
      | _ => false
      end
  | JSONEnum _ values => existsb (value_eqb v) values
  | JSONInstance _ klass => instance_of klass v
  | JSONUnion _ members =>
      existsb
        (fun m =>
           match m with
           | JSONNull _ => match v with VNone => true | _ => false end
           | JSONBoolean _ => match v with VBool _ => true | _ => false end
           | JSONNumber _ _ =>
               match as_number v with Some _ => true | None => false end
           | JSONInteger _ _ =>
               match as_number v with Some q => integral q | None => false end
           | JSONString _ => match v with VStr _ => true | _ => false end
           | JSONArray _ _ _ _ => match v with VList _ => true | _ => false end
           | JSONInstance _ klass => instance_of klass v
           | _ => accepts m v
           end)
        members
  | JSONAnyOf _ branches => existsb (fun b => accepts b v) branches
  | JSONOneOf _ branches =>
      (length (filter (fun b => accepts b v) branches) =? 1)%nat
  | JSONAllOf _ branches => forallb (fun b => accepts b v) branches
  | JSONNot _ wrapped => negb (accepts wrapped v)
  end.

(** Modelled from the spec: [validate] of the missing [jstraitlets.py].
    [undefined] is settled by the flag alone, before any other constraint is
    looked at. *)
Definition validate (t : trait) (v : pyvalue) : bool :=
  match v with
  | undefined => allow_undefined t
  | defined x => accepts t x
  end.

(** [JSONOneOf([JSONInteger(), JSONNumber()])] *)
Definition integer_or_number : trait :=
  JSONOneOf true [JSONInteger true no_bounds; JSONNumber true no_bounds].

End jst.

(** Exactly one element of [l] satisfies [p]. *)
Definition exactly_one {A} (p : A -> bool) (l : list A) : Prop :=
  exists before x after,
    l = before ++ x :: after /\ p x = true /\
    (forall y, In y before -> p y = false) /\
    (forall y, In y after -> p y = false).

(** [{"properties": {"a": {"type": "string"}, "b": {"type": "string"}},
      "required": ["a"]}] *)
Definition ex_object : JSONSchema :=
  root_of [("properties", VDict [("a", VDict [("type", VStr "string")]);
                                 ("b", VDict [("type", VStr "string")])]);
           ("required", VList [VStr "a"])].

(** * Further definitions *)

(** ** Trait-like nodes *)

(** The nodes on which [really_is_trait] answers [True], as a derivation:
    a type other than ["object"] settles it at once; otherwise [properties]
    must be absent and the first of [$ref], [anyOf], [allOf], [oneOf] that
    is present decides. *)
Inductive trait_like : JSONSchema -> Prop :=
| trait_like_type self type :
    __getattr__ self "type" = Ok type ->
    eq_str type "object" = false ->
    trait_like self
| trait_like_ref self type target :
    __getattr__ self "type" = Ok type ->
    eq_str type "object" = true ->
    __contains__ self "properties" = Ok false ->
    __contains__ self "$ref" = Ok true ->
    wrapped_ref self = Ok target ->
    trait_like target ->
    trait_like self
| trait_like_anyOf self type specs :
    __getattr__ self "type" = Ok type ->
    eq_str type "object" = true ->
    __contains__ self "properties" = Ok false ->
    __contains__ self "$ref" = Ok false ->
    __contains__ self "anyOf" = Ok true ->
    branches self "anyOf" = Ok specs ->
    all_trait_like self specs ->
    trait_like self
| trait_like_allOf self type specs :
    __getattr__ self "type" = Ok type ->
    eq_str type "object" = true ->
    __contains__ self "properties" = Ok false ->
    __contains__ self "$ref" = Ok false ->
    __contains__ self "anyOf" = Ok false ->
    __contains__ self "allOf" = Ok true ->
    branches self "allOf" = Ok specs ->
    all_trait_like self specs ->
    trait_like self
| trait_like_oneOf self type specs :
    __getattr__ self "type" = Ok type ->
    eq_str type "object" = true ->
    __contains__ self "properties" = Ok false ->
    __contains__ self "$ref" = Ok false ->
    __contains__ self "anyOf" = Ok false ->
    __contains__ self "allOf" = Ok false ->
    __contains__ self "oneOf" = Ok true ->
    branches self "oneOf" = Ok specs ->
    all_trait_like self specs ->
    trait_like self
with all_trait_like : JSONSchema -> list value -> Prop :=
| all_trait_like_nil self : all_trait_like self []
| all_trait_like_cons self spec specs child :
    make_child self spec None None = Ok child ->
    trait_like child ->
    all_trait_like self specs ->
    all_trait_like self (spec :: specs).

Scheme trait_like_ind2 := Minimality for trait_like Sort Prop
  with all_trait_like_ind2 := Minimality for all_trait_like Sort Prop.

(** ** Fragments without references *)

(** Nesting depth of a value. *)
Fixpoint depth (v : value) : nat :=
  match v with
  | VList l =>
      S ((fix deepest (l : list value) : nat :=
            match l with
            | [] => O
            | x :: rest => Nat.max (depth x) (deepest rest)
            end) l)
  | VDict d =>
      S ((fix deepest (d : list (string * value)) : nat :=
            match d with
            | [] => O
            | (_, x) :: rest => Nat.max (depth x) (deepest rest)
            end) d)
  | _ => O
  end.

(** No dict inside the value, at any depth, has a [$ref] key. *)
Fixpoint ref_free (v : value) : bool :=
  match v with
  | VList l =>
      (fix all_free (l : list value) : bool :=
         match l with
         | [] => true
         | x :: rest => ref_free x && all_free rest
         end) l
  | VDict d =>
      negb (dict_mem d "$ref")
      && (fix all_free (d : list (string * value)) : bool :=
            match d with
            | [] => true
            | (_, x) :: rest => ref_free x && all_free rest
            end) d
  | _ => true
  end.

(** [{"anyOf": [{"type": "string"}, {"allOf": [{"type": "integer"}]}]}] *)
Definition ex_nested : JSONSchema :=
  root_of [("anyOf", VList [VDict [("type", VStr "string")];
                            VDict [("allOf", VList [VDict [("type", VStr "integer")]])]])].

(** ** Nodes made from a root *)

(** The nodes obtained from [root] by [make_child], [get_reference] and
    [copy] (with the context not overridden). *)
Inductive reachable (root : JSONSchema) : JSONSchema -> Prop :=
| reachable_root : reachable root root
| reachable_child n schema0 name0 metadata0 child :
    reachable root n ->
    make_child n schema0 name0 metadata0 = Ok child ->
    reachable root child
| reachable_reference n ref target :
    reachable root n ->
    get_reference n ref = Ok target ->
    reachable root target
| reachable_copy n kwargs n' :
    reachable root n ->
    kw_context kwargs = None ->
    copy n kwargs = Ok n' ->
    reachable root n'.

(** Two nodes that differ at most in their parent. *)
Definition same_but_parent (a b : JSONSchema) : Prop :=
  schema a = schema b /\ module a = module b /\ name a = name b /\
  metadata a = metadata b /\ context a = context b /\
  definition_tags a = definition_tags b.

(** Two resolutions with the same outcome: the same error, or the same node
    up to the parent. *)
Definition same_resolution (a b : result JSONSchema) : Prop :=
  match a, b with
  | Ok x, Ok y => same_but_parent x y
  | Err e, Err e' => e = e'
  | _, _ => False
  end.

Fixpoint no_slash (s : string) : bool :=
  match s with
  | EmptyString => true
  | String c rest => negb (Ascii.eqb c "/"%char) && no_slash rest
  end.


(** ** Lookups in the dicts the wrappers build *)

Fixpoint assoc_get {A} (d : list (string * A)) (key : string) : option A :=
  match d with
  | [] => None
  | (k, a) :: rest => if String.eqb k key then Some a else assoc_get rest key
  end.

(** The last property whose regularized name is [key]. *)
Fixpoint last_named (regularize_name : string -> string)
    (props : list (string * value)) (key : string) : option (string * value) :=
  match props with
  | [] => None
  | (name0, val) :: rest =>
      match last_named regularize_name rest key with
      | Some p => Some p
      | None =>
          if String.eqb (regularize_name name0) key then Some (name0, val)
          else None
      end
  end.

(** The error the reader of the property [name0] sees when its getter
    raises [e]. *)
Definition seen_through (name0 : string) (e : exn) : exn :=
  match e with
  | AttributeError _ => AttributeError name0
  | _ => e
  end.

(** A check that fails on [Enum] with a [TypeError]. *)
Definition ex_failing_check (extractor : tx.TraitExtractor) (self : JSONSchema)
  : comp bool :=
  match extractor with
  | tx.Enum => Some (Err TypeError)
  | tx.Object => Some (Ok true)
  | _ => Some (Ok false)
  end.

(** A check that fails on [Enum] with an [AttributeError]. *)
Definition ex_attribute_check (extractor : tx.TraitExtractor)
    (self : JSONSchema) : comp bool :=
  match extractor with
  | tx.Enum => Some (Err (AttributeError "enum"))
  | _ => Some (Ok false)
  end.

(** [{"properties": {"a b": {}, "a-b": {"type": "string"}}}] under a
    [regularize_name] that maps both names to ["a_b"]. *)
Definition ex_colliding : JSONSchema :=
  root_of [("properties", VDict [("a b", VDict []);
                                 ("a-b", VDict [("type", VStr "string")])])].

Definition ex_regularize (s : string) : string :=
  if String.eqb s "a b" || String.eqb s "a-b" then "a_b" else s.

(** ** Definitions *)

(** A dict whose keys need not be strings: [dict.update] with a sequence of
    pairs can bring in [None], booleans and numbers as keys. *)
Definition pairs := list (value * value).

(** [hash(v)] succeeds. *)
Definition hashable (v : value) : bool :=
  match v with
  | VList _ | VDict _ => false
  | _ => true
  end.

Definition number_of (v : value) : option Q :=
  match v with
  | VBool b => Some (if b then 1 else 0)
  | VInt z => Some (inject_Z z)
  | VFloat q => Some q
  | _ => None
  end.

(** Two hashable values are the same dict key: equal strings, [None] and
    [None], or numbers of the same value ([True], [1] and [1.0] are one
    key). *)
Definition key_eqb (a b : value) : bool :=
  match a, b with
  | VNone, VNone => true
  | VStr s, VStr t => String.eqb s t
  | _, _ =>
      match number_of a, number_of b with
      | Some x, Some y => Qeq_bool x y
      | _, _ => false
      end
  end.

(** [d[k] = v]: the value is replaced under the key already there,
    otherwise the pair is appended. *)
Fixpoint setitem (d : pairs) (k v : value) : pairs :=
  match d with
  | [] => [(k, v)]
  | (k', w) :: rest =>
      if key_eqb k' k then (k', v) :: rest else (k', w) :: setitem rest k v
  end.

Fixpoint pairs_get (d : pairs) (k : value) : option value :=
  match d with
  | [] => None
  | (k', v) :: rest => if key_eqb k' k then Some v else pairs_get rest k
  end.

(** [str(n)] for a natural number. *)
Definition decimal (n : nat) : string := NilEmpty.string_of_uint (Nat.to_uint n).

(** [d.update(seq)] for a sequence of pairs: element number [index] onwards.
    An element must be iterable ([TypeError] otherwise), have two items
    ([ValueError] otherwise) and a hashable first item ([TypeError]
    otherwise). *)
Fixpoint update_from_sequence (d : pairs) (elements : list value) (index : nat)
  : result pairs :=
  match elements with
  | [] => Ok d
  | element :: rest =>
      match iterate element with
      | Err _ => Err TypeError
      | Ok [k; v] =>
          if hashable k then update_from_sequence (setitem d k v) rest (S index)
          else Err TypeError
      | Ok parts =>
          Err (ValueError ("dictionary update sequence element #"
                           ++ decimal index ++ " has length "
                           ++ decimal (length parts) ++ "; 2 is required"))
      end
  end.

(** [d.update(other)] *)
Definition dict_update (d : pairs) (other : value) : result pairs :=
  match other with
  | VDict o => Ok (fold_left (fun acc kv => setitem acc (VStr (fst kv)) (snd kv)) o d)
  | VList l => update_from_sequence d l 0
  | VStr s => update_from_sequence d (chars s) 0
  | _ => Err TypeError
  end.

(** [for tag in tags: defs.update(self.schema.get(tag, {}))] *)
Fixpoint update_from_tags (self : JSONSchema) (tags : list string) (defs : pairs)
  : result pairs :=
  match tags with
  | [] => Ok defs
  | tag :: rest =>
      other <- get_default (schema self) tag (VDict []) ;;
      defs' <- dict_update defs other ;;
      update_from_tags self rest defs'
  end.

(** The property [all_definitions], as its reader sees it. *)
Definition all_definitions (self : JSONSchema) : result pairs :=
  result_property "all_definitions"
    (update_from_tags self (definition_tags self) []).

Section WrappedDefinitions.

(** [str.lower] *)
Variable lower : string -> string.

Fixpoint wrap_definitions (self : JSONSchema) (defs : pairs)
    (acc : list (string * JSONSchema)) : result (list (string * JSONSchema)) :=
  match defs with
  | [] => Ok acc
  | (VStr name0, schema0) :: rest =>
      child <- make_child self schema0 (Some name0) None ;;
      wrap_definitions self rest (assoc_set acc (lower name0) child)
  | _ :: _ => Err (AttributeError "lower")
  end.

Definition wrapped_definitions (self : JSONSchema)
  : result (list (string * JSONSchema)) :=
  defs <- all_definitions self ;;
  wrap_definitions self defs [].

End WrappedDefinitions.

(** The value the last of [tags] that holds [key] gives it. *)
Definition last_tag_binding (d : dict) (tags : list string) (key : string)
  : option value :=
  fold_left
    (fun acc tag =>
       match dict_get d tag with
       | Some (VDict o) =>
           match dict_get o key with Some v => Some v | None => acc end
       | _ => acc
       end)
    tags None.

(** Every tag of [tags] that the fragment holds is a dict, with each key
    once. *)
Definition tags_well_formed (d : dict) (tags : list string) : Prop :=
  forall tag v,
    In tag tags -> dict_get d tag = Some v ->
    exists o, v = VDict o /\ NoDup (dict_keys o).

(** The last definition whose lowered name is [key]. *)
Fixpoint last_lowered (lower : string -> string) (defs : list (string * value))
    (key : string) : option (string * value) :=
  match defs with
  | [] => None
  | (name0, schema0) :: rest =>
      match last_lowered lower rest key with
      | Some p => Some p
      | None =>
          if String.eqb (lower name0) key then Some (name0, schema0) else None
      end
  end.

(** A node with the definition tags [("definitions", "defs")], both of
    which define ["Color"]. *)
Definition ex_two_tags : JSONSchema :=
  {| schema := VDict [("definitions", VDict [("Color", VDict [("type", VStr "string")]);
                                             ("Size", VDict [])]);
                      ("defs", VDict [("Color", VDict [("enum", VList [])])])];
     module := None; parent := None; name := None; metadata := [];
     context := None; definition_tags := ["definitions"; "defs"] |}.

(** [{"definitions": {"Color": {"type": "string"}, "COLOR": {"enum": []}}}] *)
Definition ex_case_collision : JSONSchema :=
  root_of [("definitions", VDict [("Color", VDict [("type", VStr "string")]);
                                  ("COLOR", VDict [("enum", VList [])])])].

(** A lowering of the letters the examples use. *)
Definition ex_lower (s : string) : string :=
  if String.eqb s "Color" || String.eqb s "COLOR" then "color" else s.

(** Every key of the dict is a string. *)
Definition string_keyed (defs : pairs) : Prop :=
  forall k v, In (k, v) defs -> exists s, k = VStr s.

(** The pairs of a dict that have a string as key. *)
Fixpoint named (defs : pairs) : list (string * value) :=
  match defs with
  | [] => []
  | (VStr name0, schema0) :: rest => (name0, schema0) :: named rest
  | _ :: rest => named rest
  end.

(** ** Class names *)

(** What [classname] can raise beyond the exceptions of [exn]:
    [NotImplementedError(msg.format(tuple(keys)))]. *)
Inductive raised : Type :=
| Raised (e : exn)
| NotImplementedError (msg : string) (keys : list string).

Inductive outcome (A : Type) : Type :=
| Returns (a : A)
| Raises (r : raised).
Arguments Returns {A} a.
Arguments Raises {A} r.

(** [bool(self.name)]: a name that is a non-empty string. *)
Definition has_name (self : JSONSchema) : bool :=
  match name self with
  | Some n => negb (String.eqb n "")
  | None => false
  end.

(** Reading a property whose getter answers in [outcome] (see
    [result_property]). *)
Definition outcome_property {A} (name0 : string) (getter : outcome A)
  : outcome A :=
  match getter with
  | Raises (Raised (AttributeError _)) => Raises (Raised (AttributeError name0))
  | _ => getter
  end.

Section ClassName.

(** [utils.regularize_name], from a module that is not among the sources. *)
Variable regularize_name : string -> string.

(** The property [classname], as its reader sees it. *)
Definition classname (self : JSONSchema) : outcome string :=
  outcome_property "classname"
    (if has_name self then Returns (regularize_name (or_else (name self) ""))
     else if is_root self then Returns "Root"
     else
       match is_reference self with
       | Err e => Raises (Raised e)
       | Ok true =>
           match getitem (schema self) "$ref" with
           | Err e => Raises (Raised e)
           | Ok (VStr r) => Returns (regularize_name (last (split_slash r) ""))
           | Ok _ => Raises (Raised (AttributeError "split"))
           end
       | Ok false =>
           match schema_keys self with
           | Err e => Raises (Raised e)
           | Ok keys =>
               Raises (NotImplementedError
                         "class name for schema with keys {0}" keys)
           end
       end).

(** The property [is_named_object], as its reader sees it:
    [NotImplementedError] is caught, anything else passes. *)
Definition is_named_object (self : JSONSchema) : result bool :=
  result_property "is_named_object"
    match classname self with
    | Returns c => Ok (negb (String.eqb c ""))
    | Raises (NotImplementedError _ _) => Ok false
    | Raises (Raised e) => Err e
    end.

(** The property [full_classname], as its reader sees it.  [not
    self.module] holds for [None] and for the empty string. *)
Definition full_classname (self : JSONSchema) : outcome string :=
  outcome_property "full_classname"
    match module self with
    | None => classname self
    | Some m =>
        if String.eqb m "" then classname self
        else
          match classname self with
          | Returns c => Returns (m ++ "." ++ c)%string
          | Raises r => Raises r
          end
    end.

End ClassName.

(** An unnamed child that holds a reference, as [make_child] makes it for a
    branch of a composition. *)
Definition ex_reference_branch : JSONSchema :=
  {| schema := VDict [("$ref", VStr "#/definitions/A")]; module := Some "pkg";
     parent := Some ex_root; name := None; metadata := [];
     context := Some ex_root; definition_tags := default_definition_tags |}.

(** An unnamed child with no reference. *)
Definition ex_anonymous : JSONSchema :=
  {| schema := VDict [("type", VStr "string")]; module := None;
     parent := Some ex_root; name := None; metadata := [];
     context := Some ex_root; definition_tags := default_definition_tags |}.

(** An unnamed child whose [$ref] is a number. *)
Definition ex_numbered_ref : JSONSchema :=
  {| schema := VDict [("$ref", VInt 3)]; module := None;
     parent := Some ex_root; name := None; metadata := [];
     context := Some ex_root; definition_tags := default_definition_tags |}.

(** ** Additional properties *)

(** [v in [True, False]]: [v] equals [True] or [False], as the booleans and
    the numbers of value one or zero do. *)
Definition is_true_or_false (v : value) : bool :=
  match number_of v with
  | Some q => Qeq_bool q 1 || Qeq_bool q 0
  | None => false
  end.

Section AdditionalTraits.

Variable check : tx.TraitExtractor -> JSONSchema -> comp bool.
Variable extractor_trait_code :
  tx.TraitExtractor -> JSONSchema -> dict -> comp string.

(** The built-in [repr]. *)
Variable repr : value -> string.

(** The property [additional_traits], as its reader sees it. *)
Definition additional_traits (self : JSONSchema) : comp string :=
  as_property "additional_traits"
    (additional <~ lift (__getattr__ self "additionalProperties") ;;
     if is_true_or_false additional then Some (Ok (repr additional))
     else
       trait <~ lift (make_child self additional None None) ;;
       code <~ trait_code check extractor_trait_code trait ;;
       Some (Ok ("[" ++ code ++ "]")%string)).

End AdditionalTraits.

(** [{"properties": {"a": {}, "b": {}}, "required": ["a"]}] *)
Definition ex_required : JSONSchema :=
  root_of [("properties", VDict [("a", VDict []); ("b", VDict [])]);
           ("required", VList [VStr "a"])].

(** A stand-in for an extractor's [trait_code]: the code it emits names the
    flag the keyword arguments carry. *)
Definition ex_emit (extractor : tx.TraitExtractor) (self : JSONSchema)
    (kwargs : dict) : comp string :=
  Some (Ok (if jst.allow_undefined_of kwargs then "optional" else "required")).

(** * Properties *)

(** ** Construction *)

Lemma init_ok_inv schema0 module0 context0 parent0 name0 metadata0 tags self :
  __init__ schema0 module0 context0 parent0 name0 metadata0 tags = Ok self ->
  is_dict schema0 = true /\
  self = {| schema := schema0; module := module0; parent := parent0;
            name := name0; metadata := or_else metadata0 [];
            context := context0; definition_tags := tags |}.
Proof.
  unfold __init__. destruct (is_dict schema0); simpl; intros H.
  - inversion H. split; [reflexivity|]. destruct metadata0; reflexivity.
  - discriminate.
Qed.

Lemma init_dict d module0 context0 parent0 name0 metadata0 tags :
  __init__ (VDict d) module0 context0 parent0 name0 metadata0 tags =
  Ok {| schema := VDict d; module := module0; parent := parent0;
        name := name0; metadata := or_else metadata0 [];
        context := context0; definition_tags := tags |}.
Proof. unfold __init__. simpl. destruct metadata0; reflexivity. Qed.

Lemma init_not_dict schema0 module0 context0 parent0 name0 metadata0 tags :
  is_dict schema0 = false ->
  __init__ schema0 module0 context0 parent0 name0 metadata0 tags =
  Err (ValueError "schema should be supplied as a dict").
Proof. unfold __init__. intros ->. reflexivity. Qed.

Lemma constructed_schema self : constructed self -> is_dict (schema self) = true.
Proof.
  intros H. destruct H as [s m c p nm md tags self _ _ Hinit].
  apply init_ok_inv in Hinit. destruct Hinit as [Hd ->]. exact Hd.
Qed.

Lemma constructed_context self : constructed self -> constructed (get_context self).
Proof.
  intros H. unfold get_context.
  destruct (context self) as [c|] eqn:Hc; [|exact H].
  destruct H as [s m c0 p nm md tags self Hctx _ Hinit].
  apply init_ok_inv in Hinit. destruct Hinit as [_ ->]. simpl in Hc.
  apply Hctx. exact Hc.
Qed.

Lemma constructed_parent self p :
  constructed self -> parent self = Some p -> constructed p.
Proof.
  intros H Hp.
  destruct H as [s m c0 p0 nm md tags self _ Hpar Hinit].
  apply init_ok_inv in Hinit. destruct Hinit as [_ ->]. simpl in Hp.
  apply Hpar. exact Hp.
Qed.

Lemma make_child_constructed self schema0 name0 metadata0 child :
  constructed self ->
  make_child self schema0 name0 metadata0 = Ok child ->
  constructed child.
Proof.
  intros H Hc. unfold make_child in Hc.
  eapply constructed_init; [| |exact Hc].
  - intros c [= <-]. apply constructed_context. exact H.
  - intros p [= <-]. exact H.
Qed.

Lemma copy_constructed self kwargs self' :
  constructed self -> kwargs_constructed kwargs ->
  copy self kwargs = Ok self' ->
  constructed self'.
Proof.
  intros H [Hkc Hkp] Hc. unfold copy in Hc.
  eapply constructed_init; [| |exact Hc].
  - intros c Hcc. destruct (kw_context kwargs) as [oc|] eqn:E; simpl in Hcc.
    + subst oc. apply Hkc. reflexivity.
    + injection Hcc as <-. apply constructed_context. exact H.
  - intros p Hpp. destruct (kw_parent kwargs) as [op|] eqn:E; simpl in Hpp.
    + subst op. apply Hkp. reflexivity.
    + eapply constructed_parent; eassumption.
Qed.

Lemma get_reference_constructed self ref target :
  constructed self ->
  get_reference self ref = Ok target ->
  constructed target.
Proof.
  intros H Hr. unfold get_reference in Hr.
  destruct (negb (truthy ref)); [discriminate|].
  destruct ref; try discriminate.
  destruct (negb (hd "" (split_slash s) =? "#")); [discriminate|].
  destruct ((length (split_slash s) =? 1)%nat || (nth 1 (split_slash s) "" =? "")).
  - injection Hr as <-. apply constructed_context. exact H.
  - destruct (walk (schema (get_context self)) (tl (split_slash s))) as [v|e].
    + eapply make_child_constructed; eassumption.
    + destruct e; discriminate.
Qed.

(** C9: constructing a node from a fragment that is not a dict raises
    [ValueError("schema should be supplied as a dict")] and yields no node;
    hence the fragment of every constructed node is a dict, and [copy],
    [make_child] and [get_reference] only ever return constructed nodes. *)
Theorem schema_is_dict_invariant :
  (forall schema0 module0 context0 parent0 name0 metadata0 tags,
      is_dict schema0 = false ->
      __init__ schema0 module0 context0 parent0 name0 metadata0 tags =
      Err (ValueError "schema should be supplied as a dict")) /\
  (forall self, constructed self -> exists d, schema self = VDict d) /\
  (forall self kwargs self',
      constructed self -> kwargs_constructed kwargs ->
      copy self kwargs = Ok self' -> constructed self') /\
  (forall self schema0 name0 metadata0 child,
      constructed self ->
      make_child self schema0 name0 metadata0 = Ok child -> constructed child) /\
  (forall self ref target,
      constructed self ->
      get_reference self ref = Ok target -> constructed target).
Proof.
  split; [|split; [|split; [|split]]].
  - intros. apply init_not_dict. assumption.
  - intros self H. apply constructed_schema in H.
    destruct (schema self); try discriminate. eexists; reflexivity.
  - apply copy_constructed.
  - apply make_child_constructed.
  - apply get_reference_constructed.
Qed.

Lemma root_of_constructed fragment : constructed (root_of fragment).
Proof.
  apply (constructed_init (VDict fragment) None None None None None
           default_definition_tags); try discriminate.
  reflexivity.
Qed.

Lemma schema_is_dict_invariant_witness :
  __init__ (VList []) None None None None None default_definition_tags =
    Err (ValueError "schema should be supplied as a dict") /\
  (exists d, schema ex_root = VDict d) /\
  (exists target, get_reference ex_root (VStr "#/definitions/A") = Ok target /\
                  constructed target).
Proof.
  destruct schema_is_dict_invariant as [Hinit [Hdict [_ [_ Href]]]].
  split; [apply Hinit; reflexivity|].
  split; [apply Hdict, root_of_constructed|].
  exists ex_child. split; [reflexivity|].
  apply (Href ex_root (VStr "#/definitions/A"));
    [apply root_of_constructed|reflexivity].
Defined.

(** ** Attribute defaults *)

(** C8: on a node whose fragment omits a keyword, the attribute of that name
    is the default of [attr_defaults]: [type] is ["object"],
    [additionalProperties] is [True], [required] is the empty list,
    [properties] and [definitions] are empty dicts, [title] and
    [description] are the empty string and [default] is [None]; a keyword of
    the table that the fragment holds yields the fragment's value. *)
Theorem getattr_defaults self d :
  schema self = VDict d ->
  (dict_get d "type" = None -> __getattr__ self "type" = Ok (VStr "object")) /\
  (dict_get d "additionalProperties" = None ->
   __getattr__ self "additionalProperties" = Ok (VBool true)) /\
  (dict_get d "required" = None -> __getattr__ self "required" = Ok (VList [])) /\
  (dict_get d "properties" = None -> __getattr__ self "properties" = Ok (VDict [])) /\
  (dict_get d "definitions" = None -> __getattr__ self "definitions" = Ok (VDict [])) /\
  (dict_get d "title" = None -> __getattr__ self "title" = Ok (VStr "")) /\
  (dict_get d "description" = None -> __getattr__ self "description" = Ok (VStr "")) /\
  (dict_get d "default" = None -> __getattr__ self "default" = Ok VNone) /\
  (forall attr v,
      In attr (dict_keys attr_defaults) -> dict_get d attr = Some v ->
      __getattr__ self attr = Ok v).
Proof.
  intros Hs. unfold __getattr__. rewrite Hs. simpl.
  repeat (split; [intros ->; reflexivity|]).
  intros attr v Hin Hget.
  simpl in Hin.
  repeat (destruct Hin as [<-|Hin]; [simpl; rewrite Hget; reflexivity|]).
  contradiction.
Qed.

Lemma getattr_defaults_witness :
  __getattr__ (root_of [("type", VStr "string")]) "required" = Ok (VList []) /\
  __getattr__ (root_of [("type", VStr "string")]) "type" = Ok (VStr "string").
Proof.
  pose proof (getattr_defaults (root_of [("type", VStr "string")])
                [("type", VStr "string")] eq_refl)
    as [_ [_ [Hrequired [_ [_ [_ [_ [_ Hpresent]]]]]]]].
  split.
  - apply Hrequired. reflexivity.
  - apply Hpresent; [simpl; tauto | reflexivity].
Defined.

(** ** Reference resolution *)

Lemma split_slash_not_nil s : split_slash s <> [].
Proof.
  destruct s as [|c s]; simpl; [discriminate|].
  destruct (Ascii.eqb c "/"); [discriminate|].
  destruct (split_slash s); discriminate.
Qed.

Lemma split_slash_cons c s :
  split_slash (String c s) =
  if Ascii.eqb c "/" then "" :: split_slash s
  else String c (hd "" (split_slash s)) :: tl (split_slash s).
Proof.
  simpl. destruct (Ascii.eqb c "/"); [reflexivity|].
  pose proof (split_slash_not_nil s).
  destruct (split_slash s); [contradiction|reflexivity].
Qed.

Lemma hd_split_slash_empty s :
  hd "" (split_slash s) = "" <-> s = "" \/ exists rest, s = ("/" ++ rest)%string.
Proof.
  destruct s as [|c s].
  - simpl. split; auto.
  - rewrite split_slash_cons. destruct (Ascii.eqb c "/") eqn:E; simpl.
    + apply Ascii.eqb_eq in E. subst c. split; [|reflexivity].
      intros _. right. exists s. reflexivity.
    + split; [discriminate|].
      intros [H|[rest H]]; [discriminate|].
      simpl in H. injection H as -> _. discriminate.
Qed.

Lemma hd_split_slash_hash s :
  hd "" (split_slash s) = "#" <-> s = "#" \/ exists rest, s = ("#/" ++ rest)%string.
Proof.
  destruct s as [|c s].
  - simpl. split; [discriminate|]. intros [H|[rest H]]; discriminate.
  - rewrite split_slash_cons. destruct (Ascii.eqb c "/") eqn:E; simpl.
    + apply Ascii.eqb_eq in E. subst c. split; [discriminate|].
      intros [H|[rest H]]; discriminate.
    + split.
      * intros H. injection H as -> H. apply hd_split_slash_empty in H.
        destruct H as [->|[rest ->]]; [left; reflexivity|].
        right. exists rest. reflexivity.
      * intros [H|[rest H]].
        -- injection H as -> ->. reflexivity.
        -- simpl in H. injection H as -> ->. reflexivity.
Qed.

(** Once the first segment is ["#"], the test [len(path) == 1 or
    path[1] == ''] holds exactly on the references that designate the
    root. *)
Lemma root_test_iff r :
  hd "" (split_slash r) = "#" ->
  ((length (split_slash r) =? 1)%nat || (nth 1 (split_slash r) "" =? "") = true
   <-> designates_root r).
Proof.
  intros H. apply hd_split_slash_hash in H. unfold designates_root.
  destruct H as [->|[rest ->]].
  - simpl. split; auto.
  - change (split_slash ("#/" ++ rest)%string) with
      (split_slash (String "#" (String "/" rest))).
    rewrite split_slash_cons. simpl Ascii.eqb. cbv iota.
    rewrite split_slash_cons. simpl Ascii.eqb. cbv iota.
    simpl hd. simpl tl.
    pose proof (split_slash_not_nil rest) as Hne.
    destruct (split_slash rest) as [|h t] eqn:E; [contradiction|].
    simpl. rewrite String.eqb_eq.
    assert (Hh : h = hd "" (split_slash rest)) by (rewrite E; reflexivity).
    rewrite Hh, hd_split_slash_empty.
    split.
    + intros [->|[rest' ->]]; [right; left; reflexivity|].
      right; right. exists rest'. reflexivity.
    + intros [H|[H|[rest' H]]].
      * discriminate.
      * injection H as ->. left; reflexivity.
      * simpl in H. injection H as ->. right. exists rest'. reflexivity.
Qed.

Lemma walk_app fragment before after :
  walk fragment (before ++ after) =
  (reached <- walk fragment before ;; walk reached after).
Proof.
  revert fragment. induction before as [|key before IH]; intros fragment; simpl.
  - reflexivity.
  - destruct (getitem fragment key) as [next|e]; simpl; [apply IH|reflexivity].
Qed.

Lemma walk_missing_segment fragment keys :
  missing_segment fragment keys ->
  exists key, walk fragment keys = Err (KeyError key).
Proof.
  intros (before & key & after & d & -> & Hw & Hget).
  exists key. rewrite walk_app, Hw. simpl. rewrite Hget. reflexivity.
Qed.

Lemma walk_indexes_non_dict fragment keys :
  indexes_non_dict fragment keys -> walk fragment keys = Err TypeError.
Proof.
  intros (before & key & after & v & -> & Hw & Hv).
  rewrite walk_app, Hw. simpl. destruct v; try reflexivity. discriminate.
Qed.

Lemma walk_err_inv fragment keys e :
  walk fragment keys = Err e ->
  ((exists key, e = KeyError key) /\ missing_segment fragment keys) \/
  (e = TypeError /\ indexes_non_dict fragment keys).
Proof.
  revert fragment. induction keys as [|key keys IH]; intros fragment H.
  - discriminate.
  - simpl in H. destruct (getitem fragment key) as [next|e'] eqn:Hg; simpl in H.
    + assert (Hstep : forall before, walk fragment (key :: before) = walk next before)
        by (intros; simpl; rewrite Hg; reflexivity).
      destruct (IH next H) as [[Hk (before & k & after & d & -> & Hw & Hd)]
                              |[He (before & k & after & v & -> & Hw & Hv)]].
      * left. split; [exact Hk|].
        exists (key :: before), k, after, d. rewrite Hstep. auto.
      * right. split; [exact He|].
        exists (key :: before), k, after, v. rewrite Hstep. auto.
    + injection H as <-. unfold getitem in Hg. destruct fragment;
        try (injection Hg as <-; right; split; [reflexivity|];
             eexists [], key, keys, _; simpl; auto).
      destruct (dict_get d key) eqn:Hd; [discriminate|].
      injection Hg as <-. left. split; [eexists; reflexivity|].
      exists [], key, keys, d. simpl. auto.
Qed.

Lemma walk_outcomes fragment keys :
  missing_segment fragment keys \/ indexes_non_dict fragment keys \/
  exists v, walk fragment keys = Ok v.
Proof.
  destruct (walk fragment keys) as [v|e] eqn:H.
  - right; right. exists v. reflexivity.
  - apply walk_err_inv in H. destruct H as [[_ H]|[_ H]]; auto.
Qed.

Lemma get_reference_str self r :
  get_reference self (VStr r) =
  if String.eqb r "" then Err (ValueError "empty reference")
  else if negb (String.eqb (hd "" (split_slash r)) "#") then
    Err (ValueError ("Unrecognized $ref format: '" ++ r ++ "'"))
  else if (length (split_slash r) =? 1)%nat
          || String.eqb (nth 1 (split_slash r) "") "" then
    Ok (get_context self)
  else
    match walk (schema (get_context self)) (tl (split_slash r)) with
    | Err (KeyError _) =>
        Err (ValueError ("$ref='" ++ r ++ "' not present in the schema"))
    | Err e => Err e
    | Ok fragment => make_child self fragment (Some (last (split_slash r) "")) None
    end.
Proof.
  unfold get_reference. simpl truthy. rewrite negb_involutive.
  destruct (String.eqb r ""); reflexivity.
Qed.

Lemma designates_root_local r :
  designates_root r -> r <> "" /\ hd "" (split_slash r) = "#".
Proof.
  intros H. split.
  - destruct H as [->|[->|[rest ->]]]; discriminate.
  - apply hd_split_slash_hash.
    destruct H as [->|[->|[rest ->]]]; [left; reflexivity| |].
    + right. exists "". reflexivity.
    + right. exists (String "/" rest). reflexivity.
Qed.

Lemma get_reference_local self r :
  hd "" (split_slash r) = "#" -> ~ designates_root r ->
  get_reference self (VStr r) =
  match walk (schema (get_context self)) (tl (split_slash r)) with
  | Err (KeyError _) =>
      Err (ValueError ("$ref='" ++ r ++ "' not present in the schema"))
  | Err e => Err e
  | Ok fragment => make_child self fragment (Some (last (split_slash r) "")) None
  end.
Proof.
  intros Hh Hn. rewrite get_reference_str.
  destruct (String.eqb r "") eqn:E.
  - apply String.eqb_eq in E. subst r. discriminate.
  - rewrite Hh. simpl negb. cbv iota.
    destruct ((length (split_slash r) =? 1)%nat
              || String.eqb (nth 1 (split_slash r) "") "") eqn:T.
    + apply root_test_iff in T; [contradiction|exact Hh].
    + reflexivity.
Qed.

(** C5 (as amended): when [get_reference] answers a reference string with a
    node, that node is the context root itself if the reference is ["#"],
    ["#/"] or starts with ["#//"]; for every other reference it is a child
    of the invoking node that wraps the fragment reached by walking the
    context root's fragment along the path, named after the last segment,
    with the invoking node's module and context. *)
Theorem get_reference_target self r target :
  get_reference self (VStr r) = Ok target ->
  (designates_root r /\ target = get_context self) \/
  (~ designates_root r /\ wraps_walked_fragment self r target).
Proof.
  intros H. rewrite get_reference_str in H.
  destruct (String.eqb r ""); [discriminate|].
  destruct (String.eqb (hd "" (split_slash r)) "#") eqn:Hh; [|discriminate].
  apply String.eqb_eq in Hh. simpl in H.
  destruct ((length (split_slash r) =? 1)%nat
            || String.eqb (nth 1 (split_slash r) "") "") eqn:T.
  - left. split; [apply root_test_iff; assumption|]. congruence.
  - right. split.
    + intros Hd. apply root_test_iff in Hd; [congruence|exact Hh].
    + destruct (walk (schema (get_context self)) (tl (split_slash r)))
        as [fragment|e] eqn:Hw; [|destruct e; discriminate].
      unfold make_child in H. apply init_ok_inv in H. destruct H as [_ ->].
      unfold wraps_walked_fragment. simpl. auto.
Qed.

Lemma get_reference_target_witness :
  ~ designates_root "#/definitions/A" /\
  wraps_walked_fragment ex_root "#/definitions/A" ex_child.
Proof.
  destruct (get_reference_target ex_root "#/definitions/A" ex_child eq_refl)
    as [[Hd _]|H]; [|exact H].
  exfalso. destruct Hd as [Hd|[Hd|[rest Hd]]]; discriminate.
Defined.

(** C5, the claim as worded, fails at ["#/"]: the resolver answers with the
    context root, which is not a child of the invoking node. *)
Lemma get_reference_hash_slash_is_root :
  get_reference ex_child (VStr "#/") = Ok ex_root /\
  ~ resolves_as_specified ex_child "#/" ex_root.
Proof.
  split; [reflexivity|].
  unfold resolves_as_specified, wraps_walked_fragment. simpl.
  intros (_ & _ & _ & _ & H). discriminate.
Qed.

(** C6 (as amended): [get_reference] on a reference string fails on exactly
    these inputs: the empty string ([ValueError("empty reference")]); a
    string whose first segment is not ["#"] ([ValueError("Unrecognized $ref
    format: ...")]); and, among the remaining references that do not
    designate the root, those whose walk meets a key missing from a dict
    ([ValueError("$ref=... not present in the schema")]), those whose walk
    indexes something that is not a dict ([TypeError]), and those whose walk
    ends on something that is not a dict ([ValueError("schema should be
    supplied as a dict")]).  The references that designate the root, and
    those whose walk ends on a dict, resolve to a node; the three ways a
    walk can end are exhaustive. *)
Theorem get_reference_outcomes self r :
  (r = "" -> get_reference self (VStr r) = Err (ValueError "empty reference")) /\
  (r <> "" -> hd "" (split_slash r) <> "#" ->
   get_reference self (VStr r) =
   Err (ValueError ("Unrecognized $ref format: '" ++ r ++ "'"))) /\
  (designates_root r -> get_reference self (VStr r) = Ok (get_context self)) /\
  (hd "" (split_slash r) = "#" -> ~ designates_root r ->
   (missing_segment (schema (get_context self)) (tl (split_slash r)) ->
    get_reference self (VStr r) =
    Err (ValueError ("$ref='" ++ r ++ "' not present in the schema"))) /\
   (indexes_non_dict (schema (get_context self)) (tl (split_slash r)) ->
    get_reference self (VStr r) = Err TypeError) /\
   (forall v,
       walk (schema (get_context self)) (tl (split_slash r)) = Ok v ->
       is_dict v = false ->
       get_reference self (VStr r) =
       Err (ValueError "schema should be supplied as a dict")) /\
   (forall d,
       walk (schema (get_context self)) (tl (split_slash r)) = Ok (VDict d) ->
       exists target,
         get_reference self (VStr r) = Ok target /\ schema target = VDict d) /\
   (missing_segment (schema (get_context self)) (tl (split_slash r)) \/
    indexes_non_dict (schema (get_context self)) (tl (split_slash r)) \/
    exists v, walk (schema (get_context self)) (tl (split_slash r)) = Ok v)).
Proof.
  split; [|split; [|split]].
  - intros ->. reflexivity.
  - intros Hr Hh. rewrite get_reference_str.
    destruct (String.eqb r "") eqn:E; [apply String.eqb_eq in E; contradiction|].
    destruct (String.eqb (hd "" (split_slash r)) "#") eqn:E';
      [apply String.eqb_eq in E'; contradiction|reflexivity].
  - intros Hd. destruct (designates_root_local r Hd) as [Hr Hh].
    rewrite get_reference_str.
    destruct (String.eqb r "") eqn:E; [apply String.eqb_eq in E; contradiction|].
    rewrite Hh. simpl negb. cbv iota.
    apply root_test_iff in Hd; [|exact Hh]. rewrite Hd. reflexivity.
  - intros Hh Hn. rewrite (get_reference_local self r Hh Hn).
    split; [|split; [|split; [|split]]].
    + intros Hm. apply walk_missing_segment in Hm. destruct Hm as [key ->].
      reflexivity.
    + intros Hi. apply walk_indexes_non_dict in Hi. rewrite Hi. reflexivity.
    + intros v -> Hv. unfold make_child. apply init_not_dict. exact Hv.
    + intros d ->. unfold make_child. rewrite init_dict.
      eexists. split; reflexivity.
    + apply walk_outcomes.
Qed.

Lemma get_reference_outcomes_witness :
  get_reference ex_root (VStr "definitions/A") =
    Err (ValueError "Unrecognized $ref format: 'definitions/A'") /\
  get_reference ex_root (VStr "#/definitions/B") =
    Err (ValueError "$ref='#/definitions/B' not present in the schema") /\
  exists target,
    get_reference ex_root (VStr "#/definitions/A") = Ok target /\
    schema target = VDict ex_fragment_A.
Proof.
  split; [|split].
  - apply (get_reference_outcomes ex_root "definitions/A"); discriminate.
  - destruct (get_reference_outcomes ex_root "#/definitions/B")
      as (_ & _ & _ & H).
    apply H.
    + reflexivity.
    + intros [Hd|[Hd|[rest Hd]]]; discriminate.
    + exists ["definitions"], "B", [], [("A", VDict ex_fragment_A)].
      repeat split.
  - destruct (get_reference_outcomes ex_root "#/definitions/A")
      as (_ & _ & _ & H).
    apply H.
    + reflexivity.
    + intros [Hd|[Hd|[rest Hd]]]; discriminate.
    + reflexivity.
Defined.

(** C6, the claim as worded, fails at ["#/definitions/A/$ref"]: the
    reference is non-empty and local and every segment of its path is
    present, yet resolution raises, because the walk ends on a string. *)
Lemma get_reference_fails_beyond_specified :
  get_reference ex_root (VStr "#/definitions/A/$ref") =
    Err (ValueError "schema should be supplied as a dict") /\
  ~ fails_only_as_specified ex_root "#/definitions/A/$ref".
Proof.
  split; [reflexivity|].
  intros H. destruct H as [target Ht].
  - discriminate.
  - reflexivity.
  - intros Hm. apply walk_missing_segment in Hm. destruct Hm as [key Hk].
    discriminate.
  - discriminate.
Qed.

(** ** The recursive predicates *)

Lemma all_m_mono {A} (f g : A -> comp bool) xs r :
  (forall x r', f x = Some r' -> g x = Some r') ->
  all_m f xs = Some r -> all_m g xs = Some r.
Proof.
  intros Hfg. induction xs as [|x xs IH]; simpl; [auto|].
  destruct (f x) as [[[|]|e]|] eqn:Hf; simpl; try discriminate;
    rewrite (Hfg _ _ Hf); simpl; auto.
Qed.

Lemma on_child_mono (p q : JSONSchema -> comp bool) self spec r :
  (forall child r', p child = Some r' -> q child = Some r') ->
  on_child p self spec = Some r -> on_child q self spec = Some r.
Proof.
  intros Hpq. unfold on_child.
  destruct (make_child self spec None None); simpl; auto.
Qed.

Lemma all_children_mono (p q : JSONSchema -> comp bool) self key r :
  (forall child r', p child = Some r' -> q child = Some r') ->
  all_children p self key = Some r -> all_children q self key = Some r.
Proof.
  intros Hpq. unfold all_children.
  destruct (branches self key); simpl; [|auto].
  apply all_m_mono. intros x r'. apply on_child_mono. exact Hpq.
Qed.

Lemma really_is_object_body_mono (p q : JSONSchema -> comp bool) self r :
  (forall child r', p child = Some r' -> q child = Some r') ->
  really_is_object_body p self = Some r ->
  really_is_object_body q self = Some r.
Proof.
  intros Hpq. unfold really_is_object_body.
  destruct (__contains__ self "properties") as [[|]|]; simpl; auto.
  destruct (__contains__ self "$ref") as [[|]|]; simpl; auto.
  { destruct (wrapped_ref self); simpl; auto. }
  destruct (__contains__ self "anyOf") as [[|]|]; simpl; auto.
  { apply all_children_mono. exact Hpq. }
  destruct (__contains__ self "allOf") as [[|]|]; simpl; auto.
  { apply all_children_mono. exact Hpq. }
  destruct (__contains__ self "oneOf") as [[|]|]; simpl; auto.
  apply all_children_mono. exact Hpq.
Qed.

(** A larger budget never changes an answer already given. *)
Lemma really_is_object_step fuel :
  forall self r,
    really_is_object fuel self = Some r ->
    really_is_object (S fuel) self = Some r.
Proof.
  induction fuel as [|fuel IH]; intros self r H; [discriminate|].
  change (really_is_object_body (really_is_object (S fuel)) self = Some r).
  change (really_is_object_body (really_is_object fuel) self = Some r) in H.
  revert H. apply really_is_object_body_mono. exact IH.
Qed.

Lemma really_is_object_mono fuel fuel' self r :
  (fuel <= fuel')%nat ->
  really_is_object fuel self = Some r ->
  really_is_object fuel' self = Some r.
Proof.
  induction 1 as [|fuel' _ IH]; [auto|].
  intros H. apply really_is_object_step, IH, H.
Qed.

(** Two budgets that both give an answer give the same one. *)
Lemma really_is_object_deterministic fuel fuel' self r r' :
  really_is_object fuel self = Some r ->
  really_is_object fuel' self = Some r' ->
  r = r'.
Proof.
  intros H H'.
  apply (really_is_object_mono fuel (Nat.max fuel fuel')) in H; [|lia].
  apply (really_is_object_mono fuel' (Nat.max fuel fuel')) in H'; [|lia].
  congruence.
Qed.

Lemma all_m_on_child_sound (p : JSONSchema -> comp bool) self specs :
  (forall child, p child = Some (Ok true) -> object_like child) ->
  all_m (on_child p self) specs = Some (Ok true) ->
  all_object_like self specs.
Proof.
  intros Hp. induction specs as [|spec specs IH]; simpl; intros H.
  - constructor.
  - unfold on_child at 1 in H.
    destruct (make_child self spec None None) as [child|] eqn:Hc;
      simpl in H; [|discriminate].
    destruct (p child) as [[[|]|]|] eqn:Hpc; simpl in H; try discriminate.
    econstructor; eauto.
Qed.

Lemma really_is_object_sound fuel :
  forall self, really_is_object fuel self = Some (Ok true) -> object_like self.
Proof.
  induction fuel as [|fuel IH]; intros self H; [discriminate|].
  change (really_is_object_body (really_is_object fuel) self = Some (Ok true)) in H.
  unfold really_is_object_body, all_children in H.
  destruct (__contains__ self "properties") as [[|]|] eqn:Hprops;
    simpl in H; try discriminate.
  { apply object_like_properties. exact Hprops. }
  destruct (__contains__ self "$ref") as [[|]|] eqn:Href;
    simpl in H; try discriminate.
  { destruct (wrapped_ref self) as [target|] eqn:Ht; simpl in H; [|discriminate].
    eapply object_like_ref; eauto. }
  destruct (__contains__ self "anyOf") as [[|]|] eqn:Hany;
    simpl in H; try discriminate.
  { destruct (branches self "anyOf") as [specs|] eqn:Hb; simpl in H; [|discriminate].
    eapply object_like_anyOf; eauto using all_m_on_child_sound. }
  destruct (__contains__ self "allOf") as [[|]|] eqn:Hall;
    simpl in H; try discriminate.
  { destruct (branches self "allOf") as [specs|] eqn:Hb; simpl in H; [|discriminate].
    eapply object_like_allOf; eauto using all_m_on_child_sound. }
  destruct (__contains__ self "oneOf") as [[|]|] eqn:Hone;
    simpl in H; try discriminate.
  destruct (branches self "oneOf") as [specs|] eqn:Hb; simpl in H; [|discriminate].
  eapply object_like_oneOf; eauto using all_m_on_child_sound.
Qed.

Lemma really_is_object_complete self :
  object_like self -> exists fuel, really_is_object fuel self = Some (Ok true).
Proof.
  intros H.
  induction H using object_like_ind2 with
    (P0 := fun self specs =>
             exists fuel,
               all_m (on_child (really_is_object fuel) self) specs = Some (Ok true)).
  - exists 1%nat. simpl. unfold really_is_object_body. rewrite H. reflexivity.
  - destruct IHobject_like as [fuel IH]. exists (S fuel). simpl.
    unfold really_is_object_body. rewrite H, H0, H1. simpl. exact IH.
  - destruct IHobject_like as [fuel IH]. exists (S fuel). simpl.
    unfold really_is_object_body, all_children. rewrite H, H0, H1, H2. simpl.
    exact IH.
  - destruct IHobject_like as [fuel IH]. exists (S fuel). simpl.
    unfold really_is_object_body, all_children. rewrite H, H0, H1, H2, H3.
    simpl. exact IH.
  - destruct IHobject_like as [fuel IH]. exists (S fuel). simpl.
    unfold really_is_object_body, all_children.
    rewrite H, H0, H1, H2, H3, H4. simpl. exact IH.
  - exists 0%nat. reflexivity.
  - destruct IHobject_like as [fuel1 IH1]. destruct IHobject_like0 as [fuel2 IH2].
    exists (Nat.max fuel1 fuel2). simpl. unfold on_child at 1. rewrite H. simpl.
    rewrite (really_is_object_mono fuel1 _ _ _ (Nat.le_max_l _ _) IH1). simpl.
    revert IH2. apply all_m_mono. intros x r. apply on_child_mono.
    intros c r'. apply really_is_object_mono. apply Nat.le_max_r.
Qed.

Lemma all_object_like_In self specs spec :
  all_object_like self specs -> In spec specs ->
  exists child, make_child self spec None None = Ok child /\ object_like child.
Proof.
  induction 1 as [|self spec' specs child Hc Ho Hall IH]; intros Hin.
  - contradiction.
  - destruct Hin as [->|Hin]; [eauto|auto].
Qed.

(** C4 (as amended): [really_is_object] answers [True] exactly on the nodes
    that declare [properties]; or else hold a [$ref] whose resolved target
    is object-like; or else hold [anyOf], or else [allOf], or else [oneOf],
    with every branch of that first composition keyword object-like.  An
    [anyOf] node without [properties] and [$ref] that has a branch which is
    not object-like is not object-like. *)
Theorem really_is_object_characterised :
  (forall self,
      (exists fuel, really_is_object fuel self = Some (Ok true)) <->
      object_like self) /\
  (forall self specs spec child,
      __contains__ self "properties" = Ok false ->
      __contains__ self "$ref" = Ok false ->
      __contains__ self "anyOf" = Ok true ->
      branches self "anyOf" = Ok specs ->
      In spec specs ->
      make_child self spec None None = Ok child ->
      ~ object_like child ->
      ~ object_like self).
Proof.
  split.
  - intros self. split.
    + intros [fuel H]. eapply really_is_object_sound, H.
    + apply really_is_object_complete.
  - intros self specs spec child Hp Hr Ha Hb Hin Hc Hn Ho.
    inversion Ho; subst; try congruence.
    assert (specs0 = specs) by congruence. subst specs0.
    destruct (all_object_like_In _ _ _ H3 Hin) as (child' & Hc' & Ho').
    assert (child' = child) by congruence. subst child'. contradiction.
Qed.

Lemma really_is_object_characterised_witness :
  really_is_object 2 ex_mixed_anyOf = Some (Ok false) /\
  ~ object_like ex_mixed_anyOf.
Proof.
  split; [reflexivity|].
  destruct really_is_object_characterised as [_ H].
  apply (H ex_mixed_anyOf
           [VDict [("properties", VDict [])]; VDict [("type", VStr "string")]]
           (VDict [("type", VStr "string")])
           {| schema := VDict [("type", VStr "string")]; module := None;
              parent := Some ex_mixed_anyOf; name := None; metadata := [];
              context := Some ex_mixed_anyOf;
              definition_tags := default_definition_tags |});
    try reflexivity.
  - simpl. auto.
  - intros Ho. apply really_is_object_complete in Ho. destruct Ho as [fuel Ho].
    assert (Hf : really_is_object 1
                   {| schema := VDict [("type", VStr "string")]; module := None;
                      parent := Some ex_mixed_anyOf; name := None; metadata := [];
                      context := Some ex_mixed_anyOf;
                      definition_tags := default_definition_tags |}
                 = Some (Ok false)) by reflexivity.
    pose proof (really_is_object_deterministic _ _ _ _ _ Ho Hf). discriminate.
Defined.

(** C4, the claim as worded, fails on a node that holds both a [$ref] to a
    definition that is not object-like and an [anyOf] whose branches all
    declare properties: the wording makes it object-like through its
    [anyOf], while [really_is_object] follows the [$ref] and answers
    [False]. *)
Lemma really_is_object_ref_before_anyOf :
  object_like_spec ex_ref_and_anyOf /\
  really_is_object 2 ex_ref_and_anyOf = Some (Ok false).
Proof.
  split; [|reflexivity].
  eapply (object_like_spec_branches _ "anyOf"); [auto|reflexivity|reflexivity|].
  econstructor; [reflexivity| |constructor].
  apply object_like_spec_properties. reflexivity.
Qed.

(** ** Unbounded recursion on cyclic references *)

Lemma trapping_really_is_trait nodes :
  trapping really_is_trait_body nodes ->
  forall self, nodes self -> never_returns really_is_trait self.
Proof.
  intros Htrap self Hin fuel. revert self Hin.
  induction fuel as [|fuel IH]; intros self Hin; [reflexivity|].
  simpl. apply Htrap; assumption.
Qed.

Lemma trapping_really_is_object nodes :
  trapping really_is_object_body nodes ->
  forall self, nodes self -> never_returns really_is_object self.
Proof.
  intros Htrap self Hin fuel. revert self Hin.
  induction fuel as [|fuel IH]; intros self Hin; [reflexivity|].
  simpl. apply Htrap; assumption.
Qed.

Lemma getattr_type self :
  __getattr__ self "type" = get_default (schema self) "type" (VStr "object").
Proof. reflexivity. Qed.

Lemma contains_of_getitem fragment key v :
  getitem fragment key = Ok v -> contains fragment key = Ok true.
Proof.
  destruct fragment; simpl; try discriminate.
  unfold dict_mem. destruct (dict_get d key); [reflexivity|discriminate].
Qed.

(** Following a [$ref] that reaches a dict gives a child in the same
    context. *)
Lemma wrapped_ref_reaches self target :
  ref_reaches (schema self) (schema (get_context self)) target ->
  is_dict target = true ->
  exists child,
    wrapped_ref self = Ok child /\
    schema child = target /\ get_context child = get_context self.
Proof.
  intros (r & Hget & Hh & Hn & Hw) Hd.
  unfold wrapped_ref, __getitem__. rewrite Hget. simpl.
  rewrite (get_reference_local self r Hh Hn), Hw.
  destruct target; try discriminate. unfold make_child. rewrite init_dict.
  eexists. split; [reflexivity|]. split; reflexivity.
Qed.

Lemma really_is_object_body_cascade recur self :
  really_is_object_body recur self =
  (has_properties <~ lift (__contains__ self "properties") ;;
   if has_properties then Some (Ok true) else composition_cascade recur self).
Proof. reflexivity. Qed.

Lemma really_is_trait_body_cascade recur self :
  really_is_trait_body recur self =
  (type <~ lift (__getattr__ self "type") ;;
   if negb (eq_str type "object") then Some (Ok true)
   else
     has_properties <~ lift (__contains__ self "properties") ;;
     if has_properties then Some (Ok false) else composition_cascade recur self).
Proof. reflexivity. Qed.

Lemma cascade_follows_ref recur self target :
  ref_reaches (schema self) (schema (get_context self)) target ->
  is_dict target = true ->
  exists child,
    schema child = target /\ get_context child = get_context self /\
    composition_cascade recur self = recur child.
Proof.
  intros Hreach Hd.
  destruct (wrapped_ref_reaches self target Hreach Hd) as (child & Hw & Hs & Hc).
  exists child. split; [exact Hs|]. split; [exact Hc|].
  destruct Hreach as (r & Hget & _).
  unfold composition_cascade, __contains__.
  rewrite (contains_of_getitem _ _ _ Hget), Hw. reflexivity.
Qed.

Lemma cascade_first_branch recur self key branch rest :
  contains (schema self) "$ref" = Ok false ->
  first_composition (schema self) key ->
  branches self key = Ok (VDict branch :: rest) ->
  exists child,
    schema child = VDict branch /\ get_context child = get_context self /\
    composition_cascade recur self =
    (b <~ recur child ;;
     if b then all_m (on_child recur self) rest else Some (Ok false)).
Proof.
  intros Href Hfirst Hb.
  eexists. split; [|split]; cycle 2.
  - unfold composition_cascade, __contains__. rewrite Href. simpl.
    destruct Hfirst as [[-> H1]|[[-> [H1 H2]]|[-> [H1 [H2 H3]]]]];
      rewrite ?H1, ?H2, ?H3; simpl;
      unfold all_children; rewrite Hb; simpl;
      unfold on_child at 1, make_child; rewrite init_dict; simpl; reflexivity.
  - reflexivity.
  - reflexivity.
Qed.

Lemma self_reference_trapping_object fragment root :
  is_dict fragment = true ->
  contains fragment "properties" = Ok false ->
  ref_reaches fragment root fragment ->
  trapping really_is_object_body
    (fun n => schema n = fragment /\ schema (get_context n) = root).
Proof.
  intros Hd Hp Hreach recur Hrec n [Hs Hc].
  rewrite really_is_object_body_cascade. unfold __contains__.
  rewrite Hs, Hp. simpl.
  destruct (cascade_follows_ref recur n fragment) as (child & Hcs & Hcc & ->);
    [rewrite Hs, Hc; exact Hreach|exact Hd|].
  apply Hrec. split; [exact Hcs|]. rewrite Hcc. exact Hc.
Qed.

Lemma self_reference_trapping_trait fragment root :
  is_dict fragment = true ->
  object_typed fragment ->
  contains fragment "properties" = Ok false ->
  ref_reaches fragment root fragment ->
  trapping really_is_trait_body
    (fun n => schema n = fragment /\ schema (get_context n) = root).
Proof.
  intros Hd (type & Hty & Hobj) Hp Hreach recur Hrec n [Hs Hc].
  rewrite really_is_trait_body_cascade, getattr_type. unfold __contains__.
  rewrite Hs, Hty. simpl. rewrite Hobj, Hp. simpl.
  destruct (cascade_follows_ref recur n fragment) as (child & Hcs & Hcc & ->);
    [rewrite Hs, Hc; exact Hreach|exact Hd|].
  apply Hrec. split; [exact Hcs|]. rewrite Hcc. exact Hc.
Qed.

Lemma through_trapping_object fragment root key branch rest :
  is_dict fragment = true ->
  contains fragment "properties" = Ok false ->
  contains fragment "$ref" = Ok false ->
  first_composition fragment key ->
  (v <- getitem fragment key ;; iterate v) = Ok (VDict branch :: rest) ->
  dict_mem branch "properties" = false ->
  ref_reaches (VDict branch) root fragment ->
  trapping really_is_object_body
    (fun n => (schema n = fragment \/ schema n = VDict branch) /\
              schema (get_context n) = root).
Proof.
  intros Hd Hp Hr Hfirst Hb Hbp Hreach recur Hrec n [[Hs|Hs] Hc];
    rewrite really_is_object_body_cascade; unfold __contains__; rewrite Hs.
  - rewrite Hp. simpl.
    destruct (cascade_first_branch recur n key branch rest)
      as (child & Hcs & Hcc & ->).
    + rewrite Hs. exact Hr.
    + rewrite Hs. exact Hfirst.
    + unfold branches, __getitem__. rewrite Hs. exact Hb.
    + rewrite (Hrec child); [reflexivity|].
      split; [right; exact Hcs|]. rewrite Hcc. exact Hc.
  - simpl. rewrite Hbp. simpl.
    destruct (cascade_follows_ref recur n fragment) as (child & Hcs & Hcc & ->);
      [rewrite Hs, Hc; exact Hreach|exact Hd|].
    apply Hrec. split; [left; exact Hcs|]. rewrite Hcc. exact Hc.
Qed.

Lemma through_trapping_trait fragment root key branch rest :
  is_dict fragment = true ->
  object_typed fragment -> object_typed (VDict branch) ->
  contains fragment "properties" = Ok false ->
  contains fragment "$ref" = Ok false ->
  first_composition fragment key ->
  (v <- getitem fragment key ;; iterate v) = Ok (VDict branch :: rest) ->
  dict_mem branch "properties" = false ->
  ref_reaches (VDict branch) root fragment ->
  trapping really_is_trait_body
    (fun n => (schema n = fragment \/ schema n = VDict branch) /\
              schema (get_context n) = root).
Proof.
  intros Hd (type & Hty & Hobj) (type' & Hty' & Hobj') Hp Hr Hfirst Hb Hbp Hreach
         recur Hrec n [[Hs|Hs] Hc];
    rewrite really_is_trait_body_cascade, getattr_type; unfold __contains__;
    rewrite Hs.
  - rewrite Hty. simpl. rewrite Hobj, Hp. simpl.
    destruct (cascade_first_branch recur n key branch rest)
      as (child & Hcs & Hcc & ->).
    + rewrite Hs. exact Hr.
    + rewrite Hs. exact Hfirst.
    + unfold branches, __getitem__. rewrite Hs. exact Hb.
    + rewrite (Hrec child); [reflexivity|].
      split; [right; exact Hcs|]. rewrite Hcc. exact Hc.
  - rewrite Hty'. simpl. rewrite Hobj'. simpl. rewrite Hbp. simpl.
    destruct (cascade_follows_ref recur n fragment) as (child & Hcs & Hcc & ->);
      [rewrite Hs, Hc; exact Hreach|exact Hd|].
    apply Hrec. split; [left; exact Hcs|]. rewrite Hcc. exact Hc.
Qed.

Lemma never_returns_no_error method self :
  never_returns method self -> ~ reports_error method self.
Proof. intros H (fuel & e & He). rewrite H in He. discriminate. Qed.

Lemma self_reference_object self :
  self_reference self -> never_returns really_is_object self.
Proof.
  intros (Hd & Hp & Hreach).
  apply (trapping_really_is_object _
           (self_reference_trapping_object _ _ Hd Hp Hreach)).
  split; reflexivity.
Qed.

Lemma self_reference_trait self :
  self_reference self -> object_typed (schema self) ->
  never_returns really_is_trait self.
Proof.
  intros (Hd & Hp & Hreach) Hty.
  apply (trapping_really_is_trait _
           (self_reference_trapping_trait _ _ Hd Hty Hp Hreach)).
  split; reflexivity.
Qed.

Lemma self_reference_through_object key branch self :
  self_reference_through key branch self ->
  never_returns really_is_object self.
Proof.
  intros (Hd & Hp & Hr & Hfirst & [rest Hb] & Hbp & Hreach).
  apply (trapping_really_is_object _
           (through_trapping_object _ _ _ _ _ Hd Hp Hr Hfirst Hb Hbp Hreach)).
  split; [left|]; reflexivity.
Qed.

Lemma self_reference_through_trait key branch self :
  self_reference_through key branch self ->
  object_typed (schema self) -> object_typed (VDict branch) ->
  never_returns really_is_trait self.
Proof.
  intros (Hd & Hp & Hr & Hfirst & [rest Hb] & Hbp & Hreach) Hty Hty'.
  apply (trapping_really_is_trait _
           (through_trapping_trait _ _ _ _ _ Hd Hty Hty' Hp Hr Hfirst Hb Hbp
              Hreach)).
  split; [left|]; reflexivity.
Qed.

(** C2 (as amended): no [CyclicReferenceError] exists and nothing guards
    the recursion.  On a definition without [properties] whose [$ref]
    points back to itself, and on one whose first composition keyword has as
    first branch a [$ref] back to the definition, [really_is_object] never
    returns: no budget gives an answer or an error.  The same holds for
    [really_is_trait] when the fragments on the cycle have type
    ["object"], by default or as written. *)
Theorem cyclic_reference_never_returns :
  (forall self,
      self_reference self ->
      never_returns really_is_object self /\
      (object_typed (schema self) -> never_returns really_is_trait self)) /\
  (forall key branch self,
      self_reference_through key branch self ->
      never_returns really_is_object self /\
      (object_typed (schema self) -> object_typed (VDict branch) ->
       never_returns really_is_trait self)).
Proof.
  split.
  - intros self H. split.
    + apply self_reference_object. exact H.
    + apply self_reference_trait. exact H.
  - intros key branch self H. split.
    + eapply self_reference_through_object. exact H.
    + eapply self_reference_through_trait. exact H.
Qed.

Lemma not_designates_root_definitions_A : ~ designates_root "#/definitions/A".
Proof. intros [H|[H|[rest H]]]; discriminate. Qed.

Lemma ex_child_self_reference : self_reference ex_child.
Proof.
  split; [reflexivity|]. split; [reflexivity|].
  exists "#/definitions/A". split; [reflexivity|]. split; [reflexivity|].
  split; [apply not_designates_root_definitions_A|reflexivity].
Qed.

Lemma ex_allOf_node_self_reference_through :
  self_reference_through "allOf" ex_allOf_branch ex_allOf_node.
Proof.
  split; [reflexivity|]. split; [reflexivity|]. split; [reflexivity|].
  split; [right; left; repeat split|].
  split; [exists []; reflexivity|]. split; [reflexivity|].
  exists "#/definitions/A". split; [reflexivity|]. split; [reflexivity|].
  split; [apply not_designates_root_definitions_A|reflexivity].
Qed.

Lemma object_typed_without_type d :
  dict_get d "type" = None -> object_typed (VDict d).
Proof.
  intros H. exists (VStr "object"). simpl. rewrite H. split; reflexivity.
Qed.

Lemma cyclic_reference_never_returns_witness :
  (never_returns really_is_object ex_child /\
   never_returns really_is_trait ex_child) /\
  (never_returns really_is_object ex_allOf_node /\
   never_returns really_is_trait ex_allOf_node).
Proof.
  destruct cyclic_reference_never_returns as [Hdirect Hthrough].
  split.
  - destruct (Hdirect ex_child ex_child_self_reference) as [Ho Ht].
    split; [exact Ho|]. apply Ht. apply object_typed_without_type. reflexivity.
  - destruct (Hthrough _ _ _ ex_allOf_node_self_reference_through) as [Ho Ht].
    split; [exact Ho|].
    apply Ht; apply object_typed_without_type; reflexivity.
Defined.

(** C2, the claim as worded, fails on the definition
    [{"$ref": "#/definitions/A"}] named [A]: neither predicate ever returns
    on it and neither reports an error.  It fails the other way on a cyclic
    definition whose [allOf] has a branch without properties before the
    branch that points back: [really_is_object] returns [False] there and
    reports nothing. *)
Lemma cyclic_reference_not_reported :
  (never_returns really_is_trait ex_child /\
   ~ reports_error really_is_trait ex_child) /\
  (never_returns really_is_object ex_child /\
   ~ reports_error really_is_object ex_child) /\
  really_is_object 2 ex_guarded_cycle = Some (Ok false).
Proof.
  assert (Hty : object_typed (schema ex_child))
    by (apply object_typed_without_type; reflexivity).
  pose proof (self_reference_trait _ ex_child_self_reference Hty) as Ht.
  pose proof (self_reference_object _ ex_child_self_reference) as Ho.
  split; [|split].
  - split; [exact Ht|apply never_returns_no_error, Ht].
  - split; [exact Ho|apply never_returns_no_error, Ho].
  - reflexivity.
Qed.

(** ** The two predicates are not complements *)

(** C10: [really_is_trait] and [really_is_object] are not complements.  Both
    answer [False] on every node of type ["object"] that holds none of
    [properties], [$ref], [anyOf], [allOf], [oneOf], the empty fragment
    among them; both answer [True] on every node that declares
    [properties] together with a type other than ["object"]. *)
Theorem predicates_not_complementary :
  (forall self fuel,
      object_typed (schema self) ->
      (forall key, In key ["properties"; "$ref"; "anyOf"; "allOf"; "oneOf"] ->
                   __contains__ self key = Ok false) ->
      really_is_trait (S fuel) self = Some (Ok false) /\
      really_is_object (S fuel) self = Some (Ok false)) /\
  (forall self fuel type,
      __getattr__ self "type" = Ok type -> eq_str type "object" = false ->
      __contains__ self "properties" = Ok true ->
      really_is_trait (S fuel) self = Some (Ok true) /\
      really_is_object (S fuel) self = Some (Ok true)) /\
  (really_is_trait 1 (root_of []) = Some (Ok false) /\
   really_is_object 1 (root_of []) = Some (Ok false)) /\
  (really_is_trait 1 (root_of [("properties", VDict []); ("type", VStr "string")])
     = Some (Ok true) /\
   really_is_object 1 (root_of [("properties", VDict []); ("type", VStr "string")])
     = Some (Ok true)).
Proof.
  split; [|split; [|split; split; reflexivity]].
  - intros self fuel (type & Hty & Hobj) Hkeys.
    assert (Hp := Hkeys "properties"). assert (Hr := Hkeys "$ref").
    assert (Ha := Hkeys "anyOf"). assert (Hl := Hkeys "allOf").
    assert (Ho := Hkeys "oneOf"). simpl in Hp, Hr, Ha, Hl, Ho.
    simpl. unfold really_is_trait_body, really_is_object_body.
    rewrite getattr_type, Hty. simpl. rewrite Hobj.
    rewrite Hp, Hr, Ha, Hl, Ho by tauto. simpl. split; reflexivity.
  - intros self fuel type Hty Hne Hp. simpl.
    unfold really_is_trait_body, really_is_object_body.
    rewrite Hty, Hp. simpl. rewrite Hne. split; reflexivity.
Qed.

(** ** The extractor chain *)

Lemma first_match_some check self extractors extractor :
  first_match check self extractors = Some (Ok (Some extractor)) <->
  first_to_match check self extractors extractor.
Proof.
  induction extractors as [|x rest IH]; simpl.
  - split; [discriminate|].
    intros (before & after & H & _). destruct before; discriminate.
  - split.
    + destruct (check x self) as [[[|]|]|] eqn:Hx; simpl; try discriminate.
      * intros [= <-]. exists [], rest.
        split; [reflexivity|]. split; [intros e []|exact Hx].
      * intros H. apply IH in H. destruct H as (before & after & -> & Hb & He).
        exists (x :: before), after. split; [reflexivity|]. split; [|exact He].
        intros e [<-|Hin]; auto.
    + intros (before & after & Heq & Hb & He).
      destruct before as [|y before]; simpl in Heq; injection Heq as -> ->.
      * rewrite He. reflexivity.
      * rewrite (Hb y) by (left; reflexivity). simpl. apply IH.
        exists before, after. split; [reflexivity|]. split; [|exact He].
        intros e Hin. apply Hb. right. exact Hin.
Qed.

Lemma first_match_none check self extractors :
  first_match check self extractors = Some (Ok None) <->
  (forall e, In e extractors -> check e self = Some (Ok false)).
Proof.
  induction extractors as [|x rest IH]; simpl.
  - split; [intros _ e []|reflexivity].
  - split.
    + destruct (check x self) as [[[|]|]|] eqn:Hx; simpl; try discriminate.
      intros H e [<-|Hin]; [exact Hx|]. apply IH; assumption.
    + intros H. rewrite (H x) by (left; reflexivity). simpl.
      apply IH. intros e Hin. apply H. right. exact Hin.
Qed.

(** C3: classification tries the rules in the order [AnyOfObject],
    [OneOfObject], [AllOfObject], [RefObject], [RefTrait], [Not], [AnyOf],
    [AllOf], [OneOf], [Enum], [SimpleType], [CompoundType], [Array],
    [Object] and answers with the first whose check matches, all earlier
    checks having answered [False], and [trait_code] and [object_code]
    hand over to that same extractor ([trait_code] being a property, an
    [AttributeError] from the extractor reaches its reader as one for
    [trait_code]); when every check answers [False] it
    raises [ValueError("No recognized trait code for schema with keys
    ...")] over the fragment's keys (the specification's
    [UnrecognizedSchema]). *)
Theorem trait_extractor_first_match check self :
  trait_extractors =
    [ tx.AnyOfObject; tx.OneOfObject; tx.AllOfObject; tx.RefObject; tx.RefTrait;
      tx.Not; tx.AnyOf; tx.AllOf; tx.OneOf; tx.Enum; tx.SimpleType;
      tx.CompoundType; tx.Array; tx.Object ] /\
  (forall extractor,
      trait_extractor check None self = Some (Ok (extractor, Some extractor)) <->
      first_to_match check self trait_extractors extractor) /\
  (forall d,
      schema self = VDict d ->
      (forall e, In e trait_extractors -> check e self = Some (Ok false)) ->
      trait_extractor check None self =
      Some (Err (ValueErrorKeys
                   "No recognized trait code for schema with keys {0}"
                   (dict_keys d)))) /\
  (forall extractor emit_trait emit_object,
      first_to_match check self trait_extractors extractor ->
      trait_code check emit_trait self =
        as_property "trait_code"
          (emit_trait extractor self (trait_code_kwargs self)) /\
      object_code check emit_object self = emit_object extractor self).
Proof.
  split; [reflexivity|]. split; [|split]; cycle 2.
  { intros extractor emit_trait emit_object H.
    apply first_match_some in H. unfold trait_code, object_code.
    rewrite H. split; reflexivity. }
  - intros extractor. rewrite <- first_match_some. unfold trait_extractor.
    destruct (first_match check self trait_extractors) as [[[e|]|e]|]; simpl.
    + split; intros [= ->]; reflexivity.
    + unfold no_trait_code. destruct (schema_keys self) as [keys|e]; simpl;
        [|destruct e]; split; discriminate.
    + destruct e; split; discriminate.
    + split; discriminate.
  - intros d Hd Hall. apply first_match_none in Hall. unfold trait_extractor.
    rewrite Hall. simpl. unfold no_trait_code, schema_keys. rewrite Hd.
    reflexivity.
Qed.

Lemma trait_extractor_first_match_witness :
  trait_extractor ex_check None
    (root_of [("type", VStr "object"); ("enum", VList [VInt 1])]) =
    Some (Ok (tx.Enum, Some tx.Enum)) /\
  trait_extractor ex_check None (root_of [("type", VStr "string")]) =
    Some (Err (ValueErrorKeys
                 "No recognized trait code for schema with keys {0}" ["type"])).
Proof.
  split.
  - apply (trait_extractor_first_match ex_check).
    exists [ tx.AnyOfObject; tx.OneOfObject; tx.AllOfObject; tx.RefObject;
             tx.RefTrait; tx.Not; tx.AnyOf; tx.AllOf; tx.OneOf ],
           [ tx.SimpleType; tx.CompoundType; tx.Array; tx.Object ].
    split; [reflexivity|]. split; [|reflexivity].
    intros e Hin. simpl in Hin.
    repeat (destruct Hin as [<-|Hin]; [reflexivity|]). contradiction.
  - destruct (trait_extractor_first_match ex_check
                (root_of [("type", VStr "string")])) as (_ & _ & Hnone & _).
    apply (Hnone [("type", VStr "string")]); [reflexivity|].
    intros e _. destruct e; reflexivity.
Defined.

(** ** Validators *)

(** The model of the validators agrees with the cases of
    [test_jstraitlets.py] that it can express. *)
Lemma test_traits :
  let half := jst.Build_bounds (Some 0) (Some 100) false false (Some (1 # 2)) in
  let open := jst.Build_bounds (Some 0) (Some 100) true true None in
  let pass t v := jst.validate t v = true in
  let fail t v := jst.validate t v = false in
  let int_or_str := [jst.JSONInteger true jst.no_bounds; jst.JSONString true] in
  let int_and_num :=
    [jst.JSONInteger true jst.no_bounds; jst.JSONNumber true jst.no_bounds] in
  (fail (jst.JSONNull true) (jst.defined (VInt 0)) /\
   pass (jst.JSONNull true) (jst.defined VNone) /\
   pass (jst.JSONNull true) jst.undefined /\
   fail (jst.JSONNull false) jst.undefined) /\
  (fail (jst.JSONBoolean true) (jst.defined (VInt 0)) /\
   pass (jst.JSONBoolean true) (jst.defined (VBool false))) /\
  (fail (jst.JSONNumber true half) (jst.defined (VInt (-10))) /\
   fail (jst.JSONNumber true half) (jst.defined (VInt 110)) /\
   fail (jst.JSONNumber true half) (jst.defined (VFloat (333 # 10))) /\
   pass (jst.JSONNumber true half) (jst.defined (VInt 0)) /\
   pass (jst.JSONNumber true half) (jst.defined (VFloat (605 # 10))) /\
   pass (jst.JSONNumber true half) (jst.defined (VInt 100))) /\
  (fail (jst.JSONNumber true open) (jst.defined (VInt 0)) /\
   fail (jst.JSONNumber true open) (jst.defined (VInt 100)) /\
   pass (jst.JSONNumber true open) (jst.defined (VFloat (1 # 100))) /\
   pass (jst.JSONNumber true open) (jst.defined (VFloat (99 # 100)))) /\
  (fail (jst.JSONInteger true jst.no_bounds) (jst.defined VNone) /\
   fail (jst.JSONInteger true jst.no_bounds) (jst.defined (VStr "123")) /\
   fail (jst.JSONInteger true jst.no_bounds) (jst.defined (VFloat (314 # 100))) /\
   pass (jst.JSONInteger true jst.no_bounds) (jst.defined (VInt (-10)))) /\
  (fail (jst.JSONString true) (jst.defined (VBool true)) /\
   pass (jst.JSONString true) (jst.defined (VStr "abc"))) /\
  (fail (jst.JSONArray true (jst.JSONString true) None None)
        (jst.defined (VStr "a")) /\
   fail (jst.JSONArray true (jst.JSONString true) None None)
        (jst.defined (VList [VInt 1; VStr "b"])) /\
   pass (jst.JSONArray true (jst.JSONString true) None None)
        (jst.defined (VList [VStr "a"; VStr "b"])) /\
   fail (jst.JSONArray true (jst.JSONInteger true jst.no_bounds) (Some 1%nat)
           (Some 2%nat)) (jst.defined (VList [])) /\
   fail (jst.JSONArray true (jst.JSONInteger true jst.no_bounds) (Some 1%nat)
           (Some 2%nat)) (jst.defined (VList [VInt 1; VInt 2; VInt 3])) /\
   pass (jst.JSONArray true (jst.JSONInteger true jst.no_bounds) (Some 1%nat)
           (Some 2%nat)) (jst.defined (VList [VInt 1; VInt 2]))) /\
  (fail (jst.JSONEnum true [VInt 1; VStr "2"; VNone]) (jst.defined (VStr "1")) /\
   fail (jst.JSONEnum true [VInt 1; VStr "2"; VNone]) (jst.defined (VInt 2)) /\
   pass (jst.JSONEnum true [VInt 1; VStr "2"; VNone]) (jst.defined VNone) /\
   pass (jst.JSONEnum true [VInt 1; VStr "2"; VNone]) jst.undefined) /\
  (fail (jst.JSONInstance true jst.native_dict) (jst.defined (VList [VInt 1])) /\
   pass (jst.JSONInstance true jst.native_dict)
        (jst.defined (VDict [("1", VInt 2)]))) /\
  (fail (jst.JSONUnion true int_or_str) (jst.defined (VFloat (314 # 100))) /\
   pass (jst.JSONUnion true int_or_str) (jst.defined (VStr "42")) /\
   fail (jst.JSONAnyOf true int_or_str) (jst.defined VNone) /\
   pass (jst.JSONAnyOf true int_or_str) (jst.defined (VInt 42))) /\
  (fail (jst.JSONOneOf true int_and_num) (jst.defined VNone) /\
   fail (jst.JSONOneOf true int_and_num) (jst.defined (VInt 3)) /\
   pass (jst.JSONOneOf true int_and_num) (jst.defined (VFloat (314 # 100)))) /\
  (fail (jst.JSONAllOf true int_and_num) (jst.defined (VFloat (314 # 100))) /\
   pass (jst.JSONAllOf true int_and_num) (jst.defined (VInt 3))) /\
  (fail (jst.JSONNot true (jst.JSONString true)) (jst.defined (VStr "a")) /\
   pass (jst.JSONNot true (jst.JSONString true)) (jst.defined (VBool false))).
Proof. cbv zeta. repeat split; vm_compute; reflexivity. Qed.

Lemma filter_nil_iff {A} (p : A -> bool) l :
  filter p l = [] <-> (forall y, In y l -> p y = false).
Proof.
  induction l as [|x l IH]; simpl.
  - split; [intros _ y []|reflexivity].
  - destruct (p x) eqn:Hx.
    + split; [discriminate|]. intros H. rewrite (H x) in Hx by auto. discriminate.
    + rewrite IH. split.
      * intros H y [<-|Hin]; auto.
      * intros H y Hin. apply H. right. exact Hin.
Qed.

Lemma filter_length_one {A} (p : A -> bool) l :
  length (filter p l) = 1%nat <-> exactly_one p l.
Proof.
  induction l as [|x l IH]; simpl.
  - split; [discriminate|].
    intros (before & y & after & H & _). destruct before; discriminate.
  - destruct (p x) eqn:Hx; simpl.
    + split.
      * intros H. injection H as H. apply length_zero_iff_nil in H.
        exists [], x, l. split; [reflexivity|]. split; [exact Hx|].
        split; [intros y []|]. apply filter_nil_iff. exact H.
      * intros (before & y & after & Heq & Hy & Hb & Ha).
        destruct before as [|z before]; simpl in Heq; injection Heq as -> ->.
        -- f_equal. apply length_zero_iff_nil, filter_nil_iff. exact Ha.
        -- rewrite (Hb z) in Hx by (left; reflexivity). discriminate.
    + rewrite IH. split.
      * intros (before & y & after & -> & Hy & Hb & Ha).
        exists (x :: before), y, after. split; [reflexivity|].
        split; [exact Hy|]. split; [|exact Ha].
        intros z [<-|Hin]; auto.
      * intros (before & y & after & Heq & Hy & Hb & Ha).
        destruct before as [|z before]; simpl in Heq; injection Heq as -> ->.
        -- congruence.
        -- exists before, y, after. split; [reflexivity|].
           split; [exact Hy|]. split; [|exact Ha].
           intros w Hin. apply Hb. right. exact Hin.
Qed.

(** C1 (as amended): [JSONOneOf] passes a value exactly when one and only
    one branch validates it; no branch or several branches both fail.  For
    the branches [[JSONInteger(), JSONNumber()]], [3.14] passes (only the
    number branch takes it), [None] fails, and [3] fails as well, since both
    branches take it. *)
Theorem oneOf_exactly_one :
  (forall flag branches v,
      jst.validate (jst.JSONOneOf flag branches) (jst.defined v) = true <->
      exactly_one (fun b => jst.validate b (jst.defined v)) branches) /\
  jst.validate jst.integer_or_number (jst.defined (VFloat (314 # 100))) = true /\
  jst.validate jst.integer_or_number (jst.defined VNone) = false /\
  jst.validate jst.integer_or_number (jst.defined (VInt 3)) = false.
Proof.
  split; [|repeat split].
  intros flag branches v. simpl. rewrite Nat.eqb_eq. apply filter_length_one.
Qed.

(** C1, the claim as worded, fails at the value [3]: both [JSONInteger] and
    [JSONNumber] validate it, so [JSONOneOf] rejects it, as
    [test_jstraitlets.py] expects. *)
Lemma oneOf_rejects_3 :
  jst.validate (jst.JSONInteger true jst.no_bounds) (jst.defined (VInt 3)) = true /\
  jst.validate (jst.JSONNumber true jst.no_bounds) (jst.defined (VInt 3)) = true /\
  jst.validate jst.integer_or_number (jst.defined (VInt 3)) = false.
Proof. repeat split. Qed.

(** ** The [required] flag and [allow_undefined] *)

Lemma assoc_set_In {A} (d : list (string * A)) key a k b :
  In (k, b) (assoc_set d key a) -> In (k, b) d \/ (k = key /\ b = a).
Proof.
  induction d as [|[k' b'] d IH]; simpl.
  - intros [[= <- <-]|[]]. right. split; reflexivity.
  - destruct (String.eqb k' key) eqn:E; simpl.
    + apply String.eqb_eq in E. subst k'.
      intros [[= <- <-]|Hin]; [right; split; reflexivity|left; right; exact Hin].
    + intros [Heq|Hin]; [left; left; exact Heq|].
      destruct (IH Hin) as [H|H]; [left; right; exact H|right; exact H].
Qed.

Lemma wrap_properties_entries regularize_name self props :
  forall acc entries,
    wrap_properties regularize_name self props acc = Ok entries ->
    forall key child,
      In (key, child) entries ->
      In (key, child) acc \/
      exists name0 val,
        In (name0, val) props /\ key = regularize_name name0 /\
        property_child self name0 val = Ok child.
Proof.
  induction props as [|[name0 val] props IH]; simpl; intros acc entries H key child Hin.
  - injection H as <-. left. exact Hin.
  - destruct (property_child self name0 val) as [c|] eqn:Hc; simpl in H;
      [|discriminate].
    destruct (IH _ _ H _ _ Hin) as [Hacc|(n & v & Hn & Hk & Hp)].
    + apply assoc_set_In in Hacc. destruct Hacc as [Hacc|[-> ->]].
      * left. exact Hacc.
      * right. exists name0, val. auto.
    + right. exists n, v. auto.
Qed.

Lemma existsb_eq_str required key :
  existsb (fun x => eq_str x key) required = true <-> In (VStr key) required.
Proof.
  rewrite existsb_exists. split.
  - intros (x & Hin & Hx). destruct x; try discriminate.
    simpl in Hx. apply String.eqb_eq in Hx. subst. exact Hin.
  - intros Hin. exists (VStr key). split; [exact Hin|]. simpl.
    apply String.eqb_refl.
Qed.

Lemma property_child_kwargs self name0 val child required :
  __getattr__ self "required" = Ok (VList required) ->
  property_child self name0 val = Ok child ->
  trait_code_kwargs child =
  if existsb (fun x => eq_str x name0) required
  then [("allow_undefined", VBool false)] else [].
Proof.
  intros Hreq Hc. unfold property_child in Hc. rewrite Hreq in Hc. simpl in Hc.
  unfold make_child in Hc. apply init_ok_inv in Hc. destruct Hc as [_ ->].
  unfold trait_code_kwargs. simpl.
  destruct (existsb (fun x => eq_str x name0) required); reflexivity.
Qed.

Lemma assoc_get_set_same {A} (d : list (string * A)) key a :
  assoc_get (assoc_set d key a) key = Some a.
Proof.
  induction d as [|[k b] d IH]; simpl.
  - rewrite String.eqb_refl. reflexivity.
  - destruct (String.eqb k key) eqn:E; simpl; rewrite E; [reflexivity|exact IH].
Qed.

Lemma assoc_get_set_other {A} (d : list (string * A)) key a key' :
  key <> key' -> assoc_get (assoc_set d key a) key' = assoc_get d key'.
Proof.
  intros Hne. induction d as [|[k b] d IH]; simpl.
  - destruct (String.eqb key key') eqn:E; [|reflexivity].
    apply String.eqb_eq in E. contradiction.
  - destruct (String.eqb k key) eqn:E; simpl.
    + apply String.eqb_eq in E. subst k.
      destruct (String.eqb key key') eqn:E'; [|reflexivity].
      apply String.eqb_eq in E'. contradiction.
    + rewrite IH. reflexivity.
Qed.

Lemma wrap_properties_lookup regularize_name self props :
  forall acc entries,
    wrap_properties regularize_name self props acc = Ok entries ->
    forall key,
      match last_named regularize_name props key with
      | Some (name0, val) =>
          exists child,
            property_child self name0 val = Ok child /\
            assoc_get entries key = Some child
      | None => assoc_get entries key = assoc_get acc key
      end.
Proof.
  induction props as [|[name0 val] props IH]; simpl; intros acc entries H key.
  - injection H as <-. reflexivity.
  - destruct (property_child self name0 val) as [child|] eqn:Hc; simpl in H;
      [|discriminate].
    specialize (IH _ _ H key).
    destruct (last_named regularize_name props key) as [[n v]|]; [exact IH|].
    destruct (String.eqb (regularize_name name0) key) eqn:E.
    + apply String.eqb_eq in E. subst key. exists child. split; [exact Hc|].
      rewrite IH. apply assoc_get_set_same.
    + rewrite IH. apply assoc_get_set_other. intros Heq. subst key.
      rewrite String.eqb_refl in E. discriminate.
Qed.

Lemma property_child_list_required self d name0 val :
  schema self = VDict d ->
  (dict_get d "required" = None \/ exists l, dict_get d "required" = Some (VList l)) ->
  property_child self name0 val =
  if is_dict val
  then make_child self val None
         (Some [("required",
                 VBool (match dict_get d "required" with
                        | Some (VList l) => existsb (fun x => eq_str x name0) l
                        | _ => false
                        end))])
  else Err (ValueError "schema should be supplied as a dict").
Proof.
  intros Hs Hr. unfold property_child, __getattr__. rewrite Hs. simpl.
  destruct Hr as [->|[l ->]]; simpl;
    (destruct (is_dict val) eqn:Hd; [reflexivity|]);
    unfold make_child; apply init_not_dict; exact Hd.
Qed.

Lemma wrap_properties_succeeds regularize_name self d props :
  schema self = VDict d ->
  (dict_get d "required" = None \/ exists l, dict_get d "required" = Some (VList l)) ->
  forallb (fun p => is_dict (snd p)) props = true ->
  forall acc, exists entries,
    wrap_properties regularize_name self props acc = Ok entries.
Proof.
  intros Hs Hr. induction props as [|[name0 val] props IH]; intros Hall acc; simpl.
  - eauto.
  - simpl in Hall. apply andb_true_iff in Hall. destruct Hall as [Hd Hall].
    rewrite (property_child_list_required _ _ _ _ Hs Hr), Hd.
    destruct val; try discriminate. unfold make_child. rewrite init_dict. simpl.
    apply IH. exact Hall.
Qed.

(** C7: a descriptor's [allow_undefined] flag is [true] unless the keyword
    arguments say otherwise.  [wrapped_properties] wraps every property of
    the object (under its regularized name, the last one winning) as a node
    whose metadata says whether the property's name is in the object's
    [required] list; [trait_code], read on such a node, hands the keyword
    arguments [allow_undefined=False] to the extractor exactly when the name
    is in that list and no keyword argument otherwise.  So a descriptor
    built from these arguments fails [undefined] exactly for the required
    properties, and validating [undefined] gives the flag whatever the other
    constraints of the descriptor are. *)
Theorem allow_undefined_follows_required regularize_name :
  (forall kwargs,
      dict_get kwargs "allow_undefined" = None ->
      jst.allow_undefined_of kwargs = true) /\
  (forall self entries key child,
      wrapped_properties regularize_name self = Ok entries ->
      In (key, child) entries ->
      exists props name0 val,
        __getattr__ self "properties" = Ok (VDict props) /\
        In (name0, val) props /\ key = regularize_name name0 /\
        property_child self name0 val = Ok child) /\
  (forall self d props,
      schema self = VDict d ->
      (dict_get d "required" = None \/
       exists l, dict_get d "required" = Some (VList l)) ->
      dict_get d "properties" = Some (VDict props) ->
      forallb (fun p => is_dict (snd p)) props = true ->
      exists entries,
        wrapped_properties regularize_name self = Ok entries /\
        forall key,
          match last_named regularize_name props key with
          | Some (name0, val) =>
              exists child,
                property_child self name0 val = Ok child /\
                assoc_get entries key = Some child
          | None => assoc_get entries key = None
          end) /\
  (forall self name0 val child required,
      __getattr__ self "required" = Ok (VList required) ->
      property_child self name0 val = Ok child ->
      (jst.allow_undefined_of (trait_code_kwargs child) = false <->
       In (VStr name0) required)) /\
  (forall check emit self name0 val child required extractor,
      __getattr__ self "required" = Ok (VList required) ->
      property_child self name0 val = Ok child ->
      first_to_match check child trait_extractors extractor ->
      (In (VStr name0) required ->
       trait_code check emit child =
       as_property "trait_code"
         (emit extractor child [("allow_undefined", VBool false)])) /\
      (~ In (VStr name0) required ->
       trait_code check emit child =
       as_property "trait_code" (emit extractor child []))) /\
  (forall t, jst.validate t jst.undefined = jst.allow_undefined t) /\
  (forall self name0 val child required make,
      (forall flag, jst.allow_undefined (make flag) = flag) ->
      __getattr__ self "required" = Ok (VList required) ->
      property_child self name0 val = Ok child ->
      (jst.validate (make (jst.allow_undefined_of (trait_code_kwargs child)))
         jst.undefined = false <->
       In (VStr name0) required)).
Proof.
  assert (Hflag : forall self name0 val child required,
             __getattr__ self "required" = Ok (VList required) ->
             property_child self name0 val = Ok child ->
             (jst.allow_undefined_of (trait_code_kwargs child) = false <->
              In (VStr name0) required)).
  { intros self name0 val child required Hreq Hc.
    rewrite (property_child_kwargs _ _ _ _ _ Hreq Hc), <- existsb_eq_str.
    destruct (existsb (fun x => eq_str x name0) required); simpl.
    - split; reflexivity.
    - split; discriminate. }
  split; [|split; [|split; [|split; [|split; [|split]]]]].
  - intros kwargs H. unfold jst.allow_undefined_of. rewrite H. reflexivity.
  - intros self entries key child H Hin. unfold wrapped_properties in H.
    destruct (__getattr__ self "properties") as [properties|] eqn:Hp;
      simpl in H; [|discriminate].
    destruct properties; try discriminate. simpl in H.
    destruct (wrap_properties_entries _ _ _ _ _ H _ _ Hin)
      as [[]|(n & v & Hn & Hk & Hc)].
    exists d, n, v. auto.
  - intros self d props Hs Hr Hp Hall.
    destruct (wrap_properties_succeeds regularize_name self d props Hs Hr Hall [])
      as [entries He].
    exists entries. unfold wrapped_properties, __getattr__.
    rewrite Hs. simpl. rewrite Hp. simpl. split; [exact He|].
    intros key. apply (wrap_properties_lookup _ _ _ _ _ He key).
  - exact Hflag.
  - intros check emit self name0 val child required extractor Hreq Hc Hm.
    apply first_match_some in Hm. unfold trait_code. rewrite Hm. simpl.
    rewrite (property_child_kwargs _ _ _ _ _ Hreq Hc).
    destruct (existsb (fun x => eq_str x name0) required) eqn:E.
    + split; [reflexivity|]. intros Hn. apply existsb_eq_str in E. contradiction.
    + split; [|reflexivity]. intros Hin. apply existsb_eq_str in Hin. congruence.
  - intros t. reflexivity.
  - intros self name0 val child required make Hmake Hreq Hc.
    unfold jst.validate. rewrite Hmake. apply (Hflag _ _ _ _ _ Hreq Hc).
Qed.

(** A stand-in emitter: the code names the flag it was handed. *)
Lemma allow_undefined_follows_required_witness :
  exists entries child_a child_b,
    wrapped_properties (fun s => s) ex_required = Ok entries /\
    assoc_get entries "a" = Some child_a /\
    assoc_get entries "b" = Some child_b /\
    trait_code ex_check ex_emit child_a = Some (Ok "required") /\
    trait_code ex_check ex_emit child_b = Some (Ok "optional") /\
    jst.validate
      (jst.JSONString (jst.allow_undefined_of (trait_code_kwargs child_a)))
      jst.undefined = false /\
    jst.validate
      (jst.JSONString (jst.allow_undefined_of (trait_code_kwargs child_b)))
      jst.undefined = true.
Proof.
  destruct (allow_undefined_follows_required (fun s => s))
    as (_ & _ & Hwrap & _ & Hcode & _ & Hvalid).
  destruct (Hwrap ex_required _ [("a", VDict []); ("b", VDict [])] eq_refl
              (or_intror (ex_intro _ [VStr "a"] eq_refl)) eq_refl eq_refl)
    as (entries & He & Hlook).
  pose proof (Hlook "a") as Ha. pose proof (Hlook "b") as Hb.
  simpl in Ha, Hb.
  destruct Ha as (child_a & Hca & Hga). destruct Hb as (child_b & Hcb & Hgb).
  assert (Hobject : forall child d,
             schema child = VDict d -> dict_get d "type" = None ->
             dict_get d "enum" = None ->
             first_to_match ex_check child trait_extractors tx.Object).
  { intros child d Hs Ht Hen.
    exists [ tx.AnyOfObject; tx.OneOfObject; tx.AllOfObject; tx.RefObject;
             tx.RefTrait; tx.Not; tx.AnyOf; tx.AllOf; tx.OneOf; tx.Enum;
             tx.SimpleType; tx.CompoundType; tx.Array ], [].
    split; [reflexivity|]. split.
    - intros e Hin. simpl in Hin.
      repeat (destruct Hin as [<-|Hin];
              [try reflexivity; simpl; unfold __contains__; rewrite Hs; simpl;
               unfold dict_mem; rewrite Hen; reflexivity|]).
      contradiction.
    - simpl. unfold __getattr__. rewrite Hs. simpl. rewrite Ht. reflexivity. }
  assert (Hsa : schema child_a = VDict []) by (injection Hca as <-; reflexivity).
  assert (Hsb : schema child_b = VDict []) by (injection Hcb as <-; reflexivity).
  destruct (Hcode ex_check ex_emit ex_required "a" (VDict []) child_a [VStr "a"]
              tx.Object eq_refl Hca (Hobject _ _ Hsa eq_refl eq_refl))
    as [Hreq _].
  destruct (Hcode ex_check ex_emit ex_required "b" (VDict []) child_b [VStr "a"]
              tx.Object eq_refl Hcb (Hobject _ _ Hsb eq_refl eq_refl))
    as [_ Hopt].
  exists entries, child_a, child_b.
  split; [exact He|]. split; [exact Hga|]. split; [exact Hgb|].
  split; [rewrite Hreq; [reflexivity|left; reflexivity]|].
  split; [rewrite Hopt; [reflexivity|intros [H|[]]; discriminate]|].
  split.
  - apply (Hvalid ex_required "a" (VDict []) child_a [VStr "a"]
             (fun flag => jst.JSONString flag)); [reflexivity|reflexivity|exact Hca|].
    left. reflexivity.
  - apply not_false_iff_true.
    rewrite (Hvalid ex_required "b" (VDict []) child_b [VStr "a"]
               (fun flag => jst.JSONString flag)); [|reflexivity|reflexivity|exact Hcb].
    intros [H|[]]. discriminate.
Defined.

(** * Further properties *)

(** ** [really_is_trait] *)

Lemma really_is_trait_body_mono (p q : JSONSchema -> comp bool) self r :
  (forall child r', p child = Some r' -> q child = Some r') ->
  really_is_trait_body p self = Some r ->
  really_is_trait_body q self = Some r.
Proof.
  intros Hpq. unfold really_is_trait_body.
  destruct (__getattr__ self "type") as [type|]; simpl; auto.
  destruct (negb (eq_str type "object")); auto.
  destruct (__contains__ self "properties") as [[|]|]; simpl; auto.
  destruct (__contains__ self "$ref") as [[|]|]; simpl; auto.
  { destruct (wrapped_ref self); simpl; auto. }
  destruct (__contains__ self "anyOf") as [[|]|]; simpl; auto.
  { apply all_children_mono. exact Hpq. }
  destruct (__contains__ self "allOf") as [[|]|]; simpl; auto.
  { apply all_children_mono. exact Hpq. }
  destruct (__contains__ self "oneOf") as [[|]|]; simpl; auto.
  apply all_children_mono. exact Hpq.
Qed.

Lemma really_is_trait_step fuel :
  forall self r,
    really_is_trait fuel self = Some r ->
    really_is_trait (S fuel) self = Some r.
Proof.
  induction fuel as [|fuel IH]; intros self r H; [discriminate|].
  change (really_is_trait_body (really_is_trait (S fuel)) self = Some r).
  change (really_is_trait_body (really_is_trait fuel) self = Some r) in H.
  revert H. apply really_is_trait_body_mono. exact IH.
Qed.

Lemma really_is_trait_mono fuel fuel' self r :
  (fuel <= fuel')%nat ->
  really_is_trait fuel self = Some r ->
  really_is_trait fuel' self = Some r.
Proof.
  induction 1 as [|fuel' _ IH]; [auto|].
  intros H. apply really_is_trait_step, IH, H.
Qed.

Lemma all_m_on_child_trait_sound (p : JSONSchema -> comp bool) self specs :
  (forall child, p child = Some (Ok true) -> trait_like child) ->
  all_m (on_child p self) specs = Some (Ok true) ->
  all_trait_like self specs.
Proof.
  intros Hp. induction specs as [|spec specs IH]; simpl; intros H.
  - constructor.
  - unfold on_child at 1 in H.
    destruct (make_child self spec None None) as [child|] eqn:Hc;
      simpl in H; [|discriminate].
    destruct (p child) as [[[|]|]|] eqn:Hpc; simpl in H; try discriminate.
    econstructor; eauto.
Qed.

Lemma really_is_trait_sound fuel :
  forall self, really_is_trait fuel self = Some (Ok true) -> trait_like self.
Proof.
  induction fuel as [|fuel IH]; intros self H; [discriminate|].
  change (really_is_trait_body (really_is_trait fuel) self = Some (Ok true)) in H.
  unfold really_is_trait_body, all_children in H.
  destruct (__getattr__ self "type") as [type|] eqn:Hty; simpl in H;
    [|discriminate].
  destruct (eq_str type "object") eqn:Hobj; simpl in H;
    [|eapply trait_like_type; eauto].
  destruct (__contains__ self "properties") as [[|]|] eqn:Hprops;
    simpl in H; try discriminate.
  destruct (__contains__ self "$ref") as [[|]|] eqn:Href;
    simpl in H; try discriminate.
  { destruct (wrapped_ref self) as [target|] eqn:Ht; simpl in H; [|discriminate].
    eapply trait_like_ref; eauto. }
  destruct (__contains__ self "anyOf") as [[|]|] eqn:Hany;
    simpl in H; try discriminate.
  { destruct (branches self "anyOf") as [specs|] eqn:Hb; simpl in H; [|discriminate].
    eapply trait_like_anyOf; eauto using all_m_on_child_trait_sound. }
  destruct (__contains__ self "allOf") as [[|]|] eqn:Hall;
    simpl in H; try discriminate.
  { destruct (branches self "allOf") as [specs|] eqn:Hb; simpl in H; [|discriminate].
    eapply trait_like_allOf; eauto using all_m_on_child_trait_sound. }
  destruct (__contains__ self "oneOf") as [[|]|] eqn:Hone;
    simpl in H; try discriminate.
  destruct (branches self "oneOf") as [specs|] eqn:Hb; simpl in H; [|discriminate].
  eapply trait_like_oneOf; eauto using all_m_on_child_trait_sound.
Qed.

Lemma really_is_trait_complete self :
  trait_like self -> exists fuel, really_is_trait fuel self = Some (Ok true).
Proof.
  intros H.
  induction H using trait_like_ind2 with
    (P0 := fun self specs =>
             exists fuel,
               all_m (on_child (really_is_trait fuel) self) specs = Some (Ok true)).
  - exists 1%nat. simpl. unfold really_is_trait_body. rewrite H. simpl.
    rewrite H0. reflexivity.
  - destruct IHtrait_like as [fuel IH]. exists (S fuel). simpl.
    unfold really_is_trait_body. rewrite H. simpl.
    rewrite H0, H1, H2, H3. simpl. exact IH.
  - destruct IHtrait_like as [fuel IH]. exists (S fuel). simpl.
    unfold really_is_trait_body, all_children. rewrite H. simpl.
    rewrite H0, H1, H2, H3, H4. simpl. exact IH.
  - destruct IHtrait_like as [fuel IH]. exists (S fuel). simpl.
    unfold really_is_trait_body, all_children. rewrite H. simpl.
    rewrite H0, H1, H2, H3, H4, H5. simpl. exact IH.
  - destruct IHtrait_like as [fuel IH]. exists (S fuel). simpl.
    unfold really_is_trait_body, all_children. rewrite H. simpl.
    rewrite H0, H1, H2, H3, H4, H5, H6. simpl. exact IH.
  - exists 0%nat. reflexivity.
  - destruct IHtrait_like as [fuel1 IH1]. destruct IHtrait_like0 as [fuel2 IH2].
    exists (Nat.max fuel1 fuel2). simpl. unfold on_child at 1. rewrite H. simpl.
    rewrite (really_is_trait_mono fuel1 _ _ _ (Nat.le_max_l _ _) IH1). simpl.
    revert IH2. apply all_m_mono. intros x r. apply on_child_mono.
    intros c r'. apply really_is_trait_mono. apply Nat.le_max_r.
Qed.

(** X1: [really_is_trait] answers [True] exactly on the trait-like nodes: a
    node whose type is not ["object"], whatever else it holds; or an
    object-typed node without [properties] whose [$ref] resolves to a
    trait-like node, or else whose first composition keyword ([anyOf], then
    [allOf], then [oneOf]) has only trait-like branches. *)
Theorem really_is_trait_characterised self :
  (exists fuel, really_is_trait fuel self = Some (Ok true)) <-> trait_like self.
Proof.
  split.
  - intros [fuel H]. eapply really_is_trait_sound, H.
  - apply really_is_trait_complete.
Qed.

(** ** Termination on fragments without references *)

Lemma depth_dict_get d key v :
  dict_get d key = Some v -> (depth v < depth (VDict d))%nat.
Proof.
  induction d as [|[k x] d IH]; simpl; [discriminate|].
  destruct (String.eqb k key).
  - intros [= ->]. lia.
  - intros H. specialize (IH H). simpl in IH. lia.
Qed.

Lemma depth_In l x : In x l -> (depth x < depth (VList l))%nat.
Proof.
  induction l as [|y l IH]; simpl; [contradiction|].
  intros [->|H]; [lia|]. specialize (IH H). simpl in IH. lia.
Qed.

Lemma ref_free_dict_get d key v :
  ref_free (VDict d) = true -> dict_get d key = Some v -> ref_free v = true.
Proof.
  simpl. rewrite andb_true_iff. intros [_ H]. revert H.
  induction d as [|[k x] d IH]; simpl; [discriminate|].
  rewrite andb_true_iff. intros [Hx Hd].
  destruct (String.eqb k key); [intros [= <-]; exact Hx|auto].
Qed.

Lemma ref_free_In l x : ref_free (VList l) = true -> In x l -> ref_free x = true.
Proof.
  induction l as [|y l IH]; simpl; [contradiction|].
  rewrite andb_true_iff. intros [Hy Hl] [<-|H]; auto.
Qed.

Lemma ref_free_no_ref d : ref_free (VDict d) = true -> dict_mem d "$ref" = false.
Proof.
  simpl. rewrite andb_true_iff, negb_true_iff. intros [H _]. exact H.
Qed.

Lemma chars_not_dict s x : In x (chars s) -> is_dict x = false.
Proof.
  unfold chars. intros H. apply in_map_iff in H. destruct H as (c & <- & _).
  reflexivity.
Qed.

(** A branch that [make_child] accepts lies strictly inside the fragment. *)
Lemma branch_inside self key specs spec child :
  branches self key = Ok specs -> In spec specs ->
  make_child self spec None None = Ok child ->
  schema child = spec /\
  (depth spec + 2 <= depth (schema self))%nat /\
  (ref_free (schema self) = true -> ref_free spec = true).
Proof.
  unfold branches, __getitem__, getitem. intros Hb Hin Hc.
  unfold make_child in Hc. apply init_ok_inv in Hc. destruct Hc as [Hd ->].
  split; [reflexivity|].
  destruct (schema self) as [| | | | | |d]; try discriminate.
  destruct (dict_get d key) as [v|] eqn:Hget; [|discriminate]. simpl in Hb.
  pose proof (depth_dict_get _ _ _ Hget) as Hdepth.
  destruct v; try discriminate; simpl in Hb; injection Hb as <-.
  - apply chars_not_dict in Hin. congruence.
  - pose proof (depth_In _ _ Hin). split; [lia|].
    intros Hf. eapply ref_free_In; [|exact Hin].
    eapply ref_free_dict_get; eassumption.
  - apply in_map_iff in Hin. destruct Hin as (k & <- & _). discriminate.
Qed.

Lemma all_m_returns {A} (f : A -> comp bool) xs :
  (forall x, In x xs -> exists r, f x = Some r) ->
  exists r, all_m f xs = Some r.
Proof.
  induction xs as [|x xs IH]; simpl; intros H; [eauto|].
  destruct (H x (or_introl eq_refl)) as [[[|]|e] ->]; simpl; eauto.
Qed.

Lemma all_children_returns recur self key :
  (forall specs spec child,
      branches self key = Ok specs -> In spec specs ->
      make_child self spec None None = Ok child ->
      exists r, recur child = Some r) ->
  exists r, all_children recur self key = Some r.
Proof.
  intros H. unfold all_children.
  destruct (branches self key) as [specs|e] eqn:Hb; simpl; [|eauto].
  apply all_m_returns. intros spec Hin. unfold on_child.
  destruct (make_child self spec None None) as [child|e] eqn:Hc; simpl; eauto.
Qed.

Lemma cascade_returns recur self :
  (forall target,
      __contains__ self "$ref" = Ok true -> wrapped_ref self = Ok target ->
      exists r, recur target = Some r) ->
  (forall key specs spec child,
      branches self key = Ok specs -> In spec specs ->
      make_child self spec None None = Ok child ->
      exists r, recur child = Some r) ->
  exists r, composition_cascade recur self = Some r.
Proof.
  intros Href Hbranch. unfold composition_cascade.
  destruct (__contains__ self "$ref") as [[|]|] eqn:Hr; simpl; eauto.
  { destruct (wrapped_ref self) as [target|] eqn:Ht; simpl; eauto. }
  destruct (__contains__ self "anyOf") as [[|]|]; simpl; eauto.
  { apply all_children_returns. apply Hbranch. }
  destruct (__contains__ self "allOf") as [[|]|]; simpl; eauto.
  { apply all_children_returns. apply Hbranch. }
  destruct (__contains__ self "oneOf") as [[|]|]; simpl; eauto.
  apply all_children_returns. apply Hbranch.
Qed.

Lemma ref_free_not_followed self target :
  ref_free (schema self) = true ->
  __contains__ self "$ref" = Ok true -> wrapped_ref self = Ok target -> False.
Proof.
  unfold wrapped_ref, __getitem__, __contains__, getitem. intros Hf Hc Hw.
  destruct (schema self) as [| | | | | |d]; try discriminate.
  apply ref_free_no_ref in Hf. simpl in Hc. congruence.
Qed.

(** X2: on a node whose fragment holds no [$ref] at any depth, both
    recursive predicates return (an answer or an error) within a budget
    one above the nesting depth of the fragment: without references the
    recursion only descends into the fragment. *)
Theorem ref_free_predicates_return fuel :
  forall self,
    ref_free (schema self) = true ->
    (depth (schema self) < fuel)%nat ->
    (exists r, really_is_object fuel self = Some r) /\
    (exists r, really_is_trait fuel self = Some r).
Proof.
  induction fuel as [|fuel IH]; intros self Hf Hd; [lia|].
  assert (Hchild : forall key specs spec child,
             branches self key = Ok specs -> In spec specs ->
             make_child self spec None None = Ok child ->
             (exists r, really_is_object fuel child = Some r) /\
             (exists r, really_is_trait fuel child = Some r)).
  { intros key specs spec child Hb Hin Hc.
    destruct (branch_inside _ _ _ _ _ Hb Hin Hc) as (Hs & Hdepth & Hfree).
    apply IH; rewrite Hs; [auto|lia]. }
  split.
  - change (exists r, really_is_object_body (really_is_object fuel) self = Some r).
    rewrite really_is_object_body_cascade.
    destruct (__contains__ self "properties") as [[|]|]; simpl; eauto.
    apply cascade_returns.
    + intros target Hc Hw. destruct (ref_free_not_followed _ _ Hf Hc Hw).
    + intros key specs spec child Hb Hin Hc. eapply Hchild; eassumption.
  - change (exists r, really_is_trait_body (really_is_trait fuel) self = Some r).
    rewrite really_is_trait_body_cascade.
    destruct (__getattr__ self "type") as [type|]; simpl; eauto.
    destruct (negb (eq_str type "object")); eauto.
    destruct (__contains__ self "properties") as [[|]|]; simpl; eauto.
    apply cascade_returns.
    + intros target Hc Hw. destruct (ref_free_not_followed _ _ Hf Hc Hw).
    + intros key specs spec child Hb Hin Hc. eapply Hchild; eassumption.
Qed.

Lemma ref_free_predicates_return_witness :
  (exists r, really_is_object 6 ex_nested = Some r) /\
  (exists r, really_is_trait 6 ex_nested = Some r).
Proof.
  apply (ref_free_predicates_return 6 ex_nested).
  - reflexivity.
  - simpl. lia.
Defined.

(** ** The shallow predicates *)

(** X3: on a node over a dict, [is_trait] and [is_object] both answer, never
    both with [True]; they both answer [False] exactly on a node that holds
    a [$ref] and none of [anyOf], [allOf], [oneOf]. *)
Theorem is_trait_is_object_exclusive self d :
  schema self = VDict d ->
  exists t o,
    is_trait self = Ok t /\ is_object self = Ok o /\
    t && o = false /\
    (t || o = false <->
     dict_mem d "anyOf" = false /\ dict_mem d "allOf" = false /\
     dict_mem d "oneOf" = false /\ dict_mem d "$ref" = true).
Proof.
  intros Hs. unfold is_trait, is_object, is_reference, __contains__, __getattr__.
  rewrite Hs. simpl.
  destruct (dict_mem d "anyOf"); simpl.
  { exists true, false. repeat split; try discriminate. intros [H _]. discriminate. }
  destruct (dict_mem d "allOf"); simpl.
  { exists true, false. repeat split; try discriminate.
    intros [_ [H _]]. discriminate. }
  destruct (dict_mem d "oneOf"); simpl.
  { exists true, false. repeat split; try discriminate.
    intros [_ [_ [H _]]]. discriminate. }
  destruct (dict_get d "type") as [type|]; simpl;
    [destruct (eq_str type "object")|]; simpl;
    destruct (dict_mem d "$ref"); simpl;
    eexists; eexists; (split; [reflexivity|]); (split; [reflexivity|]);
    (split; [reflexivity|]); split; try discriminate; auto;
    intros (_ & _ & _ & H); discriminate.
Qed.

Lemma is_trait_is_object_exclusive_witness :
  is_trait ex_child = Ok false /\ is_object ex_child = Ok false.
Proof.
  destruct (is_trait_is_object_exclusive ex_child ex_fragment_A eq_refl)
    as (t & o & Ht & Ho & _ & Hboth).
  assert (H : t || o = false) by (apply Hboth; repeat split).
  apply orb_false_elim in H. destruct H as [-> ->]. split; assumption.
Defined.

(** ** [copy] *)



(** ** One root per tree *)

Lemma make_child_fields self schema0 name0 metadata0 child :
  make_child self schema0 name0 metadata0 = Ok child ->
  schema child = schema0 /\ module child = module self /\
  parent child = Some self /\ name child = name0 /\
  metadata child = or_else metadata0 [] /\
  context child = Some (get_context self) /\
  definition_tags child = default_definition_tags.
Proof.
  unfold make_child. intros H. apply init_ok_inv in H. destruct H as [_ ->].
  simpl. repeat split.
Qed.

(** A reference string that resolves starts with ["#"]; the answer is the
    context root or a child that wraps the fragment walked to. *)
Lemma get_reference_ok_cases self r target :
  get_reference self (VStr r) = Ok target ->
  hd "" (split_slash r) = "#" /\
  ((designates_root r /\ target = get_context self) \/
   (~ designates_root r /\ wraps_walked_fragment self r target)).
Proof.
  intros H. rewrite get_reference_str in H.
  destruct (String.eqb r ""); [discriminate|].
  destruct (String.eqb (hd "" (split_slash r)) "#") eqn:Hh; [|discriminate].
  apply String.eqb_eq in Hh. simpl in H. split; [exact Hh|].
  destruct ((length (split_slash r) =? 1)%nat
            || String.eqb (nth 1 (split_slash r) "") "") eqn:T.
  - left. split; [apply root_test_iff; assumption|]. congruence.
  - right. split.
    + intros Hd. apply root_test_iff in Hd; [congruence|exact Hh].
    + destruct (walk (schema (get_context self)) (tl (split_slash r)))
        as [fragment|e] eqn:Hw; [|destruct e; discriminate].
      apply make_child_fields in H.
      destruct H as (Hs & Hm & Hp & Hn & _ & Hc & _).
      unfold wraps_walked_fragment. rewrite Hs. auto.
Qed.

Lemma get_reference_ok_inv self ref target :
  get_reference self ref = Ok target ->
  target = get_context self \/
  (context target = Some (get_context self) /\ parent target = Some self /\
   module target = module self).
Proof.
  intros H. destruct ref;
    try (unfold get_reference in H; destruct (negb (truthy _)); discriminate).
  apply get_reference_ok_cases in H.
  destruct H as [_ [[_ ->]|[_ (_ & _ & Hm & Hc & Hp)]]]; auto.
Qed.

Lemma context_some self c :
  context self = Some c -> get_context self = c /\ is_root self = false.
Proof. unfold get_context, is_root. intros ->. split; reflexivity. Qed.

(** X5: every node made from a root by [make_child], [get_reference] and
    [copy] has that root as its context and, unless it is the root itself,
    is not a root: a tree has exactly one root, and the context is the same
    throughout. *)
Theorem one_root root n :
  is_root root = true ->
  reachable root n ->
  get_context n = root /\ (n = root \/ is_root n = false).
Proof.
  intros Hroot Hreach.
  assert (Hself : get_context root = root).
  { unfold get_context. unfold is_root in Hroot.
    destruct (context root); [discriminate|reflexivity]. }
  induction Hreach as [|n s nm md child _ [IH _] Hc
                       |n ref target _ [IH _] Hr
                       |n kwargs n' _ [IH _] Hk Hc].
  - auto.
  - apply make_child_fields in Hc. destruct Hc as (_ & _ & _ & _ & _ & Hc & _).
    apply context_some in Hc. destruct Hc as [-> ->]. auto.
  - apply get_reference_ok_inv in Hr. destruct Hr as [->|(Hc & _ & _)].
    + rewrite IH. auto.
    + apply context_some in Hc. destruct Hc as [-> ->]. auto.
  - unfold copy in Hc. rewrite Hk in Hc. simpl in Hc.
    apply init_ok_inv in Hc. destruct Hc as [_ Hc].
    assert (Hctx : context n' = Some (get_context n)) by (rewrite Hc; reflexivity).
    apply context_some in Hctx. destruct Hctx as [-> ->]. auto.
Qed.

Lemma one_root_witness :
  get_context ex_child = ex_root /\ (ex_child = ex_root \/ is_root ex_child = false).
Proof.
  apply one_root; [reflexivity|].
  apply (reachable_reference ex_root ex_root (VStr "#/definitions/A"));
    [apply reachable_root|reflexivity].
Defined.

(** ** Resolution looks at the context only *)

(** X6: two nodes with the same context and module resolve every reference
    alike: both fail with the same error, or both answer with nodes that
    differ at most in their parent.  What the invoking node itself wraps
    plays no part. *)
Theorem get_reference_by_context self other ref :
  get_context self = get_context other ->
  module self = module other ->
  same_resolution (get_reference self ref) (get_reference other ref).
Proof.
  intros Hc Hm. unfold get_reference, make_child. rewrite Hc, Hm.
  destruct (negb (truthy ref)); [reflexivity|].
  destruct ref; try reflexivity.
  destruct (negb (hd "" (split_slash s) =? "#")); [reflexivity|].
  destruct ((length (split_slash s) =? 1)%nat || (nth 1 (split_slash s) "" =? ""));
    [simpl; unfold same_but_parent; auto 10|].
  destruct (walk (schema (get_context other)) (tl (split_slash s))) as [v|e].
  - unfold __init__. destruct (negb (is_dict v)); simpl; [reflexivity|].
    unfold same_but_parent. simpl. auto 10.
  - destruct e; reflexivity.
Qed.

Lemma get_reference_by_context_witness :
  same_resolution (get_reference ex_root (VStr "#/definitions/A"))
                  (get_reference ex_child (VStr "#/definitions/A")).
Proof. apply get_reference_by_context; reflexivity. Defined.

(** ** References compose *)

Lemma split_slash_app a b :
  split_slash (a ++ String "/" b) = split_slash a ++ split_slash b.
Proof.
  induction a as [|c a IH].
  - reflexivity.
  - change ((String c a ++ String "/" b)%string)
      with (String c (a ++ String "/" b)).
    rewrite !split_slash_cons, IH.
    destruct (Ascii.eqb c "/"); [reflexivity|].
    pose proof (split_slash_not_nil a).
    destruct (split_slash a); [contradiction|reflexivity].
Qed.

Lemma split_slash_no_slash key : no_slash key = true -> split_slash key = [key].
Proof.
  induction key as [|c key IH]; simpl; [reflexivity|].
  rewrite andb_true_iff, negb_true_iff. intros [Hc Hk].
  rewrite Hc, (IH Hk). reflexivity.
Qed.

Lemma split_slash_extend r key :
  no_slash key = true ->
  split_slash (r ++ String "/" key) = split_slash r ++ [key].
Proof. intros H. rewrite split_slash_app, (split_slash_no_slash _ H). reflexivity. Qed.

Lemma path_extend (path : list string) key :
  hd "" path = "#" ->
  (length path =? 1)%nat || String.eqb (nth 1 path "") "" = false ->
  hd "" (path ++ [key]) = "#" /\
  (length (path ++ [key]) =? 1)%nat || String.eqb (nth 1 (path ++ [key]) "") ""
    = false /\
  tl (path ++ [key]) = tl path ++ [key] /\
  last (path ++ [key]) "" = key.
Proof.
  intros Hh Ht. rewrite last_last.
  destruct path as [|h [|h' t]]; simpl in *; try discriminate.
  repeat split; assumption.
Qed.

Lemma append_not_empty r c key : String.eqb (r ++ String c key) "" = false.
Proof. destruct r; reflexivity. Qed.

Lemma get_reference_extend_walked self r key target :
  no_slash key = true ->
  ~ designates_root r ->
  get_reference self (VStr r) = Ok target ->
  get_reference self (VStr (r ++ String "/" key)) =
  match getitem (schema target) key with
  | Ok v => make_child self v (Some key) None
  | Err (KeyError _) =>
      Err (ValueError ("$ref='" ++ (r ++ String "/" key) ++ "' not present in the schema"))
  | Err e => Err e
  end.
Proof.
  intros Hkey Hn Hr.
  destruct (get_reference_ok_cases _ _ _ Hr) as [Hh [[Hd _]|[_ (Hw & _)]]];
    [contradiction|].
  assert (Htest : (length (split_slash r) =? 1)%nat
                  || String.eqb (nth 1 (split_slash r) "") "" = false).
  { destruct ((length (split_slash r) =? 1)%nat
              || String.eqb (nth 1 (split_slash r) "") "") eqn:T; [|reflexivity].
    apply root_test_iff in T; [contradiction|exact Hh]. }
  destruct (path_extend _ key Hh Htest) as (Hh' & Htest' & Htl & Hlast).
  rewrite get_reference_str, append_not_empty, (split_slash_extend _ _ Hkey).
  rewrite Hh', Htest', Htl, Hlast, walk_app, Hw. simpl.
  destruct (getitem (schema target) key) as [v|[]]; reflexivity.
Qed.

(** X7: references compose.  When a reference [r] that is walked resolves
    to [target], the reference [r/key] (with no ["/"] in [key]) resolves to
    the node [make_child] makes for [target]'s entry at [key], named [key];
    it fails with "not present in the schema" when [target]'s fragment has
    no such key.  The same holds for [r = "#"] and a non-empty [key], the
    target being the context root. *)
Theorem get_reference_extend self r key target :
  no_slash key = true ->
  (r = "#" /\ key <> "") \/ ~ designates_root r ->
  get_reference self (VStr r) = Ok target ->
  get_reference self (VStr (r ++ String "/" key)) =
  match getitem (schema target) key with
  | Ok v => make_child self v (Some key) None
  | Err (KeyError _) =>
      Err (ValueError ("$ref='" ++ (r ++ String "/" key) ++ "' not present in the schema"))
  | Err e => Err e
  end.
Proof.
  intros Hkey [[-> Hne]|Hn] Hr; [|apply get_reference_extend_walked; assumption].
  injection Hr as <-.
  rewrite get_reference_str.
  change (("#" ++ String "/" key)%string) with (String "#" (String "/" key)).
  simpl String.eqb. cbv iota.
  rewrite !split_slash_cons. simpl Ascii.eqb. cbv iota.
  rewrite (split_slash_no_slash _ Hkey). simpl.
  destruct (String.eqb key "") eqn:E; [apply String.eqb_eq in E; contradiction|].
  destruct (getitem (schema (get_context self)) key) as [v|[]]; reflexivity.
Qed.

Lemma get_reference_extend_witness :
  get_reference ex_root (VStr "#/definitions/A") = Ok ex_child /\
  get_reference ex_root (VStr "#/definitions") =
    make_child ex_root (VDict [("A", VDict ex_fragment_A)]) (Some "definitions") None /\
  get_reference ex_root (VStr "#/definitions/B") =
    Err (ValueError "$ref='#/definitions/B' not present in the schema").
Proof.
  split; [reflexivity|]. split.
  - apply (get_reference_extend ex_root "#" "definitions" ex_root);
      [reflexivity|left; split; [reflexivity|discriminate]|reflexivity].
  - apply (get_reference_extend ex_root "#/definitions" "B"
             {| schema := VDict [("A", VDict ex_fragment_A)]; module := None;
                parent := Some ex_root; name := Some "definitions";
                metadata := []; context := Some ex_root;
                definition_tags := default_definition_tags |});
      [reflexivity| |reflexivity].
    right. intros [H|[H|[rest H]]]; discriminate.
Defined.

(** ** The name of a resolved node *)

Lemma last_cons_nonempty {A} (x : A) l d : l <> [] -> last (x :: l) d = last l d.
Proof. destruct l; [contradiction|reflexivity]. Qed.

Lemma split_slash_last s :
  (split_slash s = [s] /\ no_slash s = true) \/
  (exists prefix,
      s = (prefix ++ String "/" (last (split_slash s) ""))%string /\
      no_slash (last (split_slash s) "") = true /\
      (2 <= length (split_slash s))%nat).
Proof.
  induction s as [|c s IH].
  - left. split; reflexivity.
  - rewrite split_slash_cons. pose proof (split_slash_not_nil s) as Hne.
    destruct (Ascii.eqb c "/") eqn:E.
    + apply Ascii.eqb_eq in E. subst c. right.
      rewrite (last_cons_nonempty _ _ _ Hne).
      destruct IH as [[Hs Hn]|(prefix & Hs & Hn & Hl)].
      * exists "". rewrite Hs. simpl. auto.
      * exists (String "/" prefix). split; [simpl; f_equal; exact Hs|].
        split; [exact Hn|]. simpl. lia.
    + destruct IH as [[Hs Hn]|(prefix & Hs & Hn & Hl)].
      * left. rewrite Hs. simpl. rewrite E, Hn. split; reflexivity.
      * right. assert (Htl : tl (split_slash s) <> []).
        { destruct (split_slash s) as [|h [|h' t]]; simpl in *; try lia.
          discriminate. }
        assert (Hlast : last (String c (hd "" (split_slash s)) :: tl (split_slash s)) ""
                        = last (split_slash s) "").
        { rewrite (last_cons_nonempty _ _ _ Htl).
          destruct (split_slash s) as [|h t]; [contradiction|].
          simpl in Htl |- *. destruct t; [contradiction|reflexivity]. }
        rewrite Hlast. exists (String c prefix).
        split; [simpl; f_equal; exact Hs|]. split; [exact Hn|].
        destruct (split_slash s) as [|h [|h' t]]; simpl in *; lia.
Qed.

(** X8: the name [get_reference] gives a node it walks to is the text of
    the reference after its last ["/"]: the name holds no ["/"], and the
    reference is some prefix, a ["/"], and the name. *)
Theorem get_reference_name self r target :
  ~ designates_root r ->
  get_reference self (VStr r) = Ok target ->
  exists prefix n,
    name target = Some n /\ no_slash n = true /\
    r = (prefix ++ String "/" n)%string.
Proof.
  intros Hn Hr.
  destruct (get_reference_ok_cases _ _ _ Hr)
    as [Hh [[Hd _]|[_ (_ & Hname & _)]]]; [contradiction|].
  destruct (split_slash_last r) as [[Hs _]|(prefix & Hs & Hno & _)].
  - exfalso. apply Hn. apply root_test_iff; [exact Hh|]. rewrite Hs. reflexivity.
  - exists prefix, (last (split_slash r) ""). auto.
Qed.

Lemma get_reference_name_witness :
  exists prefix n,
    name ex_child = Some n /\ no_slash n = true /\
    "#/definitions/A" = (prefix ++ String "/" n)%string.
Proof.
  apply (get_reference_name ex_root "#/definitions/A" ex_child);
    [apply not_designates_root_definitions_A|reflexivity].
Defined.

(** ** [wrapped_ref] *)

(** X9: what [wrapped_ref] does with the [$ref] entry of a node over a
    dict.  Without the entry it raises [KeyError]; an entry that is false
    ([None], [False], [0], [""], [[]], [{}]) raises [ValueError("empty
    reference")]; a true entry that is not a string raises
    [AttributeError]; and it answers with a node only for a string that is
    ["#"] or starts with ["#/"]. *)
Theorem wrapped_ref_outcomes self d :
  schema self = VDict d ->
  (dict_get d "$ref" = None -> wrapped_ref self = Err (KeyError "$ref")) /\
  (forall v,
      dict_get d "$ref" = Some v -> truthy v = false ->
      wrapped_ref self = Err (ValueError "empty reference")) /\
  (forall v,
      dict_get d "$ref" = Some v -> truthy v = true ->
      (forall r, v <> VStr r) ->
      wrapped_ref self = Err (AttributeError "split")) /\
  (forall target,
      wrapped_ref self = Ok target ->
      exists r,
        dict_get d "$ref" = Some (VStr r) /\
        (r = "#" \/ exists rest, r = ("#/" ++ rest)%string)).
Proof.
  intros Hs. unfold wrapped_ref, __getitem__. rewrite Hs. simpl.
  split; [intros ->; reflexivity|]. split; [|split].
  - intros v -> Hv. simpl. unfold get_reference. rewrite Hv. reflexivity.
  - intros v -> Hv Hstr. simpl. unfold get_reference. rewrite Hv. simpl.
    destruct v; try reflexivity. destruct (Hstr s eq_refl).
  - intros target H. destruct (dict_get d "$ref") as [v|]; [|discriminate].
    simpl in H. destruct v;
      try (unfold get_reference in H; destruct (negb (truthy _)); discriminate).
    exists s. split; [reflexivity|]. apply hd_split_slash_hash.
    rewrite get_reference_str in H.
    destruct (String.eqb s ""); [discriminate|].
    destruct (String.eqb (hd "" (split_slash s)) "#") eqn:E; [|discriminate].
    apply String.eqb_eq. exact E.
Qed.

Lemma wrapped_ref_outcomes_witness :
  wrapped_ref (root_of []) = Err (KeyError "$ref") /\
  wrapped_ref (root_of [("$ref", VNone)]) = Err (ValueError "empty reference") /\
  wrapped_ref (root_of [("$ref", VInt 7)]) = Err (AttributeError "split").
Proof.
  split; [|split].
  - apply (wrapped_ref_outcomes (root_of []) [] eq_refl). reflexivity.
  - destruct (wrapped_ref_outcomes (root_of [("$ref", VNone)]) _ eq_refl)
      as (_ & H & _).
    apply (H VNone); reflexivity.
  - destruct (wrapped_ref_outcomes (root_of [("$ref", VInt 7)]) _ eq_refl)
      as (_ & _ & H & _).
    apply (H (VInt 7)); [reflexivity|reflexivity|discriminate].
Defined.

(** ** Failures in the extractor chain *)

Lemma first_match_failure check self before extractor after outcome :
  (forall e, In e before -> check e self = Some (Ok false)) ->
  check extractor self = outcome ->
  (outcome = None \/ exists err, outcome = Some (Err err)) ->
  first_match check self (before ++ extractor :: after) =
  match outcome with
  | Some (Err err) => Some (Err err)
  | _ => None
  end.
Proof.
  intros Hb He Hout. induction before as [|x before IH]; simpl.
  - rewrite He. destruct Hout as [->|[err ->]]; reflexivity.
  - rewrite (Hb x) by (left; reflexivity). simpl. apply IH.
    intros e Hin. apply Hb. right. exact Hin.
Qed.

(** X10: a check that raises, or that never returns, ends the
    classification at once, whatever the later extractors would answer.
    When every extractor before it has answered [False], the method
    [object_code] raises the check's error; the properties [trait_extractor]
    and [trait_code] raise it too, except that an [AttributeError] reaches
    their reader as an [AttributeError] for the property's own name.  When
    the check never returns, none of the three returns.  And when every
    check answers [False], [object_code] raises [ValueError("No recognized
    object code for schema with keys ...")] where [trait_code] says "trait
    code". *)
Theorem chain_failures check self before extractor after :
  trait_extractors = before ++ extractor :: after ->
  (forall e, In e before -> check e self = Some (Ok false)) ->
  (forall err emit_trait emit_object,
      check extractor self = Some (Err err) ->
      trait_extractor check None self =
        Some (Err (seen_through "trait_extractor" err)) /\
      trait_code check emit_trait self =
        Some (Err (seen_through "trait_code" err)) /\
      object_code check emit_object self = Some (Err err)) /\
  (forall emit_trait emit_object,
      check extractor self = None ->
      trait_extractor check None self = None /\
      trait_code check emit_trait self = None /\
      object_code check emit_object self = None) /\
  (forall d emit_trait emit_object,
      schema self = VDict d ->
      check extractor self = Some (Ok false) ->
      (forall e, In e after -> check e self = Some (Ok false)) ->
      trait_code check emit_trait self =
        Some (Err (ValueErrorKeys
                     "No recognized trait code for schema with keys {0}"
                     (dict_keys d))) /\
      object_code check emit_object self =
        Some (Err (ValueErrorKeys
                     "No recognized object code for schema with keys {0}"
                     (dict_keys d)))).
Proof.
  intros Hsplit Hb. split; [|split].
  - intros err emit_trait emit_object He.
    unfold trait_extractor, trait_code, object_code. rewrite Hsplit.
    rewrite (first_match_failure _ _ _ _ _ _ Hb He) by eauto.
    destruct err; repeat split.
  - intros emit_trait emit_object He.
    unfold trait_extractor, trait_code, object_code. rewrite Hsplit.
    rewrite (first_match_failure _ _ _ _ _ _ Hb He) by eauto.
    repeat split.
  - intros d emit_trait emit_object Hd He Ha.
    assert (Hnone : first_match check self trait_extractors = Some (Ok None)).
    { apply first_match_none. rewrite Hsplit. intros e Hin.
      apply in_app_or in Hin. destruct Hin as [Hin|[<-|Hin]]; auto. }
    unfold trait_code, object_code. rewrite Hnone. simpl.
    unfold no_trait_code, no_object_code, schema_keys. rewrite Hd.
    split; reflexivity.
Qed.

Lemma chain_failures_witness :
  trait_extractor ex_attribute_check None (root_of []) =
    Some (Err (AttributeError "trait_extractor")) /\
  trait_code ex_attribute_check (fun _ _ _ => Some (Ok "code")) (root_of []) =
    Some (Err (AttributeError "trait_code")) /\
  object_code ex_attribute_check (fun _ _ => Some (Ok "code")) (root_of []) =
    Some (Err (AttributeError "enum")).
Proof.
  destruct (chain_failures ex_attribute_check (root_of [])
              [ tx.AnyOfObject; tx.OneOfObject; tx.AllOfObject; tx.RefObject;
                tx.RefTrait; tx.Not; tx.AnyOf; tx.AllOf; tx.OneOf ]
              tx.Enum
              [ tx.SimpleType; tx.CompoundType; tx.Array; tx.Object ])
    as (H & _ & _).
  - reflexivity.
  - intros e Hin. simpl in Hin.
    repeat (destruct Hin as [<-|Hin]; [reflexivity|]). contradiction.
  - apply (H (AttributeError "enum") (fun _ _ _ => Some (Ok "code"))
             (fun _ _ => Some (Ok "code")) eq_refl).
Defined.

(** X11: the memo of [trait_extractor].  Once an access has found an
    extractor, every later access answers with that extractor and the same
    memo without running any check: the answer stays even under checks that
    would now choose otherwise or fail. *)
Theorem trait_extractor_memo check check' self extractor memo :
  trait_extractor check None self = Some (Ok (extractor, memo)) ->
  memo = Some extractor /\
  trait_extractor check' memo self = Some (Ok (extractor, memo)).
Proof.
  intros H. unfold trait_extractor in H.
  destruct (first_match check self trait_extractors) as [[[e|]|e]|];
    simpl in H; try discriminate.
  - injection H as <- <-. split; reflexivity.
  - unfold no_trait_code in H.
    destruct (schema_keys self) as [keys|e]; [|destruct e]; discriminate.
  - destruct e; discriminate.
Qed.

Lemma trait_extractor_memo_witness :
  trait_extractor ex_failing_check None (root_of []) = Some (Err TypeError) /\
  trait_extractor ex_failing_check (Some tx.Object) (root_of []) =
    Some (Ok (tx.Object, Some tx.Object)).
Proof.
  split; [reflexivity|].
  destruct (trait_extractor_memo ex_check ex_failing_check (root_of [])
              tx.Object (Some tx.Object) eq_refl) as [_ H].
  exact H.
Defined.

(** ** [wrapped_properties] *)

Lemma assoc_set_keys {A} (d : list (string * A)) key a :
  map fst (assoc_set d key a) =
  if existsb (String.eqb key) (map fst d) then map fst d else map fst d ++ [key].
Proof.
  induction d as [|[k b] d IH]; simpl; [reflexivity|].
  rewrite (String.eqb_sym key k).
  destruct (String.eqb k key); simpl; [reflexivity|].
  rewrite IH. destruct (existsb (String.eqb key) (map fst d)); reflexivity.
Qed.

Lemma assoc_set_NoDup {A} (d : list (string * A)) key a :
  NoDup (map fst d) -> NoDup (map fst (assoc_set d key a)).
Proof.
  intros H. rewrite assoc_set_keys.
  destruct (existsb (String.eqb key) (map fst d)) eqn:E; [exact H|].
  apply NoDup_app; [exact H|constructor; [intros []|constructor]|].
  intros k Hin [Hk|[]]. subst k.
  assert (existsb (String.eqb key) (map fst d) = true); [|congruence].
  apply existsb_exists. exists key. split; [exact Hin|apply String.eqb_refl].
Qed.

Lemma assoc_set_length {A} (d : list (string * A)) key a :
  (length (assoc_set d key a) <= S (length d))%nat.
Proof.
  induction d as [|[k b] d IH]; simpl; [lia|].
  destruct (String.eqb k key); simpl; lia.
Qed.

Lemma wrap_properties_shape regularize_name self props :
  forall acc entries,
    wrap_properties regularize_name self props acc = Ok entries ->
    NoDup (map fst acc) ->
    NoDup (map fst entries) /\
    (length entries <= length acc + length props)%nat.
Proof.
  induction props as [|[name0 val] props IH]; simpl; intros acc entries H Hnd.
  - injection H as <-. split; [exact Hnd|lia].
  - destruct (property_child self name0 val) as [child|] eqn:Hc; simpl in H;
      [|discriminate].
    destruct (IH _ _ H (assoc_set_NoDup _ _ _ Hnd)) as [Hn Hl].
    split; [exact Hn|].
    pose proof (assoc_set_length acc (regularize_name name0) child). lia.
Qed.

(** X12: the dict [wrapped_properties] returns is keyed by regularized
    names, each key once.  Under a key it holds the node made for the last
    property, in the order of the fragment, whose name regularizes to that
    key: properties whose names regularize alike collapse into one entry
    and the later one wins.  A key that no property regularizes to is
    absent. *)
Theorem wrapped_properties_lookup regularize_name self props entries :
  __getattr__ self "properties" = Ok (VDict props) ->
  wrapped_properties regularize_name self = Ok entries ->
  NoDup (map fst entries) /\
  (length entries <= length props)%nat /\
  forall key,
    match last_named regularize_name props key with
    | Some (name0, val) =>
        exists child,
          property_child self name0 val = Ok child /\
          assoc_get entries key = Some child
    | None => assoc_get entries key = None
    end.
Proof.
  intros Hp H. unfold wrapped_properties in H. rewrite Hp in H. simpl in H.
  destruct (wrap_properties_shape _ _ _ _ _ H (NoDup_nil _)) as [Hn Hl].
  split; [exact Hn|]. split; [exact Hl|].
  intros key. apply (wrap_properties_lookup _ _ _ _ _ H key).
Qed.

Lemma wrapped_properties_lookup_witness :
  exists entries child,
    wrapped_properties ex_regularize ex_colliding = Ok entries /\
    length entries = 1%nat /\
    assoc_get entries "a_b" = Some child /\
    schema child = VDict [("type", VStr "string")].
Proof.
  destruct (wrapped_properties ex_regularize ex_colliding) as [entries|] eqn:H;
    [|discriminate].
  destruct (wrapped_properties_lookup ex_regularize ex_colliding _ entries
              eq_refl H) as (_ & _ & Hlook).
  specialize (Hlook "a_b"). simpl in Hlook. destruct Hlook as (child & Hc & Hg).
  exists entries, child. split; [reflexivity|].
  injection H as <-. injection Hc as <-. repeat split.
Defined.

Lemma wrap_properties_all_dicts regularize_name self d props :
  schema self = VDict d ->
  (dict_get d "required" = None \/ exists l, dict_get d "required" = Some (VList l)) ->
  forall acc,
    wrap_properties regularize_name self props acc =
    if forallb (fun p => is_dict (snd p)) props
    then wrap_properties regularize_name self props acc
    else Err (ValueError "schema should be supplied as a dict").
Proof.
  intros Hs Hr. induction props as [|[name0 val] props IH]; intros acc; simpl.
  - reflexivity.
  - rewrite (property_child_list_required _ _ _ _ Hs Hr).
    destruct (is_dict val) eqn:Hd; simpl; [|reflexivity].
    destruct val; try discriminate. unfold make_child. rewrite init_dict. simpl.
    rewrite IH at 1.
    destruct (forallb (fun p => is_dict (snd p)) props); reflexivity.
Qed.

(** X13: when a node over a dict has a [required] that is a list, or has
    none, [wrapped_properties] succeeds exactly when [properties] is a dict
    (or absent) whose values are all dicts.  A [properties] that is not a
    dict raises [AttributeError]; one property whose schema is not a dict
    makes the whole call raise [ValueError("schema should be supplied as a
    dict")], and no partial dict is returned. *)
Theorem wrapped_properties_outcomes regularize_name self d :
  schema self = VDict d ->
  (dict_get d "required" = None \/ exists l, dict_get d "required" = Some (VList l)) ->
  (dict_get d "properties" = None ->
   wrapped_properties regularize_name self = Ok []) /\
  (forall v,
      dict_get d "properties" = Some v -> is_dict v = false ->
      wrapped_properties regularize_name self = Err (AttributeError "items")) /\
  (forall props,
      dict_get d "properties" = Some (VDict props) ->
      if forallb (fun p => is_dict (snd p)) props
      then exists entries, wrapped_properties regularize_name self = Ok entries
      else wrapped_properties regularize_name self =
           Err (ValueError "schema should be supplied as a dict")).
Proof.
  intros Hs Hr. unfold wrapped_properties, __getattr__. rewrite Hs. simpl.
  split; [intros ->; reflexivity|]. split.
  - intros v -> Hv. simpl. destruct v; try reflexivity. discriminate.
  - intros props ->. simpl.
    destruct (forallb (fun p => is_dict (snd p)) props) eqn:Hall.
    + apply (wrap_properties_succeeds _ _ _ _ Hs Hr Hall).
    + rewrite (wrap_properties_all_dicts _ _ _ _ Hs Hr), Hall. reflexivity.
Qed.

Lemma wrapped_properties_outcomes_witness :
  wrapped_properties (fun s => s)
    (root_of [("properties", VDict [("a", VDict []); ("b", VStr "string")])]) =
  Err (ValueError "schema should be supplied as a dict").
Proof.
  destruct (wrapped_properties_outcomes (fun s => s)
              (root_of [("properties", VDict [("a", VDict []); ("b", VStr "string")])])
              _ eq_refl (or_introl eq_refl)) as (_ & _ & H).
  apply (H [("a", VDict []); ("b", VStr "string")] eq_refl).
Defined.

(** ** [all_definitions] *)

Lemma key_eqb_str x k : key_eqb x (VStr k) = true -> x = VStr k.
Proof.
  destruct x as [|b|z|q|s|l|o]; simpl; try discriminate.
  intros H. apply String.eqb_eq in H. subst. reflexivity.
Qed.

Lemma pairs_get_setitem defs k v k' :
  pairs_get (setitem defs (VStr k) v) (VStr k') =
  if String.eqb k k' then Some v else pairs_get defs (VStr k').
Proof.
  induction defs as [|[x w] defs IH]; simpl.
  - reflexivity.
  - destruct (key_eqb x (VStr k)) eqn:E; simpl.
    + apply key_eqb_str in E. subst x. simpl.
      destruct (String.eqb k k'); reflexivity.
    + rewrite IH. destruct (key_eqb x (VStr k')) eqn:E'; [|reflexivity].
      apply key_eqb_str in E'. subst x. simpl in E.
      rewrite (String.eqb_sym k k'), E. reflexivity.
Qed.

Lemma setitem_string_keyed defs k v :
  string_keyed defs -> string_keyed (setitem defs (VStr k) v).
Proof.
  intros H. induction defs as [|[x w] defs IH]; simpl.
  - intros k' v' [[= <- <-]|[]]. eauto.
  - assert (Hrest : string_keyed defs)
      by (intros k' v' Hin; apply (H k' v'); right; exact Hin).
    destruct (key_eqb x (VStr k)).
    + intros k' v' [[= <- <-]|Hin]; [apply (H x w); left; reflexivity|].
      apply (H k' v'). right. exact Hin.
    + intros k' v' [[= <- <-]|Hin]; [apply (H x w); left; reflexivity|].
      apply (IH Hrest k' v' Hin).
Qed.

Lemma setitem_length defs k v : (length defs <= length (setitem defs k v))%nat.
Proof.
  induction defs as [|[x w] defs IH]; simpl; [lia|].
  destruct (key_eqb x k); simpl; lia.
Qed.

Lemma dict_get_not_key o key :
  ~ In key (dict_keys o) -> dict_get o key = None.
Proof.
  induction o as [|[k v] o IH]; simpl; [reflexivity|].
  intros H. destruct (String.eqb k key) eqn:E.
  - apply String.eqb_eq in E. subst. exfalso. apply H. left. reflexivity.
  - apply IH. intros Hin. apply H. right. exact Hin.
Qed.

Lemma fold_setitem o :
  NoDup (dict_keys o) ->
  forall defs,
    (string_keyed defs ->
     string_keyed
       (fold_left (fun acc kv => setitem acc (VStr (fst kv)) (snd kv)) o defs)) /\
    forall key,
      pairs_get
        (fold_left (fun acc kv => setitem acc (VStr (fst kv)) (snd kv)) o defs)
        (VStr key) =
      match dict_get o key with
      | Some v => Some v
      | None => pairs_get defs (VStr key)
      end.
Proof.
  induction o as [|[k v] o IH]; simpl; intros Hnd defs.
  - split; [auto|reflexivity].
  - inversion Hnd as [|k' o' Hnot Hnd']; subst.
    destruct (IH Hnd' (setitem defs (VStr k) v)) as [IHk IHg].
    split; [intros H; apply IHk, setitem_string_keyed, H|].
    intros key. rewrite IHg, pairs_get_setitem.
    destruct (String.eqb k key) eqn:E; [|reflexivity].
    apply String.eqb_eq in E. subst key.
    rewrite (dict_get_not_key _ _ Hnot). reflexivity.
Qed.

Lemma update_from_tags_merge self d tags :
  schema self = VDict d ->
  tags_well_formed d tags ->
  forall defs,
    string_keyed defs ->
    exists defs',
      update_from_tags self tags defs = Ok defs' /\
      string_keyed defs' /\
      forall key,
        pairs_get defs' (VStr key) =
        fold_left
          (fun acc tag =>
             match dict_get d tag with
             | Some (VDict o) =>
                 match dict_get o key with Some v => Some v | None => acc end
             | _ => acc
             end)
          tags (pairs_get defs (VStr key)).
Proof.
  intros Hs. induction tags as [|tag tags IH]; intros Hwf defs Hk; simpl.
  - exists defs. auto.
  - assert (Hwf' : tags_well_formed d tags).
    { intros t v Hin. apply Hwf. right. exact Hin. }
    rewrite Hs. simpl.
    destruct (dict_get d tag) as [v|] eqn:Hget; simpl.
    + destruct (Hwf tag v (or_introl eq_refl) Hget) as (o & -> & Hnd). simpl.
      destruct (fold_setitem o Hnd defs) as [Hkeys Hlook].
      destruct (IH Hwf' _ (Hkeys Hk)) as (defs' & Hu & Hk' & Hl).
      exists defs'. split; [exact Hu|]. split; [exact Hk'|].
      intros key. rewrite Hl, Hlook. reflexivity.
    + destruct (IH Hwf' _ Hk) as (defs' & Hu & Hk' & Hl).
      exists defs'. auto.
Qed.

(** X14: [all_definitions] merges the dicts found under the definition
    tags, in the order of the tags: it holds a name exactly when some tag's
    dict holds it, with the value from the last such tag.  A tag the
    fragment lacks contributes nothing, so a node with no definitions has
    the empty dict. *)
Theorem all_definitions_merge self d :
  schema self = VDict d ->
  tags_well_formed d (definition_tags self) ->
  exists defs,
    all_definitions self = Ok defs /\
    string_keyed defs /\
    (forall key,
        pairs_get defs (VStr key) =
        last_tag_binding d (definition_tags self) key) /\
    ((forall tag, In tag (definition_tags self) -> dict_get d tag = None) ->
     defs = []).
Proof.
  intros Hs Hwf.
  destruct (update_from_tags_merge self d _ Hs Hwf [])
    as (defs & Hu & Hk & Hl); [intros k v []|].
  exists defs. split; [unfold all_definitions; rewrite Hu; reflexivity|].
  split; [exact Hk|]. split; [exact Hl|].
  intros Hnone. revert Hu Hnone. clear Hl Hk Hwf.
  generalize (definition_tags self).
  induction l as [|tag tags IH]; simpl; intros Hu Hnone.
  - congruence.
  - rewrite Hs in Hu. simpl in Hu.
    rewrite (Hnone tag (or_introl eq_refl)) in Hu. simpl in Hu.
    apply IH; [exact Hu|]. intros t Hin. apply Hnone. right. exact Hin.
Qed.

Lemma all_definitions_merge_witness :
  exists defs,
    all_definitions ex_two_tags = Ok defs /\
    pairs_get defs (VStr "Color") = Some (VDict [("enum", VList [])]) /\
    pairs_get defs (VStr "Size") = Some (VDict []) /\
    pairs_get defs (VStr "Shape") = None.
Proof.
  destruct (all_definitions_merge ex_two_tags _ eq_refl) as (defs & Hd & _ & Hl & _).
  - intros tag v [<-|[<-|[]]] [= <-]; eexists; (split; [reflexivity|]);
      repeat constructor; simpl; intuition discriminate.
  - exists defs. split; [exact Hd|]. rewrite !Hl. repeat split.
Defined.

(** ** [wrapped_definitions] *)

Lemma wrap_definitions_lookup lower self defs :
  forall acc entries,
    wrap_definitions lower self defs acc = Ok entries ->
    forall key,
      match last_lowered lower (named defs) key with
      | Some (name0, schema0) =>
          exists child,
            make_child self schema0 (Some name0) None = Ok child /\
            assoc_get entries key = Some child
      | None => assoc_get entries key = assoc_get acc key
      end.
Proof.
  induction defs as [|[k schema0] defs IH]; simpl; intros acc entries H key.
  - injection H as <-. reflexivity.
  - destruct k as [| | | |name0| |]; try discriminate.
    destruct (make_child self schema0 (Some name0) None) as [child|] eqn:Hc;
      simpl in H; [|discriminate].
    specialize (IH _ _ H key). simpl.
    destruct (last_lowered lower (named defs) key) as [[n s]|]; [exact IH|].
    destruct (String.eqb (lower name0) key) eqn:E.
    + apply String.eqb_eq in E. subst key. exists child. split; [exact Hc|].
      rewrite IH. apply assoc_get_set_same.
    + rewrite IH. apply assoc_get_set_other. intros Heq. subst key.
      rewrite String.eqb_refl in E. discriminate.
Qed.

Lemma wrap_definitions_shape lower self defs :
  forall acc entries,
    wrap_definitions lower self defs acc = Ok entries ->
    NoDup (map fst acc) ->
    NoDup (map fst entries) /\
    (length entries <= length acc + length defs)%nat.
Proof.
  induction defs as [|[k schema0] defs IH]; simpl; intros acc entries H Hnd.
  - injection H as <-. split; [exact Hnd|lia].
  - destruct k as [| | | |name0| |]; try discriminate.
    destruct (make_child self schema0 (Some name0) None) as [child|] eqn:Hc;
      simpl in H; [|discriminate].
    destruct (IH _ _ H (assoc_set_NoDup _ _ _ Hnd)) as [Hn Hl].
    split; [exact Hn|].
    pose proof (assoc_set_length acc (lower name0) child). lia.
Qed.

Lemma wrap_definitions_outcome lower self defs :
  string_keyed defs ->
  forall acc,
    if forallb (fun p => is_dict (snd p)) defs
    then exists entries, wrap_definitions lower self defs acc = Ok entries
    else wrap_definitions lower self defs acc =
         Err (ValueError "schema should be supplied as a dict").
Proof.
  induction defs as [|[k schema0] defs IH]; simpl; intros Hk acc.
  - eauto.
  - destruct (Hk k schema0 (or_introl eq_refl)) as [name0 ->].
    assert (Hk' : string_keyed defs)
      by (intros k' v' Hin; apply (Hk k' v'); right; exact Hin).
    destruct (is_dict schema0) eqn:Hd; simpl.
    + destruct schema0; try discriminate. unfold make_child at 1.
      rewrite init_dict. simpl. apply IH. exact Hk'.
    + unfold make_child. rewrite (init_not_dict _ _ _ _ _ _ _ Hd). reflexivity.
Qed.

(** X15: [wrapped_definitions] wraps every definition of [all_definitions]
    as a child of the node, named with the definition's own name and filed
    under the lowered name, each key once: definitions whose names differ
    only in case collapse into one entry, and the later one wins.  One
    definition that is not a dict makes the whole call raise
    [ValueError("schema should be supplied as a dict")]. *)
Theorem wrapped_definitions_lookup lower self defs :
  all_definitions self = Ok defs ->
  string_keyed defs ->
  if forallb (fun p => is_dict (snd p)) defs
  then
    exists entries,
      wrapped_definitions lower self = Ok entries /\
      NoDup (map fst entries) /\
      (length entries <= length defs)%nat /\
      forall key,
        match last_lowered lower (named defs) key with
        | Some (name0, schema0) =>
            exists child,
              make_child self schema0 (Some name0) None = Ok child /\
              assoc_get entries key = Some child
        | None => assoc_get entries key = None
        end
  else
    wrapped_definitions lower self =
    Err (ValueError "schema should be supplied as a dict").
Proof.
  intros Hd Hk. unfold wrapped_definitions. rewrite Hd. simpl.
  pose proof (wrap_definitions_outcome lower self defs Hk []) as Hout.
  destruct (forallb (fun p => is_dict (snd p)) defs); [|exact Hout].
  destruct Hout as [entries He]. exists entries. split; [exact He|].
  destruct (wrap_definitions_shape _ _ _ _ _ He (NoDup_nil _)) as [Hn Hl].
  split; [exact Hn|]. split; [exact Hl|].
  intros key. apply (wrap_definitions_lookup _ _ _ _ _ He key).
Qed.

Lemma wrapped_definitions_lookup_witness :
  exists entries child,
    wrapped_definitions ex_lower ex_case_collision = Ok entries /\
    length entries = 1%nat /\
    assoc_get entries "color" = Some child /\
    name child = Some "COLOR" /\ parent child = Some ex_case_collision.
Proof.
  pose proof (wrapped_definitions_lookup ex_lower ex_case_collision
                [(VStr "Color", VDict [("type", VStr "string")]);
                 (VStr "COLOR", VDict [("enum", VList [])])] eq_refl) as H.
  simpl in H. destruct H as (entries & He & _ & _ & Hlook).
  - intros k v [[= <- <-]|[[= <- <-]|[]]]; eauto.
  - specialize (Hlook "color"). simpl in Hlook.
    destruct Hlook as (child & Hc & Hg).
    exists entries, child. injection He as <-. injection Hc as <-.
    repeat split.
Defined.

(** ** Class names *)

(** X16: an unnamed node that is not a root and holds a [$ref] takes its
    class name from the last segment of the reference, and so has the same
    class name as the node the reference resolves to, provided that the
    reference is walked and its last segment is not empty. *)
Theorem classname_of_reference regularize_name self r target :
  has_name self = false ->
  is_root self = false ->
  getitem (schema self) "$ref" = Ok (VStr r) ->
  ~ designates_root r ->
  last (split_slash r) "" <> "" ->
  wrapped_ref self = Ok target ->
  classname regularize_name self =
    Returns (regularize_name (last (split_slash r) "")) /\
  classname regularize_name target = classname regularize_name self.
Proof.
  intros Hname Hroot Hget Hn Hlast Hw.
  assert (Hself : classname regularize_name self =
                  Returns (regularize_name (last (split_slash r) ""))).
  { unfold classname, is_reference. rewrite Hname, Hroot.
    rewrite (contains_of_getitem _ _ _ Hget), Hget. reflexivity. }
  split; [exact Hself|]. rewrite Hself.
  unfold wrapped_ref, __getitem__ in Hw. rewrite Hget in Hw. simpl in Hw.
  destruct (get_reference_ok_cases _ _ _ Hw) as [_ [[Hd _]|[_ (_ & Hnm & _)]]];
    [contradiction|].
  unfold classname, has_name. rewrite Hnm. simpl.
  destruct (String.eqb (last (split_slash r) "") "") eqn:E;
    [apply String.eqb_eq in E; contradiction|reflexivity].
Qed.

Lemma classname_of_reference_witness :
  classname (fun s => s) ex_reference_branch = Returns "A" /\
  (exists target,
      wrapped_ref ex_reference_branch = Ok target /\
      classname (fun s => s) target = Returns "A").
Proof.
  destruct (classname_of_reference (fun s => s) ex_reference_branch
              "#/definitions/A"
              {| schema := VDict ex_fragment_A; module := Some "pkg";
                 parent := Some ex_reference_branch; name := Some "A";
                 metadata := []; context := Some ex_root;
                 definition_tags := default_definition_tags |})
    as [Hs Ht]; try reflexivity.
  - apply not_designates_root_definitions_A.
  - discriminate.
  - split; [exact Hs|].
    exists {| schema := VDict ex_fragment_A; module := Some "pkg";
              parent := Some ex_reference_branch; name := Some "A";
              metadata := []; context := Some ex_root;
              definition_tags := default_definition_tags |}.
    split; [reflexivity|]. rewrite Ht. exact Hs.
Defined.

Lemma classname_cases regularize_name self d :
  schema self = VDict d ->
  classname regularize_name self =
  if has_name self then Returns (regularize_name (or_else (name self) ""))
  else if is_root self then Returns "Root"
  else
    match dict_get d "$ref" with
    | None =>
        Raises (NotImplementedError "class name for schema with keys {0}"
                  (dict_keys d))
    | Some (VStr r) => Returns (regularize_name (last (split_slash r) ""))
    | Some _ => Raises (Raised (AttributeError "classname"))
    end.
Proof.
  intros Hs. unfold classname, is_reference, schema_keys. rewrite Hs. simpl.
  unfold dict_mem.
  destruct (has_name self); [reflexivity|].
  destruct (is_root self); [reflexivity|].
  destruct (dict_get d "$ref") as [[]|]; reflexivity.
Qed.

Lemma returns_empty_iff (c : string) (P : Prop) :
  ~ P ->
  (@Ok bool (negb (String.eqb c "")) = Ok false <->
   P \/ @Returns string c = Returns "").
Proof.
  intros HP. split.
  - intros [= H]. apply negb_false_iff, String.eqb_eq in H. subst. auto.
  - intros [H|[= ->]]; [contradiction|reflexivity].
Qed.

(** X17: on a node over a dict, [is_named_object] answers [False] exactly
    when the node has no name, is not a root and holds no [$ref] (the case
    in which [classname] raises [NotImplementedError]), or when the class
    name comes out empty.  It raises only on an unnamed node that is not a
    root and whose [$ref] is not a string: the [AttributeError] of
    [.split] is raised inside the property [classname], which
    [is_named_object], a property too, reads, so the reader sees an
    [AttributeError] for [is_named_object]. *)
Theorem is_named_object_outcomes regularize_name self d :
  schema self = VDict d ->
  (is_named_object regularize_name self = Ok false <->
   (has_name self = false /\ is_root self = false /\ dict_get d "$ref" = None) \/
   classname regularize_name self = Returns "") /\
  (forall e,
      is_named_object regularize_name self = Err e ->
      e = AttributeError "is_named_object" /\
      has_name self = false /\ is_root self = false /\
      exists v, dict_get d "$ref" = Some v /\ forall r, v <> VStr r) /\
  (has_name self = false -> is_root self = false -> dict_get d "$ref" = None ->
   classname regularize_name self =
   Raises (NotImplementedError "class name for schema with keys {0}" (dict_keys d))).
Proof.
  intros Hs. unfold is_named_object.
  rewrite (classname_cases regularize_name self d Hs).
  destruct (has_name self); [|destruct (is_root self)].
  - split; [|split]; try discriminate.
    apply returns_empty_iff. intros (H & _). discriminate.
  - split; [|split]; try discriminate.
    apply returns_empty_iff. intros (_ & H & _). discriminate.
  - destruct (dict_get d "$ref") as [v|] eqn:Hget.
    + assert (Hno : ~ (false = false /\ false = false /\ Some v = None))
        by (intros (_ & _ & H); discriminate).
      destruct v as [| | | |r| |];
        try (split; [|split]; [|intros e [= <-]|discriminate];
             [ split; [discriminate|intros [H|H]; [contradiction|discriminate]]
             | repeat split; eexists; split; [reflexivity|discriminate] ]).
      split; [|split]; try discriminate.
      apply returns_empty_iff. exact Hno.
    + split; [|split]; try discriminate.
      * split; [auto|reflexivity].
      * reflexivity.
Qed.

Lemma is_named_object_outcomes_witness :
  is_named_object (fun s => s) ex_anonymous = Ok false /\
  classname (fun s => s) ex_anonymous =
    Raises (NotImplementedError "class name for schema with keys {0}" ["type"]) /\
  classname (fun s => s) ex_numbered_ref =
    Raises (Raised (AttributeError "classname")) /\
  exists e,
    is_named_object (fun s => s) ex_numbered_ref = Err e /\
    e = AttributeError "is_named_object".
Proof.
  destruct (is_named_object_outcomes (fun s => s) ex_anonymous _ eq_refl)
    as (Hfalse & _ & Hraise).
  destruct (is_named_object_outcomes (fun s => s) ex_numbered_ref _ eq_refl)
    as (_ & Herr & _).
  split; [|split; [|split]].
  - apply Hfalse. left. repeat split.
  - apply Hraise; reflexivity.
  - reflexivity.
  - exists (AttributeError "is_named_object"). split; [reflexivity|].
    apply (Herr (AttributeError "is_named_object") eq_refl).
Defined.

(** ** [additional_traits] *)

(** X18: on a node over a dict, [additional_traits] is [repr(True)] when
    [additionalProperties] is absent and the [repr] of the value when that
    is a boolean or a number equal to one or zero ([1] gives ["1"], not
    ["True"]); in both cases no extractor is consulted.  A dict is wrapped
    as a child and its trait code put in brackets; what is not a code passes
    as the child's property [trait_code] gives it, except that an
    [AttributeError] (which that property already shows as one for
    [trait_code]) reaches the reader as one for [additional_traits].
    Anything else (a string, [None], a list, another number) raises
    [ValueError("schema should be supplied as a dict")]. *)
Theorem additional_traits_outcomes check emit repr self d :
  schema self = VDict d ->
  (dict_get d "additionalProperties" = None ->
   additional_traits check emit repr self = Some (Ok (repr (VBool true)))) /\
  (forall v,
      dict_get d "additionalProperties" = Some v -> is_true_or_false v = true ->
      additional_traits check emit repr self = Some (Ok (repr v))) /\
  (forall o,
      dict_get d "additionalProperties" = Some (VDict o) ->
      exists trait,
        make_child self (VDict o) None None = Ok trait /\
        trait_code_kwargs trait = [] /\
        additional_traits check emit repr self =
        as_property "additional_traits"
          (code <~ trait_code check emit trait ;;
           Some (Ok ("[" ++ code ++ "]")%string))) /\
  (forall v,
      dict_get d "additionalProperties" = Some v ->
      is_true_or_false v = false -> is_dict v = false ->
      additional_traits check emit repr self =
      Some (Err (ValueError "schema should be supplied as a dict"))).
Proof.
  intros Hs. unfold additional_traits, __getattr__. rewrite Hs. simpl.
  split; [intros ->; reflexivity|]. split; [|split].
  - intros v -> Hv. simpl. rewrite Hv. reflexivity.
  - intros o ->. simpl. unfold make_child. rewrite init_dict.
    eexists. split; [reflexivity|]. split; reflexivity.
  - intros v -> Hv Hd. simpl. rewrite Hv. unfold make_child.
    rewrite (init_not_dict _ _ _ _ _ _ _ Hd). reflexivity.
Qed.

Lemma additional_traits_outcomes_witness :
  additional_traits ex_check (fun _ _ _ => Some (Ok "code")) (fun _ => "repr")
    (root_of [("additionalProperties", VStr "yes")]) =
  Some (Err (ValueError "schema should be supplied as a dict")) /\
  additional_traits ex_check (fun _ _ _ => Some (Ok "code")) (fun _ => "repr")
    (root_of [("additionalProperties", VDict [])]) =
  Some (Ok "[code]") /\
  additional_traits ex_attribute_check (fun _ _ _ => Some (Ok "code"))
    (fun _ => "repr") (root_of [("additionalProperties", VDict [])]) =
  Some (Err (AttributeError "additional_traits")) /\
  additional_traits ex_failing_check (fun _ _ _ => Some (Ok "code"))
    (fun _ => "repr") (root_of [("additionalProperties", VDict [])]) =
  Some (Err TypeError).
Proof.
  destruct (additional_traits_outcomes ex_check (fun _ _ _ => Some (Ok "code"))
              (fun _ => "repr")
              (root_of [("additionalProperties", VStr "yes")]) _ eq_refl)
    as (_ & _ & _ & H).
  split; [apply (H (VStr "yes")); reflexivity|].
  split; [|split].
  - destruct (additional_traits_outcomes ex_check
                (fun _ _ _ => Some (Ok "code")) (fun _ => "repr")
                (root_of [("additionalProperties", VDict [])]) _ eq_refl)
      as (_ & _ & Hd & _).
    destruct (Hd [] eq_refl) as (trait & [= <-] & _ & ->). reflexivity.
  - destruct (additional_traits_outcomes ex_attribute_check
                (fun _ _ _ => Some (Ok "code")) (fun _ => "repr")
                (root_of [("additionalProperties", VDict [])]) _ eq_refl)
      as (_ & _ & Hd & _).
    destruct (Hd [] eq_refl) as (trait & [= <-] & _ & ->). reflexivity.
  - destruct (additional_traits_outcomes ex_failing_check
                (fun _ _ _ => Some (Ok "code")) (fun _ => "repr")
                (root_of [("additionalProperties", VDict [])]) _ eq_refl)
      as (_ & _ & Hd & _).
    destruct (Hd [] eq_refl) as (trait & [= <-] & _ & ->). reflexivity.
Defined.

(** ** Attribute access *)

Lemma dict_get_in_keys d key :
  (exists v, dict_get d key = Some v) <-> In key (dict_keys d).
Proof.
  induction d as [|[k v] d IH]; simpl.
  - split; [intros [v H]; discriminate|contradiction].
  - destruct (String.eqb k key) eqn:E.
    + apply String.eqb_eq in E. subst. split; eauto.
    + rewrite IH. split; [auto|]. intros [->|H]; [|exact H].
      rewrite String.eqb_refl in E. discriminate.
Qed.

(** X19: [__getattr__] on a node over a dict never fails for the nine names
    of [attr_defaults]; for any other name it raises [AttributeError], also
    when the fragment holds that key: [node.enum] fails on
    [{"enum": [...]}]. *)
Theorem getattr_outside_defaults self d attr :
  schema self = VDict d ->
  (In attr (dict_keys attr_defaults) -> exists v, __getattr__ self attr = Ok v) /\
  (~ In attr (dict_keys attr_defaults) ->
   __getattr__ self attr = Err (AttributeError attr)).
Proof.
  intros Hs. unfold __getattr__. rewrite Hs. split.
  - intros Hin. apply dict_get_in_keys in Hin. destruct Hin as [default ->].
    simpl. destruct (dict_get d attr); eauto.
  - intros Hnot. destruct (dict_get attr_defaults attr) as [default|] eqn:E;
      [|reflexivity].
    exfalso. apply Hnot. apply dict_get_in_keys. eauto.
Qed.

Lemma getattr_outside_defaults_witness :
  __getattr__ (root_of [("enum", VList [VInt 1])]) "enum" =
  Err (AttributeError "enum").
Proof.
  apply (getattr_outside_defaults (root_of [("enum", VList [VInt 1])])
           [("enum", VList [VInt 1])] "enum" eq_refl).
  simpl. intuition discriminate.
Defined.
